(** * BizOptima data manager: entity store, CSV / spreadsheet adapters

    A shallow embedding of [src/services/dataManager.ts].  The class
    [DataManager] keeps three in-memory collections and writes them through
    to [localStorage] after every mutation.  Each method is rendered as a
    function over an explicit [World] (the object's fields together with the
    contents of [localStorage]).

    Modelling conventions.
    - A JavaScript Number is an IEEE 754 binary64 value, held as a
      [spec_float] in canonical form; subtraction is the library's
      round-to-nearest-even [SFsub].  A field of type [number] holds a
      Number or, after a reload, [null] (what JSON makes of [NaN] and of an
      infinity).  [Number(s)] and the printing of a number follow
      ECMAScript's StringToNumber and Number::toString, with a numeral
      rounded to the nearest double whatever its length.
    - A string is a [string] of 8-bit code units.
    - A [Date] is its time value in milliseconds.  After a reload the two
      dates of the profile are the ISO strings JSON made of them; the store
      only copies these two fields, tests them with [||], stringifies them
      and hands them to the sheet writer, none of which depends on anything
      but the time value, so both forms are held as the time value.
    - The host functions the class calls ([Date.parse], the clock,
      [Math.random]) are inputs: the parser is the class [HostDate], the
      clock readings and the random digits are fields of [Env].
    - [Array.prototype.sort] is a stable insertion sort.
    - [localStorage] maps a key to the text stored under it.  A text is
      held by what [JSON.parse] makes of it: it is rejected, or it is the
      empty string, or it is [JSON.stringify] of an entity, which is then
      held as [snapshot] of that entity.  [JSON.stringify] followed by
      [JSON.parse] gives back every string and every finite number, gives
      [0] for [-0] and [null] for [NaN] and the infinities.  A text that
      parses to a value of another shape than the one its key is written
      with is outside the model.
    - [localStorage.setItem] is taken to succeed.
    - A spreadsheet cell under a column the store reads as text (date,
      metric, company name, industry, unit, category) is a text cell; where
      a sheet has a number there, the model holds the number by its printed
      form, while the code would keep the number itself in the field. *)

From Stdlib Require Import ZArith String Ascii List Bool Lia.
From Stdlib Require Import Sorting.Sorted Sorting.Permutation.
From Stdlib Require Import Floats.SpecFloat.
From stdpp Require Import base gmap strings list sorting.

Local Open Scope string_scope.
Local Open Scope list_scope.
Local Open Scope Z_scope.

(* ===================================================================== *)
(** ** JavaScript values *)
(* ===================================================================== *)

(** The binary64 format. *)
Definition prec : Z := 53.
Definition emax : Z := 1024.

(** What a field of type [number] holds: a Number, or [null]. *)
Inductive number : Type :=
| Float (f : spec_float)
| Null.

#[global] Instance spec_float_eq_dec : EqDecision spec_float.
Proof. solve_decision. Defined.
#[global] Instance number_eq_dec : EqDecision number.
Proof. solve_decision. Defined.

(** The Number value for an integer: the nearest double, the integer itself
    up to [2^53] in magnitude. *)
Definition Num (z : Z) : number := Float (binary_normalize prec emax z 0 false).

Definition NaN : number := Float S754_nan.

(** ToBoolean on such a field: [0], [-0], [NaN] and [null] are falsy. *)
Definition truthyNum (n : number) : bool :=
  match n with
  | Float (S754_finite _ _ _) | Float (S754_infinity _) => true
  | Float (S754_zero _) | Float S754_nan | Null => false
  end.

(** ToNumber on such a field: [null] counts as [0]. *)
Definition ToNumber (n : number) : spec_float :=
  match n with
  | Float f => f
  | Null => S754_zero false
  end.

(** ToBoolean on a string: only the empty string is falsy. *)
Definition truthyStr (s : string) : bool :=
  match s with
  | EmptyString => false
  | String _ _ => true
  end.

(** [n || 0]. *)
Definition orZero (n : number) : number :=
  if truthyNum n then n else Num 0.

(** [a - b]. *)
Definition jsSub (a b : number) : number :=
  Float (SFsub prec emax (ToNumber a) (ToNumber b)).

(** [shifted j q] is [q * 2^j]: the mantissa [q] moved up by [j] bits. *)
Definition shifted (j : nat) (q : positive) : positive := Nat.iter j xO q.

(** What [JSON.parse(JSON.stringify(n))] is. *)
Definition jsonNumber (n : number) : number :=
  match n with
  | Float (S754_finite _ _ _) => n
  | Float (S754_zero _) => Num 0
  | Float (S754_infinity _) | Float S754_nan | Null => Null
  end.

(** [o || 0] for an optional numeric property. *)
Definition numOrZero (o : option number) : number :=
  match o with
  | Some n => orZero n
  | None => Num 0
  end.

(** [o || ''] for an optional text property. *)
Definition strOrEmpty (o : option string) : string :=
  match o with
  | Some s => if truthyStr s then s else ""
  | None => ""
  end.

(** [a || b] where both sides may be [undefined]. *)
Definition orElseStr (a b : option string) : option string :=
  match a with
  | Some s => if truthyStr s then a else b
  | None => b
  end.

(* ===================================================================== *)
(** ** Text primitives *)
(* ===================================================================== *)

Definition comma : ascii := ","%char.
Definition newline : ascii := "010"%char.
Definition dquote : ascii := ascii_of_nat 34.

(** White space removed by [String.prototype.trim], within 8-bit code
    units: TAB, LF, VT, FF, CR, SPACE and NBSP. *)
Definition isWhite (c : ascii) : bool :=
  let n := nat_of_ascii c in
  ((9 <=? n)%nat && (n <=? 13)%nat) || (n =? 32)%nat || (n =? 160)%nat.

Fixpoint trimStart (s : string) : string :=
  match s with
  | EmptyString => EmptyString
  | String c s' => if isWhite c then trimStart s' else s
  end.

Fixpoint trimEnd (s : string) : string :=
  match s with
  | EmptyString => EmptyString
  | String c s' =>
      match trimEnd s' with
      | EmptyString => if isWhite c then EmptyString else String c EmptyString
      | t => String c t
      end
  end.

Definition trim (s : string) : string := trimEnd (trimStart s).

(** A line of white space only, the empty line among them. *)
Fixpoint allWhite (s : string) : bool :=
  match s with
  | EmptyString => true
  | String c s' => isWhite c && allWhite s'
  end.

(** [s.split(sep)] for a one-character separator: never returns an empty
    array; the empty string gives one empty field. *)
Fixpoint split (sep : ascii) (s : string) : list string :=
  match s with
  | EmptyString => [EmptyString]
  | String c s' =>
      if Ascii.eqb c sep then EmptyString :: split sep s'
      else match split sep s' with
           | f :: fs => String c f :: fs
           | [] => [String c EmptyString]
           end
  end.

(** [parts.join(sep)]. *)
Fixpoint join (sep : string) (parts : list string) : string :=
  match parts with
  | [] => ""
  | [p] => p
  | p :: ps => p +:+ sep +:+ join sep ps
  end.

(** [s.replace(/dquote/g, '')]: every double-quote character is removed. *)
Fixpoint stripQuotes (s : string) : string :=
  match s with
  | EmptyString => EmptyString
  | String c s' =>
      if Ascii.eqb c dquote then stripQuotes s' else String c (stripQuotes s')
  end.

Fixpoint occurs (c : ascii) (s : string) : bool :=
  match s with
  | EmptyString => false
  | String d s' => Ascii.eqb d c || occurs c s'
  end.

(** Characters that the field clean-up keeps and that do not end a field:
    no white space, comma or double quote. *)
Definition plainChar (c : ascii) : bool :=
  negb (isWhite c) && negb (Ascii.eqb c comma) && negb (Ascii.eqb c dquote).

Fixpoint allPlain (s : string) : bool :=
  match s with
  | EmptyString => true
  | String c s' => plainChar c && allPlain s'
  end.

(** The first [n] characters of a string, and the string without them. *)
Fixpoint takeChars (n : nat) (s : string) : string :=
  match n, s with
  | O, _ => EmptyString
  | S n', String c s' => String c (takeChars n' s')
  | S _, EmptyString => EmptyString
  end.

Fixpoint dropChars (n : nat) (s : string) : string :=
  match n, s with
  | O, _ => s
  | S n', String _ s' => dropChars n' s'
  | S _, EmptyString => EmptyString
  end.

(* ===================================================================== *)
(** ** Numbers and text *)
(* ===================================================================== *)

Definition isDigit (c : ascii) : bool :=
  let n := nat_of_ascii c in (48 <=? n)%nat && (n <=? 57)%nat.

Definition digitValue (c : ascii) : Z := Z.of_nat (nat_of_ascii c) - 48.

(** The longest run of decimal digits at the start of [s]: its value (after
    [acc]), the number of digits (after [len]) and what follows. *)
Fixpoint spanDigits (s : string) (acc len : Z) : Z * Z * string :=
  match s with
  | String c s' =>
      if isDigit c then spanDigits s' (10 * acc + digitValue c) (len + 1)
      else (acc, len, s)
  | EmptyString => (acc, len, s)
  end.

(** The value of a non-empty string of decimal digits. *)
Definition digitsValue (s : string) : option Z :=
  match spanDigits s 0 0 with
  | (v, len, EmptyString) => if 0 <? len then Some v else None
  | _ => None
  end.

(** The number of decimal digits of a positive integer; [fuel] bounds it
    from above. *)
Fixpoint digits10_go (fuel : nat) (z : Z) : Z :=
  match fuel with
  | O => 1
  | S fuel' => if z <? 10 then 1 else 1 + digits10_go fuel' (z / 10)
  end.

Definition digits10 (m : positive) : Z :=
  digits10_go (Z.to_nat (Z.log2 (Zpos m))) (Zpos m).

(** The Number value for [m * 10^x], [m > 0]: the nearest double, ties to
    even.  From [10^309] on that is an infinity and below [10^-325] a zero,
    which is decided before any power of ten is computed. *)
Definition decimalToDouble (neg : bool) (m : positive) (x : Z) : spec_float :=
  if 310 <=? digits10 m + x then S754_infinity neg
  else if digits10 m + x <=? -325 then S754_zero neg
  else if 0 <=? x then
    binary_normalize prec emax (cond_Zopp neg (Zpos m * 10 ^ x)) 0 false
  else
    let '(q, e, l) := SFdiv_core_binary prec emax (Zpos m) 0 (10 ^ (- x)) 0 in
    binary_round_aux prec emax neg q e l.

Definition decimalValue (neg : bool) (m x : Z) : spec_float :=
  match m with
  | Zpos p => decimalToDouble neg p x
  | _ => S754_zero neg
  end.

(** ExponentPart, or nothing: [e] or [E], an optional sign, digits. *)
Definition exponentPart (s : string) : option Z :=
  match s with
  | EmptyString => Some 0
  | String c s' =>
      if Ascii.eqb c "e" || Ascii.eqb c "E" then
        let '(neg, ds) :=
          match s' with
          | String "-" t => (true, t)
          | String "+" t => (false, t)
          | _ => (false, s')
          end in
        match digitsValue ds with
        | Some v => Some (if neg then - v else v)
        | None => None
        end
      else None
  end.

(** StrUnsignedDecimalLiteral: [Infinity], or digits with an optional
    fraction and an optional exponent, with at least one digit before or
    after the point. *)
Definition unsignedDecimal (neg : bool) (s : string) : spec_float :=
  if String.eqb s "Infinity" then S754_infinity neg
  else
    let '(i, ni, r1) := spanDigits s 0 0 in
    let '(f, nf, r2) :=
      match r1 with
      | String "." t => spanDigits t 0 0
      | _ => (0, 0, r1)
      end in
    if 0 <? ni + nf then
      match exponentPart r2 with
      | Some x => decimalValue neg (i * 10 ^ nf + f) (x - nf)
      | None => S754_nan
      end
    else S754_nan.

Definition radixDigit (radix : Z) (c : ascii) : option Z :=
  let n := Z.of_nat (nat_of_ascii c) in
  let d := if (48 <=? n) && (n <=? 57) then n - 48
           else if (97 <=? n) && (n <=? 102) then n - 87
           else if (65 <=? n) && (n <=? 70) then n - 55
           else radix in
  if d <? radix then Some d else None.

Fixpoint radixValue (radix : Z) (s : string) (acc : Z) : option Z :=
  match s with
  | EmptyString => Some acc
  | String c s' =>
      match radixDigit radix c with
      | Some d => radixValue radix s' (radix * acc + d)
      | None => None
      end
  end.

(** NonDecimalIntegerLiteral: [0x], [0o] or [0b] in either case, then at
    least one digit of that radix; it takes no sign. *)
Definition nonDecimal (s : string) : option spec_float :=
  match s with
  | String "0" (String p (String d ds)) =>
      let radix :=
        if Ascii.eqb p "x" || Ascii.eqb p "X" then Some 16
        else if Ascii.eqb p "o" || Ascii.eqb p "O" then Some 8
        else if Ascii.eqb p "b" || Ascii.eqb p "B" then Some 2
        else None in
      match radix with
      | Some r =>
          match radixValue r (String d ds) 0 with
          | Some v => Some (binary_normalize prec emax v 0 false)
          | None => None
          end
      | None => None
      end
  | _ => None
  end.

(** [Number(s)] on a string (StringToNumber): surrounding white space is
    ignored, the empty string is [0], text that is no numeral is [NaN]. *)
Definition Number_ (s : string) : number :=
  match trim s with
  | EmptyString => Num 0
  | String c u as t =>
      match nonDecimal t with
      | Some v => Float v
      | None =>
          if Ascii.eqb c "-" then Float (unsignedDecimal true u)
          else if Ascii.eqb c "+" then Float (unsignedDecimal false u)
          else Float (unsignedDecimal false t)
      end
  end.

(** [Number(v)] where [v] may be [undefined]. *)
Definition NumberOpt (o : option string) : number :=
  match o with
  | Some s => Number_ s
  | None => NaN
  end.

(** The character of a decimal digit. *)
Definition digitChar (d : Z) : ascii := ascii_of_nat (Z.to_nat (48 + d)).

(** The decimal digits of a natural number, put before [acc]; [fuel]
    bounds their number from above. *)
Fixpoint digitsOf_go (fuel : nat) (z : Z) (acc : string) : string :=
  match fuel with
  | O => String (digitChar (z mod 10)) acc
  | S fuel' =>
      let acc' := String (digitChar (z mod 10)) acc in
      if z <? 10 then acc' else digitsOf_go fuel' (z / 10) acc'
  end.

Definition digitsOf (z : Z) : string :=
  digitsOf_go (Z.to_nat (Z.log2 z)) z "".

Fixpoint zeros (n : nat) : string :=
  match n with
  | O => EmptyString
  | S n' => String "0" (zeros n')
  end.

(** For [num < den]: the least [j >= 0] with [den <= num * 10^(j+1)]. *)
Fixpoint leadingZeros (fuel : nat) (num den j : Z) : Z :=
  match fuel with
  | O => j
  | S fuel' =>
      if den <=? 10 * num then j else leadingZeros fuel' (10 * num) den (j + 1)
  end.

(** The decimal position [n] of [v = m * 2^e]: [10^(n-1) <= v < 10^n]. *)
Definition position (m : positive) (e : Z) : Z :=
  if 0 <=? e then digits10 (Z.to_pos (Zpos m * 2 ^ e))
  else
    let den := 2 ^ (- e) in
    match Zpos m / den with
    | Zpos q => digits10 q
    | _ => - leadingZeros 400 (Zpos m) den 0
    end.

(** The digits [s] of Number::toString for [v = m * 2^e], if there are some
    of length [k]: an integer [s] with [10^(k-1) <= s <= 10^k] such that the
    Number value for [s * 10^(n-k)] is [v].  Such an [s] is next to
    [v / 10^(n-k)], below or above; of two, the one closer to [v] is
    taken, and the even one when they are as close. *)
Definition candidate (m : positive) (e n k : Z) : option Z :=
  let t := n - k in
  let num := Zpos m * 2 ^ (Z.max e 0) * 10 ^ (Z.max (- t) 0) in
  let den := 2 ^ (Z.max (- e) 0) * 10 ^ (Z.max t 0) in
  let lo := num / den in
  let r := num mod den in
  let hi := lo + 1 in
  let reads s := bool_decide (decimalValue false s t = S754_finite false m e) in
  match reads lo, reads hi with
  | true, true =>
      Some (match 2 * r ?= den with
            | Lt => lo
            | Gt => hi
            | Eq => if Z.even lo then lo else hi
            end)
  | true, false => Some lo
  | false, true => Some hi
  | false, false => None
  end.

(** The least [k] from [k] on that has digits, with them; seventeen digits
    tell any two doubles apart, so the search ends there. *)
Fixpoint shortest (fuel : nat) (m : positive) (e n k : Z) : Z * Z :=
  match candidate m e n k with
  | Some s => (s, k)
  | None =>
      match fuel with
      | O => (Zpos m * 2 ^ (Z.max e 0) * 10 ^ (Z.max (k - n) 0)
              / (2 ^ (Z.max (- e) 0) * 10 ^ (Z.max (n - k) 0)), k)
      | S fuel' => shortest fuel' m e n (k + 1)
      end
  end.

(** The digits [s], their number [k] and the position [n] laid out as
    Number::toString prescribes: plain digits up to [10^21], a leading
    [0.] down to [10^-6], and the exponent form beyond. *)
Definition layout (s k n : Z) : string :=
  let ds := digitsOf s in
  if (k <=? n) && (n <=? 21) then ds +:+ zeros (Z.to_nat (n - k))
  else if (0 <? n) && (n <=? 21) then
    takeChars (Z.to_nat n) ds +:+ "." +:+ dropChars (Z.to_nat n) ds
  else if (-6 <? n) && (n <=? 0) then "0." +:+ zeros (Z.to_nat (- n)) +:+ ds
  else
    let x := n - 1 in
    let xs := (if x <? 0 then "-" else "+") +:+ digitsOf (Z.abs x) in
    if k =? 1 then ds +:+ "e" +:+ xs
    else takeChars 1 ds +:+ "." +:+ dropChars 1 ds +:+ "e" +:+ xs.

Definition finiteToString (m : positive) (e : Z) : string :=
  let n := position m e in
  let '(s, k) := shortest 16 m e n 1 in
  if s =? 10 ^ k then layout 1 1 (n + 1) else layout s k n.

(** Number to string, [`${n}`] (Number::toString, and ["null"]). *)
Definition numToString (n : number) : string :=
  match n with
  | Null => "null"
  | Float S754_nan => "NaN"
  | Float (S754_zero _) => "0"
  | Float (S754_infinity s) => if s then "-Infinity" else "Infinity"
  | Float (S754_finite s m e) =>
      (if s then "-" else "") +:+ finiteToString m e
  end.

(** [n.toString(36)] for an integer. *)
Definition digit36 (d : Z) : ascii :=
  if d <? 10 then ascii_of_nat (Z.to_nat (48 + d))
  else ascii_of_nat (Z.to_nat (87 + d)).

Fixpoint toBase36_go (fuel : nat) (n : Z) (acc : string) : string :=
  match fuel with
  | O => acc
  | S fuel' =>
      let acc' := String (digit36 (n mod 36)) acc in
      if n / 36 =? 0 then acc' else toBase36_go fuel' (n / 36) acc'
  end.

Definition toBase36 (n : Z) : string :=
  if n <? 0 then String "-"%char (toBase36_go (Z.to_nat (Z.log2 (- n)) + 1) (- n) "")
  else toBase36_go (Z.to_nat (Z.log2 n) + 1) n "".

(* ===================================================================== *)
(** ** Entities *)
(* ===================================================================== *)

Definition Date := Z.

Record BusinessData : Type := mkBusinessData {
  id : string;
  companyName : string;
  industry : string;
  employees : number;
  revenue : number;
  costs : number;
  assets : number;
  liabilities : number;
  cashFlow : number;
  createdAt : Date;
  updatedAt : Date
}.

(** [Partial<BusinessData>]. *)
Record PartialBusinessData : Type := mkPartialBusinessData {
  p_id : option string;
  p_companyName : option string;
  p_industry : option string;
  p_employees : option number;
  p_revenue : option number;
  p_costs : option number;
  p_assets : option number;
  p_liabilities : option number;
  p_cashFlow : option number;
  p_createdAt : option Date;
  p_updatedAt : option Date
}.

Record FinancialRecord : Type := mkFinancialRecord {
  date : string;
  r_revenue : number;
  expenses : number;
  profit : number;
  r_cashFlow : number
}.

(** The argument of [addFinancialRecord]: [date] is optional. *)
Record NewFinancialRecord : Type := mkNewFinancialRecord {
  n_date : option string;
  n_revenue : number;
  n_expenses : number;
  n_profit : number;
  n_cashFlow : number
}.

(** [Partial<FinancialRecord>]. *)
Record PartialFinancialRecord : Type := mkPartialFinancialRecord {
  u_date : option string;
  u_revenue : option number;
  u_expenses : option number;
  u_profit : option number;
  u_cashFlow : option number
}.

(** [category] is kept as the string the object holds: the import casts
    whatever the sheet contains to the union type without checking it. *)
Record KPIData : Type := mkKPIData {
  metric : string;
  value : number;
  target : number;
  unit_ : string;
  category : string
}.

(** [Partial<KPIData>]. *)
Record PartialKPIData : Type := mkPartialKPIData {
  k_metric : option string;
  k_value : option number;
  k_target : option number;
  k_unit : option string;
  k_category : option string
}.

#[global] Instance BusinessData_eq_dec : EqDecision BusinessData.
Proof. solve_decision. Defined.
#[global] Instance FinancialRecord_eq_dec : EqDecision FinancialRecord.
Proof. solve_decision. Defined.
#[global] Instance KPIData_eq_dec : EqDecision KPIData.
Proof. solve_decision. Defined.

(* ===================================================================== *)
(** ** The store and its durable copy *)
(* ===================================================================== *)

(** A text held in [localStorage]: [JSON.stringify] of a profile, of a list
    of records or of a list of indicators; or the empty string; or a text
    that [JSON.parse] rejects. *)
Inductive snapshot : Type :=
| SnapProfile (b : BusinessData)
| SnapRecords (rs : list FinancialRecord)
| SnapKPIs (ks : list KPIData)
| SnapEmpty
| SnapGarbled.

(** What [JSON.parse(JSON.stringify(x))] is, for the three entities. *)
Definition jsonProfile (b : BusinessData) : BusinessData :=
  {| id := id b; companyName := companyName b; industry := industry b;
     employees := jsonNumber (employees b); revenue := jsonNumber (revenue b);
     costs := jsonNumber (costs b); assets := jsonNumber (assets b);
     liabilities := jsonNumber (liabilities b);
     cashFlow := jsonNumber (cashFlow b);
     createdAt := createdAt b; updatedAt := updatedAt b |}.

Definition jsonRecord (r : FinancialRecord) : FinancialRecord :=
  {| date := date r; r_revenue := jsonNumber (r_revenue r);
     expenses := jsonNumber (expenses r); profit := jsonNumber (profit r);
     r_cashFlow := jsonNumber (r_cashFlow r) |}.

Definition jsonKPI (k : KPIData) : KPIData :=
  {| metric := metric k; value := jsonNumber (value k);
     target := jsonNumber (target k); unit_ := unit_ k;
     category := category k |}.

Definition BUSINESS_DATA_KEY : string := "bizoptima_business_data".
Definition FINANCIAL_RECORDS_KEY : string := "bizoptima_financial_records".
Definition KPI_DATA_KEY : string := "bizoptima_kpi_data".

Record World : Type := mkWorld {
  businessData : option BusinessData;
  financialRecords : list FinancialRecord;
  kpiData : list KPIData;
  localStorage : gmap string snapshot
}.

(** What the host supplies during one call. *)
Record Env : Type := mkEnv {
  now : Date;              (* new Date() *)
  idStamp : Z;             (* Date.now() inside generateId *)
  random36 : string;       (* Math.random().toString(36).substr(2) *)
  today : string           (* new Date().toISOString().split('T')[0] *)
}.

Definition saveToStorage (w : World) : World :=
  let ls1 :=
    match businessData w with
    | Some b => <[BUSINESS_DATA_KEY := SnapProfile b]> (localStorage w)
    | None => localStorage w
    end in
  let ls2 := <[FINANCIAL_RECORDS_KEY := SnapRecords (financialRecords w)]> ls1 in
  let ls3 := <[KPI_DATA_KEY := SnapKPIs (kpiData w)]> ls2 in
  mkWorld (businessData w) (financialRecords w) (kpiData w) ls3.

(** [JSON.parse] rejects the text under the key. *)
Definition garbled (ls : gmap string snapshot) (key : string) : bool :=
  match ls !! key with
  | Some SnapGarbled => true
  | _ => false
  end.

(** The constructor: the fields start as [null], [[]] and [[]], and
    [loadFromStorage] reads the three keys in turn, each one only when the
    text under it is not empty.  One [try] is around the three reads: when
    [JSON.parse] throws on a key, that key and the ones after it are not
    loaded. *)
Definition loadFromStorage (ls : gmap string snapshot) : World :=
  let b := match ls !! BUSINESS_DATA_KEY with
           | Some (SnapProfile b) => Some (jsonProfile b)
           | _ => None
           end in
  let rs := match ls !! FINANCIAL_RECORDS_KEY with
            | Some (SnapRecords rs) => jsonRecord <$> rs
            | _ => []
            end in
  let ks := match ls !! KPI_DATA_KEY with
            | Some (SnapKPIs ks) => jsonKPI <$> ks
            | _ => []
            end in
  if garbled ls BUSINESS_DATA_KEY then mkWorld None [] [] ls
  else if garbled ls FINANCIAL_RECORDS_KEY then mkWorld b [] [] ls
  else if garbled ls KPI_DATA_KEY then mkWorld b rs [] ls
  else mkWorld b rs ks ls.

Definition generateId (e : Env) : string :=
  toBase36 (idStamp e) +:+ random36 e.

Definition setBusinessData (e : Env) (data : PartialBusinessData) (w : World) : World :=
  let b := {|
    id := match p_id data with
          | Some s => if truthyStr s then s else generateId e
          | None => generateId e
          end;
    companyName := strOrEmpty (p_companyName data);
    industry := strOrEmpty (p_industry data);
    employees := numOrZero (p_employees data);
    revenue := numOrZero (p_revenue data);
    costs := numOrZero (p_costs data);
    assets := numOrZero (p_assets data);
    liabilities := numOrZero (p_liabilities data);
    cashFlow := numOrZero (p_cashFlow data);
    createdAt := match p_createdAt data with
                 | Some d => d
                 | None => now e
                 end;
    updatedAt := now e
  |} in
  saveToStorage (mkWorld (Some b) (financialRecords w) (kpiData w) (localStorage w)).

Definition getBusinessData (w : World) : option BusinessData := businessData w.
Definition getFinancialRecords (w : World) : list FinancialRecord := financialRecords w.
Definition getKPIData (w : World) : list KPIData := kpiData w.

Definition clearAllData (w : World) : World :=
  saveToStorage (mkWorld None [] [] (localStorage w)).

Record FinancialMetrics : Type := mkFinancialMetrics {
  m_revenue : number;
  m_costs : number;
  grossProfit : number;
  netProfit : number;
  m_assets : number;
  m_liabilities : number;
  equity : number;
  m_cashFlow : number;
  m_expenses : number
}.

Definition getFinancialMetrics (w : World) : option FinancialMetrics :=
  match businessData w with
  | None => None
  | Some b =>
      let grossProfit := jsSub (revenue b) (costs b) in
      let netProfit := grossProfit in
      let equity := jsSub (assets b) (liabilities b) in
      Some {|
        m_revenue := revenue b;
        m_costs := costs b;
        grossProfit := grossProfit;
        netProfit := netProfit;
        m_assets := assets b;
        m_liabilities := liabilities b;
        equity := equity;
        m_cashFlow := cashFlow b;
        m_expenses := costs b
      |}
  end.

Definition emptyWorld : World := mkWorld None [] [] ∅.

(* ===================================================================== *)
(** ** The host's date parser *)
(* ===================================================================== *)

(** [new Date(s).getTime()]: the time value of a date string, [None] when
    the host answers [NaN] (an invalid date).  Which strings parse is up to
    the host, so the store is defined over any such parser. *)
Class HostDate : Type := { Date_parse : string -> option Z }.

(** One admissible parser, used for concrete runs: the date-only ISO form
    [YYYY-MM-DD], read as UTC midnight. *)
Definition isLeap (y : Z) : bool :=
  ((y mod 4 =? 0) && negb (y mod 100 =? 0)) || (y mod 400 =? 0).

Definition daysInMonth (y m : Z) : Z :=
  if m =? 2 then (if isLeap y then 29 else 28)
  else if (m =? 4) || (m =? 6) || (m =? 9) || (m =? 11) then 30
  else 31.

Definition daysFromCivil (y m d : Z) : Z :=
  let y' := if m <=? 2 then y - 1 else y in
  let era := y' / 400 in
  let yoe := y' - era * 400 in
  let mp := if 2 <? m then m - 3 else m + 9 in
  let doy := (153 * mp + 2) / 5 + d - 1 in
  let doe := yoe * 365 + yoe / 4 - yoe / 100 + doy in
  era * 146097 + doe - 719468.

Definition isoDateParse (s : string) : option Z :=
  match split "-"%char s with
  | [ys; ms; ds] =>
      if (String.length ys =? 4)%nat && (String.length ms =? 2)%nat
         && (String.length ds =? 2)%nat then
        match digitsValue ys, digitsValue ms, digitsValue ds with
        | Some y, Some m, Some d =>
            if (1 <=? m) && (m <=? 12) && (1 <=? d) && (d <=? daysInMonth y m)
            then Some (daysFromCivil y m d * 86400000)
            else None
        | _, _, _ => None
        end
      else None
  | _ => None
  end.

Definition isoDates : HostDate := {| Date_parse := isoDateParse |}.

(* ===================================================================== *)
(** ** Results of the adapters *)
(* ===================================================================== *)

Record ImportResult : Type := mkImportResult {
  success : bool;
  message : string
}.

(** What [readFileAsText] / [readFile] settle to.  A rejection carries the
    reader's event, which is not an [Error], so the handlers report
    ['Unknown error']. *)
Inductive FileRead (A : Type) : Type :=
| Resolved (content : A)
| Rejected.
Arguments Resolved {A} content.
Arguments Rejected {A}.

Record SavedFile : Type := mkSavedFile {
  fileName : string;
  content : string
}.

(** A spreadsheet cell as [sheet_to_json] delivers it. *)
Inductive cell : Type :=
| CText (s : string)
| CNumber (n : number).

(** One row object of a sheet: column header to cell. *)
Abbreviation row := (gmap string cell).

(** What [XLSX.utils.sheet_to_json] does on a sheet: the rows, or a throw. *)
Inductive Sheet : Type :=
| SheetRows (rows : list row)
| SheetThrows (msg : string).

(** What reading and parsing the uploaded workbook comes to. *)
Inductive ExcelFile : Type :=
| FileRejected
| ParseThrows (msg : string)
| Workbook (sheets : gmap string Sheet).

(** A run of the import body: it ends normally with a value, or throws,
    and in both cases the store is as the calls made so far left it. *)
Inductive outcome (A : Type) : Type :=
| Done (w : World) (a : A)
| Thrown (w : World) (msg : string).
Arguments Done {A} w a.
Arguments Thrown {A} w msg.

Definition M (A : Type) : Type := World -> outcome A.

#[global] Instance M_ret : MRet M := fun A a w => Done w a.

#[global] Instance M_bind : MBind M := fun A B k m w =>
  match m w with
  | Done w' a => k a w'
  | Thrown w' msg => Thrown w' msg
  end.

Definition throw {A : Type} (msg : string) : M A := fun w => Thrown w msg.

(** A store method run for its effect. *)
Definition perform (f : World -> World) : M unit := fun w => Done (f w) tt.

Definition truthyCell (c : cell) : bool :=
  match c with
  | CText s => truthyStr s
  | CNumber n => truthyNum n
  end.

(** [a || b] on two possibly absent cells. *)
Definition orElseCell (a b : option cell) : option cell :=
  match a with
  | Some c => if truthyCell c then a else b
  | None => b
  end.

(** [Number(v)] on a possibly absent cell. *)
Definition NumberCell (o : option cell) : number :=
  match o with
  | Some (CText s) => Number_ s
  | Some (CNumber n) => Float (ToNumber n)
  | None => NaN
  end.

(** A cell put in a text-typed field.  The entity types give these fields
    as strings; a numeric cell is shown by its text. *)
Definition cellText (c : cell) : string :=
  match c with
  | CText s => s
  | CNumber n => numToString n
  end.

(** A possibly absent cell handed on as an optional text property; a falsy
    cell stays falsy. *)
Definition textProp (o : option cell) : option string :=
  match o with
  | Some c => Some (if truthyCell c then cellText c else "")
  | None => None
  end.

(** [a || b || fallback] stored in a text-typed field. *)
Definition textOr (a b : option cell) (fallback : string) : string :=
  match orElseCell a b with
  | Some c => if truthyCell c then cellText c else fallback
  | None => fallback
  end.

(** [workbook.Sheets[a] || workbook.Sheets[b]]. *)
Definition pickSheet (a b : string) (sheets : gmap string Sheet) : option Sheet :=
  match sheets !! a with
  | Some s => Some s
  | None => sheets !! b
  end.

Definition sheet_to_json (s : Sheet) : M (list row) :=
  match s with
  | SheetRows rows => mret rows
  | SheetThrows msg => throw msg
  end.

(* ===================================================================== *)
(** ** Records and indicators *)
(* ===================================================================== *)

Section Store.
Context `{HostDate}.

(** The comparator [(a, b) => new Date(a.date).getTime() -
    new Date(b.date).getTime()]; [None] is [NaN]. *)
Definition compareDates (a b : FinancialRecord) : option Z :=
  match Date_parse (date a), Date_parse (date b) with
  | Some x, Some y => Some (x - y)
  | _, _ => None
  end.

(** [a] is placed after [b] when the comparator is positive; a [NaN]
    comparison counts as [0]. *)
Definition placedAfter (a b : FinancialRecord) : bool :=
  match compareDates a b with
  | Some v => 0 <? v
  | None => false
  end.

(** [Array.prototype.sort] is stable; for a comparator that is a consistent
    ordering its result is the unique stable ascending arrangement, which
    this insertion sort computes. *)
Fixpoint insertByDate (x : FinancialRecord) (l : list FinancialRecord)
  : list FinancialRecord :=
  match l with
  | [] => [x]
  | y :: l' => if placedAfter x y then y :: insertByDate x l' else x :: l
  end.

Fixpoint sortByDate (l : list FinancialRecord) : list FinancialRecord :=
  match l with
  | [] => []
  | x :: l' => insertByDate x (sortByDate l')
  end.

Definition withRecords (rs : list FinancialRecord) (w : World) : World :=
  mkWorld (businessData w) rs (kpiData w) (localStorage w).

Definition withKPIs (ks : list KPIData) (w : World) : World :=
  mkWorld (businessData w) (financialRecords w) ks (localStorage w).

Definition addFinancialRecord (e : Env) (record : NewFinancialRecord) (w : World)
  : World :=
  let newRecord := {|
    date := match n_date record with
            | Some s => if truthyStr s then s else today e
            | None => today e
            end;
    r_revenue := n_revenue record;
    expenses := n_expenses record;
    profit := n_profit record;
    r_cashFlow := n_cashFlow record
  |} in
  let kept := filter (fun r => date r <> date newRecord) (financialRecords w) in
  let pushed := kept ++ [newRecord] in
  saveToStorage (withRecords (sortByDate pushed) w).

(** [{ ...r, ...updates }]. *)
Definition mergeRecord (r : FinancialRecord) (u : PartialFinancialRecord)
  : FinancialRecord :=
  {| date := default (date r) (u_date u);
     r_revenue := default (r_revenue r) (u_revenue u);
     expenses := default (expenses r) (u_expenses u);
     profit := default (profit r) (u_profit u);
     r_cashFlow := default (r_cashFlow r) (u_cashFlow u) |}.

Definition updateFinancialRecord (d : string) (updates : PartialFinancialRecord)
  (w : World) : World :=
  match list_find (fun r => date r = d) (financialRecords w) with
  | Some (index, r) =>
      saveToStorage (withRecords (<[index := mergeRecord r updates]> (financialRecords w)) w)
  | None => w
  end.

Definition deleteFinancialRecord (d : string) (w : World) : World :=
  saveToStorage (withRecords (filter (fun r => date r <> d) (financialRecords w)) w).

Definition setKPIData (kpis : list KPIData) (w : World) : World :=
  saveToStorage (withKPIs kpis w).

Definition addKPI (kpi : KPIData) (w : World) : World :=
  let kept := filter (fun k => metric k <> metric kpi) (kpiData w) in
  saveToStorage (withKPIs (kept ++ [kpi]) w).

(** [{ ...k, ...updates }]. *)
Definition mergeKPI (k : KPIData) (u : PartialKPIData) : KPIData :=
  {| metric := default (metric k) (k_metric u);
     value := default (value k) (k_value u);
     target := default (target k) (k_target u);
     unit_ := default (unit_ k) (k_unit u);
     category := default (category k) (k_category u) |}.

Definition updateKPI (m : string) (updates : PartialKPIData) (w : World) : World :=
  match list_find (fun k => metric k = m) (kpiData w) with
  | Some (index, k) =>
      saveToStorage (withKPIs (<[index := mergeKPI k updates]> (kpiData w)) w)
  | None => w
  end.

Definition deleteKPI (m : string) (w : World) : World :=
  saveToStorage (withKPIs (filter (fun k => metric k <> m) (kpiData w)) w).

(* ===================================================================== *)
(** ** CSV import and export *)
(* ===================================================================== *)

(** [record[header] = values[index]] for every header, in order: a later
    header of the same name overwrites an earlier one. *)
Definition rowObject (headers values : list string) : gmap string string :=
  foldl (fun m hv => <[hv.1 := hv.2]> m) ∅ (zip headers values).

Definition csvFields (line : string) : list string :=
  (fun v => stripQuotes (trim v)) <$> split comma line.

Definition csvRecordOf (record : gmap string string) : option NewFinancialRecord :=
  match orElseStr (record !! "date") (record !! "Date") with
  | Some d =>
      if truthyStr d then
        Some {|
          n_date := Some d;
          n_revenue := orZero (NumberOpt (orElseStr (record !! "revenue") (record !! "Revenue")));
          n_expenses := orZero (NumberOpt (orElseStr (record !! "expenses") (record !! "Expenses")));
          n_profit := orZero (NumberOpt (orElseStr (record !! "profit") (record !! "Profit")));
          n_cashFlow := orZero (NumberOpt (orElseStr (record !! "cashFlow") (record !! "Cash Flow")))
        |}
      else None
  | None => None
  end.

(** The body of the [for] loop: the records pushed for the data lines. *)
Fixpoint csvRecords (headers : list string) (dataLines : list string)
  : list NewFinancialRecord :=
  match dataLines with
  | [] => []
  | line :: rest =>
      let values := csvFields line in
      if (length headers <=? length values)%nat then
        match csvRecordOf (rowObject headers values) with
        | Some r => r :: csvRecords headers rest
        | None => csvRecords headers rest
        end
      else csvRecords headers rest
  end.

Definition csvLines (text : string) : list string :=
  filter (fun line => trim line <> "") (split newline text).

Definition countMessage (pre : string) (n : nat) (post : string) : string :=
  pre +:+ numToString (Num (Z.of_nat n)) +:+ post.

Definition importFromCSV (e : Env) (file : FileRead string) (w : World)
  : World * ImportResult :=
  match file with
  | Rejected => (w, mkImportResult false "CSV import failed: Unknown error")
  | Resolved text =>
      let lines := csvLines text in
      if (length lines <? 2)%nat then
        (w, mkImportResult false "CSV file must have at least a header and one data row")
      else
        let headers := csvFields (hd "" lines) in
        let records := csvRecords headers (tl lines) in
        let w' := foldl (fun acc r => addFinancialRecord e r acc) w records in
        (w', mkImportResult true
               (countMessage "Successfully imported " (length records) " financial records"))
  end.

Definition csvLine (r : FinancialRecord) : string :=
  date r +:+ "," +:+ numToString (r_revenue r) +:+ "," +:+ numToString (expenses r)
  +:+ "," +:+ numToString (profit r) +:+ "," +:+ numToString (r_cashFlow r).

Definition csvHeader : string := "Date,Revenue,Expenses,Profit,Cash Flow".

Definition csvContent (rs : list FinancialRecord) : string :=
  join (String newline "") (csvHeader :: (csvLine <$> rs)).

(** [None]: the alert branch, nothing is saved. *)
Definition exportToCSV (e : Env) (w : World) : option SavedFile :=
  match financialRecords w with
  | [] => None
  | rs =>
      let company := match businessData w with
                     | Some b => if truthyStr (companyName b) then companyName b else "Business"
                     | None => "Business"
                     end in
      Some {| fileName := company +:+ "_Financial_" +:+ today e +:+ ".csv";
              content := csvContent rs |}
  end.

(* ===================================================================== *)
(** ** Spreadsheet import *)
(* ===================================================================== *)

Definition businessOfRow (r : row) : PartialBusinessData :=
  {| p_id := None;
     p_companyName := textProp (orElseCell (r !! "Company Name") (r !! "companyName"));
     p_industry := textProp (orElseCell (r !! "Industry") (r !! "industry"));
     p_employees := Some (orZero (NumberCell (orElseCell (r !! "Employees") (r !! "employees"))));
     p_revenue := Some (orZero (NumberCell (orElseCell (r !! "Revenue") (r !! "revenue"))));
     p_costs := Some (orZero (NumberCell (orElseCell (r !! "Costs") (r !! "costs"))));
     p_assets := Some (orZero (NumberCell (orElseCell (r !! "Assets") (r !! "assets"))));
     p_liabilities := Some (orZero (NumberCell (orElseCell (r !! "Liabilities") (r !! "liabilities"))));
     p_cashFlow := Some (orZero (NumberCell (orElseCell (r !! "Cash Flow") (r !! "cashFlow"))));
     p_createdAt := None;
     p_updatedAt := None |}.

Definition importBusinessSheet (e : Env) (sheet : option Sheet) (imported : nat) : M nat :=
  match sheet with
  | Some s =>
      rows ← sheet_to_json s;
      match rows with
      | r :: _ => perform (setBusinessData e (businessOfRow r));; mret (S imported)
      | [] => mret imported
      end
  | None => mret imported
  end.

(** [record.Date || record.date], when truthy. *)
Definition rowDate (r : row) : option cell :=
  match orElseCell (r !! "Date") (r !! "date") with
  | Some c => if truthyCell c then Some c else None
  | None => None
  end.

Definition recordOfRow (r : row) (d : cell) : NewFinancialRecord :=
  {| n_date := Some (cellText d);
     n_revenue := orZero (NumberCell (orElseCell (r !! "Revenue") (r !! "revenue")));
     n_expenses := orZero (NumberCell (orElseCell (r !! "Expenses") (r !! "expenses")));
     n_profit := orZero (NumberCell (orElseCell (r !! "Profit") (r !! "profit")));
     n_cashFlow := orZero (NumberCell (orElseCell (r !! "Cash Flow") (r !! "cashFlow"))) |}.

(** The [forEach] over the rows of the records sheet. *)
Fixpoint importRecordRows (e : Env) (rows : list row) (imported : nat) : M nat :=
  match rows with
  | [] => mret imported
  | r :: rest =>
      match rowDate r with
      | Some d =>
          perform (addFinancialRecord e (recordOfRow r d));;
          importRecordRows e rest (S imported)
      | None => importRecordRows e rest imported
      end
  end.

Definition importFinancialSheet (e : Env) (sheet : option Sheet) (imported : nat) : M nat :=
  match sheet with
  | Some s => rows ← sheet_to_json s; importRecordRows e rows imported
  | None => mret imported
  end.

Definition kpiOfRow (r : row) : KPIData :=
  {| metric := textOr (r !! "Metric") (r !! "metric") "";
     value := orZero (NumberCell (orElseCell (r !! "Value") (r !! "value")));
     target := orZero (NumberCell (orElseCell (r !! "Target") (r !! "target")));
     unit_ := textOr (r !! "Unit") (r !! "unit") "";
     category := textOr (r !! "Category") (r !! "category") "operational" |}.

Definition kpisOfRows (rows : list row) : list KPIData :=
  filter (fun k => metric k <> "") (kpiOfRow <$> rows).

Definition importKPISheet (sheet : option Sheet) (imported : nat) : M nat :=
  match sheet with
  | Some s =>
      kpis ← sheet_to_json s;
      let kpiData := kpisOfRows kpis in
      if (0 <? length kpiData)%nat then
        perform (setKPIData kpiData);; mret (imported + length kpiData)%nat
      else mret imported
  | None => mret imported
  end.

Definition importBody (e : Env) (sheets : gmap string Sheet) : M nat :=
  let businessSheet := pickSheet "Business Data" "Company" sheets in
  let financialSheet := pickSheet "Financial Records" "Financials" sheets in
  let kpiSheet := pickSheet "KPIs" "Metrics" sheets in
  imported ← importBusinessSheet e businessSheet 0%nat;
  imported ← importFinancialSheet e financialSheet imported;
  importKPISheet kpiSheet imported.

Definition importFromExcel (e : Env) (file : ExcelFile) (w : World)
  : World * ImportResult :=
  match file with
  | FileRejected => (w, mkImportResult false "Import failed: Unknown error")
  | ParseThrows msg => (w, mkImportResult false ("Import failed: " +:+ msg))
  | Workbook sheets =>
      match importBody e sheets w with
      | Done w' imported =>
          (w', mkImportResult true (countMessage "Successfully imported " imported " records"))
      | Thrown w' msg => (w', mkImportResult false ("Import failed: " +:+ msg))
      end
  end.

(* ===================================================================== *)
(** ** Properties of the collections *)
(* ===================================================================== *)

(** At most one indicator per metric name. *)
Definition uniqueMetrics (ks : list KPIData) : Prop := NoDup (metric <$> ks).

(** At most one record per date value. *)
Definition uniqueDates (rs : list FinancialRecord) : Prop := NoDup (date <$> rs).

Definition timeOf (r : FinancialRecord) : option Z := Date_parse (date r).

(** Every date is one the host can read. *)
Definition datesValid (rs : list FinancialRecord) : Prop :=
  Forall (fun r => is_Some (timeOf r)) rs.

(** [d1] is a date no later than [d2]; both must be readable. *)
Definition notLater (d1 d2 : string) : Prop :=
  match Date_parse d1, Date_parse d2 with
  | Some x, Some y => x <= y
  | _, _ => False
  end.

Definition dateLe (a b : FinancialRecord) : Prop := notLater (date a) (date b).

#[global] Instance dateLe_dec : RelDecision dateLe.
Proof.
  intros a b. unfold dateLe, notLater.
  destruct (Date_parse (date a)), (Date_parse (date b)); try (right; tauto).
  apply Z_le_dec.
Defined.

(** Ascending date order. *)
Definition ascending (rs : list FinancialRecord) : Prop := StronglySorted dateLe rs.

(** The invariant of the record collection. *)
Definition RecordsOk (rs : list FinancialRecord) : Prop :=
  uniqueDates rs /\ datesValid rs /\ ascending rs.

(** The date [addFinancialRecord] gives the new record. *)
Definition newDate (e : Env) (record : NewFinancialRecord) : string :=
  match n_date record with
  | Some s => if truthyStr s then s else today e
  | None => today e
  end.

(** ** What a workbook is expected to import *)

Definition sheetRows (s : option Sheet) : list row :=
  match s with
  | Some (SheetRows rows) => rows
  | _ => []
  end.

Definition sheetThrows (s : option Sheet) : bool :=
  match s with
  | Some (SheetThrows _) => true
  | _ => false
  end.

(** No exception while the sheets are read. *)
Definition noSheetThrows (sheets : gmap string Sheet) : Prop :=
  sheetThrows (pickSheet "Business Data" "Company" sheets) = false
  /\ sheetThrows (pickSheet "Financial Records" "Financials" sheets) = false
  /\ sheetThrows (pickSheet "KPIs" "Metrics" sheets) = false.

(** The columns the store keeps as text hold text wherever the three
    sheets have a cell there, so that what is stored is the cell's value
    itself. *)
Definition textCell (o : option cell) : Prop :=
  match o with
  | Some (CNumber _) => False
  | _ => True
  end.

Definition textColumns (columns : list string) (r : row) : Prop :=
  Forall (fun c => textCell (r !! c)) columns.

Definition textSheets (sheets : gmap string Sheet) : Prop :=
  Forall (textColumns ["Company Name"; "companyName"; "Industry"; "industry"])
    (sheetRows (pickSheet "Business Data" "Company" sheets))
  /\ Forall (textColumns ["Date"; "date"])
       (sheetRows (pickSheet "Financial Records" "Financials" sheets))
  /\ Forall (textColumns ["Metric"; "metric"; "Unit"; "unit"; "Category"; "category"])
       (sheetRows (pickSheet "KPIs" "Metrics" sheets)).

(** None of the six accepted sheet names is present. *)
Definition noSheetMatches (sheets : gmap string Sheet) : Prop :=
  pickSheet "Business Data" "Company" sheets = None
  /\ pickSheet "Financial Records" "Financials" sheets = None
  /\ pickSheet "KPIs" "Metrics" sheets = None.

(** 1 for a profile row, 1 per record row that has a date, and the number
    of indicator rows that have a metric name. *)
Definition expectedCount (sheets : gmap string Sheet) : nat :=
  (match sheetRows (pickSheet "Business Data" "Company" sheets) with
   | _ :: _ => 1
   | [] => 0
   end
   + length (filter (fun r => is_Some (rowDate r))
               (sheetRows (pickSheet "Financial Records" "Financials" sheets)))
   + length (filter (fun r => metric (kpiOfRow r) <> "")
               (sheetRows (pickSheet "KPIs" "Metrics" sheets))))%nat.

End Store.

(** ** What a CSV line can carry *)

(** A date that comes back from a CSV line as it went in: not empty,
    nothing for [trim] to remove, no comma, double quote or line break. *)
Definition csvSafe (s : string) : Prop :=
  s <> "" /\ trim s = s /\ occurs comma s = false
  /\ occurs dquote s = false /\ occurs newline s = false.

(** A number that comes back from a CSV line as it went in: [Number] reads
    its printed form as that number, and [|| 0] leaves it.  [NaN], [-0] and
    [null] do not: they come back as [0]. *)
Definition readsBack (x : number) : Prop :=
  orZero (Number_ (numToString x)) = x.

Definition csvSafeRecord (r : FinancialRecord) : Prop :=
  csvSafe (date r) /\ readsBack (r_revenue r) /\ readsBack (expenses r)
  /\ readsBack (profit r) /\ readsBack (r_cashFlow r).

(** A stored record as an argument of [addFinancialRecord]. *)
Definition asNew (r : FinancialRecord) : NewFinancialRecord :=
  {| n_date := Some (date r); n_revenue := r_revenue r;
     n_expenses := expenses r; n_profit := profit r;
     n_cashFlow := r_cashFlow r |}.

(** Inputs of the worked scenarios. *)
Definition acmeInput : PartialBusinessData :=
  {| p_id := None;
     p_companyName := Some "Acme";
     p_industry := None;
     p_employees := None;
     p_revenue := Some (Num 1000);
     p_costs := Some (Num 600);
     p_assets := Some (Num 5000);
     p_liabilities := Some (Num 2000);
     p_cashFlow := None;
     p_createdAt := None;
     p_updatedAt := None |}.

(** Amounts that are not integers, and integers at the edge of the exact
    range. *)
Definition decimalInput : PartialBusinessData :=
  {| p_id := None;
     p_companyName := Some "Acme";
     p_industry := None;
     p_employees := None;
     p_revenue := Some (Number_ "0.3");
     p_costs := Some (Number_ "0.1");
     p_assets := Some (Number_ "9007199254740992");
     p_liabilities := Some (Number_ "-1");
     p_cashFlow := None;
     p_createdAt := None;
     p_updatedAt := None |}.

Definition env0 : Env :=
  {| now := 1700000000000; idStamp := 1700000000000;
     random36 := "k3x9f2"; today := "2023-11-14" |}.

Definition env1 : Env :=
  {| now := 1700000360000; idStamp := 1700000360001;
     random36 := "p0q7aa"; today := "2023-11-14" |}.

Definition acmeWorld : World := setBusinessData env0 acmeInput emptyWorld.

Definition marketShare : KPIData :=
  {| metric := "Market Share"; value := Num 12; target := Num 15;
     unit_ := "%"; category := "growth" |}.

Definition marketShare' : KPIData :=
  {| metric := "Market Share"; value := Num 13; target := Num 15;
     unit_ := "%"; category := "growth" |}.

Definition january : NewFinancialRecord :=
  {| n_date := Some "2024-01-01"; n_revenue := Num 125000;
     n_expenses := Num 100000; n_profit := Num 25000; n_cashFlow := Num 15000 |}.

Definition february : NewFinancialRecord :=
  {| n_date := Some "2024-02-01"; n_revenue := Num 130000;
     n_expenses := Num 102000; n_profit := Num 28000; n_cashFlow := Num 18000 |}.

(** A store reached by two insertions, with the ISO date parser. *)
Definition twoMonths : World :=
  addFinancialRecord (H := isoDates) env0 february
    (addFinancialRecord (H := isoDates) env0 january emptyWorld).

(** A month with amounts that are no integers: 1250.5, 10^21, -0.1 and
    an infinity. *)
Definition decimals : NewFinancialRecord :=
  {| n_date := Some "2024-03-01"; n_revenue := Number_ "1250.50";
     n_expenses := Number_ "1e21"; n_profit := Number_ "-0.1";
     n_cashFlow := Number_ "Infinity" |}.

Definition threeMonths : World :=
  addFinancialRecord (H := isoDates) env0 decimals twoMonths.


Definition sampleWorkbook : gmap string Sheet :=
  <["Company" := SheetRows
      [ {[ "Company Name" := CText "Acme"; "revenue" := CNumber (Num 1000) ]} ] ]>
  (<["Financials" := SheetRows
      [ {[ "Date" := CText "2024-02-01"; "Revenue" := CText " 12 " ]};
        {[ "Revenue" := CNumber (Num 3) ]};
        {[ "date" := CText "2024-01-01" ]} ] ]>
  (<["KPIs" := SheetRows
      [ {[ "Metric" := CText "Market Share"; "Value" := CNumber (Num 12) ]};
        {[ "Value" := CNumber (Num 1) ]} ] ]> ∅)).

Definition jan5 : NewFinancialRecord :=
  {| n_date := Some "Jan 5, 2024"; n_revenue := Num 100; n_expenses := Num 60;
     n_profit := Num 40; n_cashFlow := Num 30 |}.

(** A store holding one record whose date is written with a comma. *)
Definition jan5World : World :=
  addFinancialRecord (H := isoDates) env0 jan5 emptyWorld.


(* ===================================================================== *)
(** ** Calls on the store *)
(* ===================================================================== *)

(** The calls a client can make on the exported [dataManager]. *)
Inductive Call : Type :=
| CallSetBusinessData (e : Env) (data : PartialBusinessData)
| CallAddFinancialRecord (e : Env) (record : NewFinancialRecord)
| CallUpdateFinancialRecord (d : string) (updates : PartialFinancialRecord)
| CallDeleteFinancialRecord (d : string)
| CallSetKPIData (kpis : list KPIData)
| CallAddKPI (kpi : KPIData)
| CallUpdateKPI (m : string) (updates : PartialKPIData)
| CallDeleteKPI (m : string)
| CallClearAllData
| CallImportFromCSV (e : Env) (file : FileRead string)
| CallImportFromExcel (e : Env) (file : ExcelFile).

Section Calls.
Context `{HostDate}.

Definition call (c : Call) (w : World) : World :=
  match c with
  | CallSetBusinessData e data => setBusinessData e data w
  | CallAddFinancialRecord e record => addFinancialRecord e record w
  | CallUpdateFinancialRecord d updates => updateFinancialRecord d updates w
  | CallDeleteFinancialRecord d => deleteFinancialRecord d w
  | CallSetKPIData kpis => setKPIData kpis w
  | CallAddKPI kpi => addKPI kpi w
  | CallUpdateKPI m updates => updateKPI m updates w
  | CallDeleteKPI m => deleteKPI m w
  | CallClearAllData => clearAllData w
  | CallImportFromCSV e file => fst (importFromCSV e file w)
  | CallImportFromExcel e file => fst (importFromExcel e file w)
  end.

(** The store after the constructor has run on a given [localStorage] and
    the calls have been made in order. *)
Definition session (ls : gmap string snapshot) (calls : list Call) : World :=
  foldl (fun w c => call c w) (loadFromStorage ls) calls.

End Calls.

(** A page reload would find what JSON makes of the collections in memory,
    and of the profile when there is one. *)
Definition reloads (w : World) : Prop :=
  financialRecords (loadFromStorage (localStorage w))
  = jsonRecord <$> financialRecords w
  /\ kpiData (loadFromStorage (localStorage w)) = jsonKPI <$> kpiData w
  /\ (forall b, businessData w = Some b ->
        businessData (loadFromStorage (localStorage w)) = Some (jsonProfile b)).

(** A finite number other than [-0]: what JSON gives back as it is. *)
Definition finiteNumber (x : number) : Prop :=
  match x with
  | Float (S754_finite _ _ _) | Float (S754_zero false) => True
  | _ => False
  end.

Definition finiteRecord (r : FinancialRecord) : Prop :=
  finiteNumber (r_revenue r) /\ finiteNumber (expenses r)
  /\ finiteNumber (profit r) /\ finiteNumber (r_cashFlow r).

Definition finiteKPI (k : KPIData) : Prop :=
  finiteNumber (value k) /\ finiteNumber (target k).

Definition storeKeys : list string :=
  [BUSINESS_DATA_KEY; FINANCIAL_RECORDS_KEY; KPI_DATA_KEY].

(** Calls that work on the record collection only, and on the indicator
    collection only. *)
Definition recordCall (c : Call) : bool :=
  match c with
  | CallAddFinancialRecord _ _ | CallUpdateFinancialRecord _ _
  | CallDeleteFinancialRecord _ | CallImportFromCSV _ _ => true
  | _ => false
  end.

Definition indicatorCall (c : Call) : bool :=
  match c with
  | CallSetKPIData _ | CallAddKPI _ | CallUpdateKPI _ _ | CallDeleteKPI _ => true
  | _ => false
  end.

(** A run of the import body leaves the store related to the one it
    started from, whether it finishes or throws. *)
Definition keeps (R : World -> World -> Prop) {A : Type} (m : M A) : Prop :=
  forall w, match m w with
            | Done w' _ => R w w'
            | Thrown w' _ => R w w'
            end.

(** Nothing changed, or the last thing done was a write to [localStorage],
    which leaves a profile text that parsed one that parses. *)
Definition sameOrSaved (w w' : World) : Prop :=
  w' = w
  \/ (garbled (localStorage w) BUSINESS_DATA_KEY = false ->
      garbled (localStorage w') BUSINESS_DATA_KEY = false /\ reloads w').

(** The store's writes touch no foreign key and remove no entry. *)
Definition storageGrows (w w' : World) : Prop :=
  (forall k, k ∉ storeKeys -> localStorage w' !! k = localStorage w !! k)
  /\ (forall k, is_Some (localStorage w !! k) -> is_Some (localStorage w' !! k)).

(** The profile and the indicators are as before. *)
Definition onlyRecords (w w' : World) : Prop :=
  businessData w' = businessData w /\ kpiData w' = kpiData w.

(** The profile and the records are as before. *)
Definition onlyIndicators (w w' : World) : Prop :=
  businessData w' = businessData w /\ financialRecords w' = financialRecords w.

(** An amount as [Number(text) || 0] leaves it: a Number that is neither
    [NaN] nor a zero, or else [0]. *)
Definition amount (x : number) : Prop :=
  exists f, x = Float f /\ f <> S754_nan /\ f <> S754_zero true.

(** What can be said of a record that came out of a CSV line: its date is
    not empty and has no comma, double quote or line break, and its amounts
    are numbers. *)
Definition fromCsv (x : FinancialRecord) : Prop :=
  date x <> "" /\ occurs comma (date x) = false
  /\ occurs dquote (date x) = false /\ occurs newline (date x) = false
  /\ amount (r_revenue x) /\ amount (expenses x) /\ amount (profit x)
  /\ amount (r_cashFlow x).

(** The profile is as before. *)
Definition sameProfile (w w' : World) : Prop := businessData w' = businessData w.

Section Phases.
Context `{HostDate}.

(** The three steps of the spreadsheet import, each as one transformation
    of the store. *)
Definition profilePhase (e : Env) (sheets : gmap string Sheet) (w : World) : World :=
  match sheetRows (pickSheet "Business Data" "Company" sheets) with
  | r :: _ => setBusinessData e (businessOfRow r) w
  | [] => w
  end.

Definition datedRows (rows : list row) : list NewFinancialRecord :=
  omap (fun r => recordOfRow r <$> rowDate r) rows.

Definition recordsPhase (e : Env) (sheets : gmap string Sheet) (w : World) : World :=
  foldl (fun acc r => addFinancialRecord e r acc) w
    (datedRows (sheetRows (pickSheet "Financial Records" "Financials" sheets))).

Definition indicatorsPhase (sheets : gmap string Sheet) (w : World) : World :=
  match kpisOfRows (sheetRows (pickSheet "KPIs" "Metrics" sheets)) with
  | [] => w
  | kpis => setKPIData kpis w
  end.

End Phases.

Definition failure (msg : string) : ImportResult :=
  {| success := false; message := "Import failed: " +:+ msg |}.

(* ===================================================================== *)
(** ** Spreadsheet export *)
(* ===================================================================== *)

(** A value handed to [json_to_sheet]. *)
Inductive written : Type :=
| WText (s : string)
| WNumber (n : number)
| WDate (d : Date).

(** One object handed to [json_to_sheet]: its properties in order. *)
Abbreviation writtenRow := (list (string * written)).

(** What [exportToExcel] saves: the file name and the sheets appended to
    the workbook, in order, each with the rows it was made from. *)
Record SavedWorkbook : Type := mkSavedWorkbook {
  workbookName : string;
  workbookSheets : list (string * list writtenRow)
}.

Definition profileRow (b : BusinessData) : writtenRow :=
  [ ("Company Name", WText (companyName b));
    ("Industry", WText (industry b));
    ("Employees", WNumber (employees b));
    ("Revenue", WNumber (revenue b));
    ("Costs", WNumber (costs b));
    ("Assets", WNumber (assets b));
    ("Liabilities", WNumber (liabilities b));
    ("Cash Flow", WNumber (cashFlow b));
    ("Created", WDate (createdAt b));
    ("Updated", WDate (updatedAt b)) ].

Definition recordRow (r : FinancialRecord) : writtenRow :=
  [ ("Date", WText (date r));
    ("Revenue", WNumber (r_revenue r));
    ("Expenses", WNumber (expenses r));
    ("Profit", WNumber (profit r));
    ("Cash Flow", WNumber (r_cashFlow r)) ].

Definition kpiRow (k : KPIData) : writtenRow :=
  [ ("Metric", WText (metric k));
    ("Value", WNumber (value k));
    ("Target", WNumber (target k));
    ("Unit", WText (unit_ k));
    ("Category", WText (category k)) ].

(** What [exportToExcel] comes to: a workbook is saved, or [XLSX.write]
    throws, which it does on a workbook without sheets; nothing is saved
    then. *)
Inductive Exported : Type :=
| Saved (wb : SavedWorkbook)
| WriteThrows (msg : string).

Definition exportToExcel (e : Env) (w : World) : Exported :=
  let businessSheets :=
    match businessData w with
    | Some b => [("Business Data", [profileRow b])]
    | None => []
    end in
  let financialSheets :=
    match financialRecords w with
    | [] => []
    | rs => [("Financial Records", recordRow <$> rs)]
    end in
  let kpiSheets :=
    match kpiData w with
    | [] => []
    | ks => [("KPIs", kpiRow <$> ks)]
    end in
  let company := match businessData w with
                 | Some b => if truthyStr (companyName b) then companyName b else "Business"
                 | None => "Business"
                 end in
  match businessSheets ++ financialSheets ++ kpiSheets with
  | [] => WriteThrows "Workbook is empty"
  | sheets =>
      Saved {| workbookName := company +:+ "_Data_" +:+ today e +:+ ".xlsx";
               workbookSheets := sheets |}
  end.

(** The saved workbook as [importFromExcel] finds it when the file is
    uploaded again.  That the spreadsheet library gives back, sheet by
    sheet, the rows it was given to write is taken as given here; how it
    reads the cell of a date under a given column is left open
    ([readDate]). *)
Definition readCell (readDate : string -> Date -> cell) (column : string)
  (v : written) : cell :=
  match v with
  | WText s => CText s
  | WNumber n => CNumber n
  | WDate d => readDate column d
  end.

Definition readRow (readDate : string -> Date -> cell) (r : writtenRow) : row :=
  list_to_map ((fun kv => (kv.1, readCell readDate kv.1 kv.2)) <$> r).

Definition readWorkbook (readDate : string -> Date -> cell) (wb : SavedWorkbook)
  : gmap string Sheet :=
  list_to_map
    ((fun s => (s.1, SheetRows (readRow readDate <$> s.2))) <$> workbookSheets wb).

(** A number that [Number(x) || 0] leaves as it is: any Number but [NaN]
    and [-0]; [null] is not one either. *)
Definition steady (x : number) : Prop := orZero (Float (ToNumber x)) = x.

(** Records and indicators that a spreadsheet gives back as they are. *)
Definition sheetSafeRecord (r : FinancialRecord) : Prop :=
  date r <> "" /\ steady (r_revenue r) /\ steady (expenses r)
  /\ steady (profit r) /\ steady (r_cashFlow r).

Definition sheetSafeKPI (k : KPIData) : Prop :=
  metric k <> "" /\ category k <> "" /\ steady (value k) /\ steady (target k).

Definition sheetSafeProfile (b : BusinessData) : Prop :=
  steady (employees b) /\ steady (revenue b) /\ steady (costs b)
  /\ steady (assets b) /\ steady (liabilities b) /\ steady (cashFlow b).

(** The profile with a new identity. *)
Definition reissued (e : Env) (b : BusinessData) : BusinessData :=
  {| id := generateId e; companyName := companyName b; industry := industry b;
     employees := employees b; revenue := revenue b; costs := costs b;
     assets := assets b; liabilities := liabilities b; cashFlow := cashFlow b;
     createdAt := now e; updatedAt := now e |}.

(* ===================================================================== *)
(** ** The data input form *)
(* ===================================================================== *)

(** [showMessage(type, text)]. *)
Inductive MessageType : Type := MsgSuccess | MsgError.

Record Message : Type := mkMessage {
  type_ : MessageType;
  text : string
}.

(** A stored profile used as a [Partial<BusinessData>]: every property is
    present. *)
Definition asPartial (b : BusinessData) : PartialBusinessData :=
  {| p_id := Some (id b);
     p_companyName := Some (companyName b);
     p_industry := Some (industry b);
     p_employees := Some (employees b);
     p_revenue := Some (revenue b);
     p_costs := Some (costs b);
     p_assets := Some (assets b);
     p_liabilities := Some (liabilities b);
     p_cashFlow := Some (cashFlow b);
     p_createdAt := Some (createdAt b);
     p_updatedAt := Some (updatedAt b) |}.

Definition emptyForm : PartialBusinessData :=
  mkPartialBusinessData None None None None None None None None None None None.

(** [dataManager.getBusinessData() || {}]: the form's state when the
    component is set up, and again after a successful upload. *)
Definition profileForm (w : World) : PartialBusinessData :=
  match getBusinessData w with
  | Some b => asPartial b
  | None => emptyForm
  end.

(** [s.endsWith(suffix)]. *)
Fixpoint endsWith (s suffix : string) : bool :=
  String.eqb s suffix
  || match s with
     | EmptyString => false
     | String _ s' => endsWith s' suffix
     end.

(** An uploaded file: its name, and what reading it as text and as a
    workbook comes to. *)
Record Upload : Type := mkUpload {
  name : string;
  asText : FileRead string;
  asWorkbook : ExcelFile
}.

Section Form.
Context `{HostDate}.

Definition handleBusinessDataSave (e : Env) (businessData : PartialBusinessData)
  (w : World) : World * Message :=
  if truthyStr (strOrEmpty (p_companyName businessData)) then
    (setBusinessData e businessData w,
     mkMessage MsgSuccess "Business data saved successfully")
  else (w, mkMessage MsgError "Company name is required").

(** The records form after a successful add. *)
Definition blankRecord (e : Env) : NewFinancialRecord :=
  {| n_date := Some (today e); n_revenue := Num 0; n_expenses := Num 0;
     n_profit := Num 0; n_cashFlow := Num 0 |}.

(** Returns the store, the message shown and the state of the form. *)
Definition handleFinancialRecordAdd (e : Env) (newFinancialRecord : NewFinancialRecord)
  (w : World) : World * Message * NewFinancialRecord :=
  if truthyStr (strOrEmpty (n_date newFinancialRecord)) then
    (addFinancialRecord e newFinancialRecord w,
     mkMessage MsgSuccess "Financial record added successfully",
     blankRecord e)
  else (w, mkMessage MsgError "Date is required", newFinancialRecord).

Definition blankKPI : KPIData :=
  {| metric := ""; value := Num 0; target := Num 0; unit_ := "";
     category := "operational" |}.

Definition handleKPIAdd (newKPI : KPIData) (w : World) : World * Message * KPIData :=
  if truthyStr (metric newKPI) then
    (addKPI newKPI w, mkMessage MsgSuccess "KPI added successfully", blankKPI)
  else (w, mkMessage MsgError "Metric name is required", newKPI).

(** Returns the store, the message shown (none when no file was chosen) and
    the profile form's new state when it is refreshed. *)
Definition handleFileUpload (e : Env) (file : option Upload) (w : World)
  : World * option Message * option PartialBusinessData :=
  match file with
  | None => (w, None, None)
  | Some f =>
      let shown (r : World * ImportResult) :=
        if success r.2 then
          (r.1, Some (mkMessage MsgSuccess (message r.2)), Some (profileForm r.1))
        else (r.1, Some (mkMessage MsgError (message r.2)), None) in
      if endsWith (name f) ".csv" then shown (importFromCSV e (asText f) w)
      else if endsWith (name f) ".xlsx" || endsWith (name f) ".xls" then
        shown (importFromExcel e (asWorkbook f) w)
      else (w, Some (mkMessage MsgError "Please upload a CSV or Excel file"), None)
  end.

(** Returns what [exportToExcel] saved, if anything, and the message
    shown. *)
Definition handleExportExcel (e : Env) (w : World) : option SavedWorkbook * Message :=
  match exportToExcel e w with
  | Saved wb => (Some wb, mkMessage MsgSuccess "Data exported to Excel successfully")
  | WriteThrows _ => (None, mkMessage MsgError "Failed to export to Excel")
  end.

(** Returns what [exportToCSV] saved, if anything, and the message shown. *)
Definition handleExportCSV (e : Env) (w : World) : option SavedFile * Message :=
  (exportToCSV e w,
   mkMessage MsgSuccess "Financial data exported to CSV successfully").

End Form.

(* ===================================================================== *)
(** ** The clean-up of a model response *)
(* ===================================================================== *)

Definition openBrace : ascii := "{"%char.
Definition closeBrace : ascii := "}"%char.
Definition fence : string := "```".

(** [s.startsWith(p)]. *)
Definition startsWith (s p : string) : bool := String.prefix p s.

(** [s.substring(start, end)] for [start <= end]. *)
Definition substring_ (start end_ : nat) (s : string) : string :=
  takeChars (end_ - start) (dropChars start s).

(** What precedes [suffix] when the string ends with it. *)
Fixpoint stripSuffix (suffix s : string) : option string :=
  if String.eqb s suffix then Some EmptyString
  else match s with
       | EmptyString => None
       | String c s' => String c <$> stripSuffix suffix s'
       end.

(** [s.indexOf(c)] and [s.lastIndexOf(c)]; [None] is [-1]. *)
Fixpoint indexOf (c : ascii) (s : string) : option nat :=
  match s with
  | EmptyString => None
  | String d s' => if Ascii.eqb d c then Some O else S <$> indexOf c s'
  end.

Fixpoint lastIndexOf (c : ascii) (s : string) : option nat :=
  match s with
  | EmptyString => None
  | String d s' =>
      match lastIndexOf c s' with
      | Some i => Some (S i)
      | None => if Ascii.eqb d c then Some O else None
      end
  end.

(** The replacement of the opening fence and the white space after it, for
    a text that starts with the fence [opening]. *)
Definition dropOpening (opening s : string) : string :=
  trimStart (dropChars (String.length opening) s).

(** The replacement of a closing fence at the very end, with the white
    space before it, by nothing. *)
Definition dropClosing (s : string) : string :=
  match stripSuffix fence s with
  | Some before => trimEnd before
  | None => s
  end.

Definition extractJsonFromResponse (responseText : string) : string :=
  let cleanedText := trim responseText in
  let cleanedText :=
    if startsWith cleanedText "```json" then
      dropClosing (dropOpening "```json" cleanedText)
    else if startsWith cleanedText "```" then
      dropClosing (dropOpening "```" cleanedText)
    else cleanedText in
  let cleanedText :=
    match indexOf openBrace cleanedText, lastIndexOf closeBrace cleanedText with
    | Some jsonStart, Some jsonEnd =>
        if (jsonStart <? jsonEnd)%nat
        then substring_ jsonStart (jsonEnd + 1) cleanedText
        else cleanedText
    | _, _ => cleanedText
    end in
  trim cleanedText.

(* ===================================================================== *)
(** ** The sample templates *)
(* ===================================================================== *)

(** What [generateSampleDataTemplate] saves. *)
Definition generateSampleDataTemplate : SavedWorkbook :=
  let businessData : list writtenRow :=
    [ [ ("Company Name", WText "Example Corp");
        ("Industry", WText "Technology/Software");
        ("Employees", WNumber (Num 50));
        ("Revenue", WNumber (Num 1500000));
        ("Costs", WNumber (Num 1200000));
        ("Assets", WNumber (Num 2000000));
        ("Liabilities", WNumber (Num 800000));
        ("Cash Flow", WNumber (Num 150000)) ] ] in
  let financial (d : string) (rev ex pr cf : Z) : writtenRow :=
    [ ("Date", WText d); ("Revenue", WNumber (Num rev));
      ("Expenses", WNumber (Num ex)); ("Profit", WNumber (Num pr));
      ("Cash Flow", WNumber (Num cf)) ] in
  let financialData : list writtenRow :=
    [ financial "2024-01-01" 125000 100000 25000 15000;
      financial "2024-02-01" 130000 102000 28000 18000;
      financial "2024-03-01" 135000 105000 30000 20000;
      financial "2024-04-01" 140000 108000 32000 22000;
      financial "2024-05-01" 145000 110000 35000 25000;
      financial "2024-06-01" 150000 112000 38000 28000 ] in
  let kpi (m : string) (v t : Z) (u c : string) : writtenRow :=
    [ ("Metric", WText m); ("Value", WNumber (Num v)); ("Target", WNumber (Num t));
      ("Unit", WText u); ("Category", WText c) ] in
  let kpiData : list writtenRow :=
    [ kpi "Customer Satisfaction" 85 90 "%" "customer";
      kpi "Employee Productivity" 92 95 "%" "operational";
      kpi "Monthly Recurring Revenue" 125000 150000 "$" "financial";
      kpi "Market Share" 12 15 "%" "growth";
      kpi "Customer Acquisition Cost" 150 120 "$" "customer";
      kpi "Operational Efficiency" 88 92 "%" "operational" ] in
  let instruction (s d : string) : writtenRow :=
    [ ("Section", WText s); ("Description", WText d) ] in
  let instructions : list writtenRow :=
    [ instruction "Business Data"
        "Basic company information and high-level financial data";
      instruction "Financial Records"
        "Monthly/quarterly financial performance data with Date, Revenue, Expenses, Profit, and Cash Flow";
      instruction "KPIs"
        "Key Performance Indicators with current values, targets, units, and categories";
      instruction "Data Format" "Use the exact column names shown in the sample data";
      instruction "Date Format" "Use YYYY-MM-DD format for dates (e.g., 2024-01-15)";
      instruction "Numbers"
        "Enter numbers without currency symbols or commas (e.g., 150000 not $150,000)";
      instruction "Categories"
        "For KPIs use: financial, operational, customer, or growth" ] in
  {| workbookName := "BizOptima_Data_Template.xlsx";
     workbookSheets :=
       [ ("Business Data", businessData);
         ("Financial Records", financialData);
         ("KPIs", kpiData);
         ("Instructions", instructions) ] |}.

(** What [generateSampleCSVTemplate] saves. *)
Definition generateSampleCSVTemplate : SavedFile :=
  let csvContent :=
    join (String newline "")
      [ "Date,Revenue,Expenses,Profit,Cash Flow";
        "2024-01-01,125000,100000,25000,15000";
        "2024-02-01,130000,102000,28000,18000";
        "2024-03-01,135000,105000,30000,20000";
        "2024-04-01,140000,108000,32000,22000";
        "2024-05-01,145000,110000,35000,25000";
        "2024-06-01,150000,112000,38000,28000" ] in
  {| fileName := "BizOptima_Financial_Template.csv"; content := csvContent |}.

(** The profile and the indicators the workbook template describes. *)
Definition templateProfile : PartialBusinessData :=
  {| p_id := None;
     p_companyName := Some "Example Corp";
     p_industry := Some "Technology/Software";
     p_employees := Some (Num 50);
     p_revenue := Some (Num 1500000);
     p_costs := Some (Num 1200000);
     p_assets := Some (Num 2000000);
     p_liabilities := Some (Num 800000);
     p_cashFlow := Some (Num 150000);
     p_createdAt := None;
     p_updatedAt := None |}.

Definition templateKPIs : list KPIData :=
  [ {| metric := "Customer Satisfaction"; value := Num 85; target := Num 90;
       unit_ := "%"; category := "customer" |};
    {| metric := "Employee Productivity"; value := Num 92; target := Num 95;
       unit_ := "%"; category := "operational" |};
    {| metric := "Monthly Recurring Revenue"; value := Num 125000;
       target := Num 150000; unit_ := "$"; category := "financial" |};
    {| metric := "Market Share"; value := Num 12; target := Num 15;
       unit_ := "%"; category := "growth" |};
    {| metric := "Customer Acquisition Cost"; value := Num 150; target := Num 120;
       unit_ := "$"; category := "customer" |};
    {| metric := "Operational Efficiency"; value := Num 88; target := Num 92;
       unit_ := "%"; category := "operational" |} ].

(* ===================================================================== *)
(** ** Further sample data *)
(* ===================================================================== *)

Definition januaryRevised : NewFinancialRecord :=
  {| n_date := Some "2024-01-01"; n_revenue := Num 126500;
     n_expenses := Num 100000; n_profit := Num 26500; n_cashFlow := Num 15000 |}.

(** A store with a profile, two records and one indicator. *)
Definition fullWorld : World :=
  setKPIData [marketShare] (setBusinessData env0 acmeInput twoMonths).

(** A file whose header has the date column in capitals. *)
Definition capitalsFile : string :=
  "DATE,Revenue" +:+ String newline "2024-01-01,5".

(** A file with one line that is no numeral. *)
Definition marchFile : string :=
  "Date,Revenue" +:+ String newline "2024-03-01,abc".

Definition march : FinancialRecord :=
  {| date := "2024-03-01"; r_revenue := Num 0; expenses := Num 0;
     profit := Num 0; r_cashFlow := Num 0 |}.

Definition chatBefore : string := "Here is the analysis: ```json ".
Definition chatInner : string := " score: 7, parts: {a: 1} ".
Definition chatAfter : string := " ``` I hope this helps.".

(* ===================================================================== *)
(** * Facts *)
(* ===================================================================== *)

Section Facts.
Context `{HostDate}.

(** ** Persistence *)

Lemma saveToStorage_memory w :
  businessData (saveToStorage w) = businessData w
  /\ financialRecords (saveToStorage w) = financialRecords w
  /\ kpiData (saveToStorage w) = kpiData w.
Proof. by destruct w. Qed.

Lemma saveToStorage_collections w :
  localStorage (saveToStorage w) !! FINANCIAL_RECORDS_KEY
    = Some (SnapRecords (financialRecords w))
  /\ localStorage (saveToStorage w) !! KPI_DATA_KEY
    = Some (SnapKPIs (kpiData w)).
Proof.
  unfold saveToStorage; simpl; split.
  - rewrite lookup_insert_ne by done. by rewrite lookup_insert_eq.
  - by rewrite lookup_insert_eq.
Qed.

(** With no profile in memory the profile key is not written at all. *)
Lemma saveToStorage_absent_profile w :
  businessData w = None ->
  localStorage (saveToStorage w) !! BUSINESS_DATA_KEY
    = localStorage w !! BUSINESS_DATA_KEY.
Proof.
  intros Hb. unfold saveToStorage. rewrite Hb. simpl.
  by rewrite !lookup_insert_ne.
Qed.

Lemma clearAllData_memory w :
  getBusinessData (clearAllData w) = None
  /\ getFinancialRecords (clearAllData w) = []
  /\ getKPIData (clearAllData w) = [].
Proof. done. Qed.

Lemma clearAllData_profile_key w :
  localStorage (clearAllData w) !! BUSINESS_DATA_KEY
    = localStorage w !! BUSINESS_DATA_KEY.
Proof. unfold clearAllData. by rewrite saveToStorage_absent_profile. Qed.

(** C1. [clearAllData] empties the three collections in memory and writes
    the two list keys, but the profile key is left as it was: after a
    profile has been saved, clearing keeps that profile in [localStorage],
    and the next [DataManager] constructed from it has the profile again. *)
Theorem clearAllData_keeps_stored_profile :
  let w := clearAllData acmeWorld in
  getBusinessData w = None
  /\ getFinancialRecords w = []
  /\ getKPIData w = []
  /\ localStorage w !! FINANCIAL_RECORDS_KEY = Some (SnapRecords [])
  /\ localStorage w !! KPI_DATA_KEY = Some (SnapKPIs [])
  /\ localStorage w !! BUSINESS_DATA_KEY
       = SnapProfile <$> getBusinessData acmeWorld
  /\ getBusinessData acmeWorld <> None
  /\ getBusinessData (loadFromStorage (localStorage w))
       = getBusinessData acmeWorld.
Proof.
  cbv zeta.
  pose proof (clearAllData_memory acmeWorld) as (Hb & Hr & Hk).
  pose proof (clearAllData_profile_key acmeWorld) as Hkey.
  assert (Hacme : localStorage acmeWorld !! BUSINESS_DATA_KEY
                    = SnapProfile <$> getBusinessData acmeWorld).
  { unfold acmeWorld, setBusinessData, saveToStorage; simpl.
    rewrite !lookup_insert_ne by done. by rewrite lookup_insert_eq. }
  split_and!.
  - exact Hb.
  - exact Hr.
  - exact Hk.
  - apply (saveToStorage_collections (mkWorld None [] [] _)).
  - apply (saveToStorage_collections (mkWorld None [] [] _)).
  - by rewrite Hkey.
  - discriminate.
  - unfold loadFromStorage, getBusinessData at 1. cbn [businessData].
    by rewrite Hkey, Hacme.
Qed.

(** ** Profile *)

(** C3, as stated, fails: a second [setBusinessData] whose input omits
    [id] and [createdAt] does not keep those of the existing profile. *)
Lemma setBusinessData_replaces_identity :
  exists b b',
    getBusinessData acmeWorld = Some b
    /\ getBusinessData (setBusinessData env1 acmeInput acmeWorld) = Some b'
    /\ p_id acmeInput = None /\ p_createdAt acmeInput = None
    /\ id b' <> id b
    /\ createdAt b' <> createdAt b.
Proof.
  eexists _, _. split; [reflexivity|]. split; [reflexivity|].
  split_and!; try reflexivity; vm_compute; discriminate.
Qed.

(** C3, amended.  [setBusinessData] never consults the existing profile:
    the new profile's [id] and [createdAt] are the caller's when supplied
    (a non-empty [id]), otherwise a freshly generated id and the current
    time; [updatedAt] is always the current time. *)
Theorem setBusinessData_identity e data w :
  exists b,
    getBusinessData (setBusinessData e data w) = Some b
    /\ updatedAt b = now e
    /\ id b = match p_id data with
              | Some s => if truthyStr s then s else generateId e
              | None => generateId e
              end
    /\ createdAt b = default (now e) (p_createdAt data)
    /\ (forall b0, getBusinessData w = Some b0 ->
          p_id data = Some (id b0) -> id b0 <> "" ->
          p_createdAt data = Some (createdAt b0) ->
          id b = id b0 /\ createdAt b = createdAt b0).
Proof.
  eexists. split; [reflexivity|]. simpl.
  split_and!; try reflexivity.
  intros b0 _ -> Hid ->. split; [|reflexivity].
  destruct (id b0); [done|reflexivity].
Qed.

(** C7. After [setBusinessData], every numeric field the input omits reads
    [0] and every free-text field it omits reads as the empty string. *)
Theorem setBusinessData_defaults e data w :
  exists b,
    getBusinessData (setBusinessData e data w) = Some b
    /\ (p_employees data = None -> employees b = Num 0)
    /\ (p_revenue data = None -> revenue b = Num 0)
    /\ (p_costs data = None -> costs b = Num 0)
    /\ (p_assets data = None -> assets b = Num 0)
    /\ (p_liabilities data = None -> liabilities b = Num 0)
    /\ (p_cashFlow data = None -> cashFlow b = Num 0)
    /\ (p_companyName data = None -> companyName b = "")
    /\ (p_industry data = None -> industry b = "").
Proof.
  eexists. split; [reflexivity|]. simpl.
  split_and!; intros ->; reflexivity.
Qed.

(** ** Derived metrics *)

(** *** Subtraction of integers *)

Lemma iter_pos_nat {A : Type} (f : A -> A) p x :
  SpecFloat.iter_pos f p x = Nat.iter (Pos.to_nat p) f x.
Proof.
  revert x. induction p as [p IH|p IH|]; intros x; cbn [SpecFloat.iter_pos].
  - rewrite !IH, Pos2Nat.inj_xI, <- Nat.iter_add, <- Nat.iter_succ_r.
    f_equal. lia.
  - rewrite !IH, Pos2Nat.inj_xO, <- Nat.iter_add. f_equal. lia.
  - done.
Qed.

Lemma Pos_iter_nat {A : Type} (f : A -> A) p x :
  Pos.iter f x p = Nat.iter (Pos.to_nat p) f x.
Proof.
  induction p as [|p IH] using Pos.peano_ind; [done|].
  by rewrite Pos.iter_succ, Pos2Nat.inj_succ, IH.
Qed.

Lemma shifted_value j q : Zpos (shifted j q) = Zpos q * 2 ^ Z.of_nat j.
Proof.
  unfold shifted. induction j as [|j IH]; [cbn; lia|].
  rewrite Nat.iter_succ, Pos2Z.inj_xO, IH, Nat2Z.inj_succ, Z.pow_succ_r by lia. lia.
Qed.

Lemma shifted_digits j q :
  Zpos (digits2_pos (shifted j q)) = Zpos (digits2_pos q) + Z.of_nat j.
Proof.
  unfold shifted. induction j as [|j IH]; [cbn; lia|].
  rewrite Nat.iter_succ. cbn [digits2_pos]. lia.
Qed.

Lemma Pos_iter_shifted d m : Pos.iter xO m d = shifted (Pos.to_nat d) m.
Proof. apply Pos_iter_nat. Qed.

Lemma shifted_add i j q : shifted i (shifted j q) = shifted (i + j) q.
Proof. unfold shifted. by rewrite Nat.iter_add. Qed.

Lemma shr_shifted j q :
  Nat.iter j shr_1 {| shr_m := Zpos (shifted j q); shr_r := false; shr_s := false |}
  = {| shr_m := Zpos q; shr_r := false; shr_s := false |}.
Proof.
  unfold shifted. induction j as [|j IH]; [done|].
  by rewrite Nat.iter_succ_r, Nat.iter_succ.
Qed.

(** Trailing zero bits of the mantissa can be moved into the exponent. *)
Lemma shr_fexp_shifted j q e0 :
  e0 <= fexp prec emax (Zpos (digits2_pos q) + e0) ->
  shr_fexp prec emax (Zpos (shifted j q)) (e0 - Z.of_nat j) loc_Exact
  = shr_fexp prec emax (Zpos q) e0 loc_Exact.
Proof.
  intros He. unfold shr_fexp. cbn [Zdigits2 shr_record_of_loc].
  rewrite shifted_digits.
  replace (Zpos (digits2_pos q) + Z.of_nat j + (e0 - Z.of_nat j))
    with (Zpos (digits2_pos q) + e0) by lia.
  set (E := fexp prec emax (Zpos (digits2_pos q) + e0)) in *.
  unfold shr.
  destruct (E - (e0 - Z.of_nat j)) as [|n1|n1] eqn:H1; [| |lia].
  - assert (j = 0%nat) as -> by lia. assert (E - e0 = 0) as -> by lia.
    f_equal. lia.
  - rewrite iter_pos_nat.
    destruct (E - e0) as [|n0|n0] eqn:H0; [| |lia].
    + assert (Pos.to_nat n1 = j) as -> by lia. rewrite shr_shifted. f_equal. lia.
    + rewrite iter_pos_nat.
      assert (Pos.to_nat n1 = (Pos.to_nat n0 + j)%nat) as -> by lia.
      rewrite Nat.iter_add, shr_shifted. f_equal. lia.
Qed.

Lemma binary_round_aux_shifted s j q e0 :
  e0 <= fexp prec emax (Zpos (digits2_pos q) + e0) ->
  binary_round_aux prec emax s (Zpos (shifted j q)) (e0 - Z.of_nat j) loc_Exact
  = binary_round_aux prec emax s (Zpos q) e0 loc_Exact.
Proof. intros He. unfold binary_round_aux. by rewrite shr_fexp_shifted. Qed.

Lemma binary_round_shifted s k p :
  binary_round prec emax s (shifted k p) (- Z.of_nat k)
  = binary_round prec emax s p 0.
Proof.
  unfold binary_round. rewrite shifted_digits.
  replace (Zpos (digits2_pos p) + Z.of_nat k + - Z.of_nat k)
    with (Zpos (digits2_pos p) + 0) by lia.
  set (E := fexp prec emax (Zpos (digits2_pos p) + 0)).
  assert (HE : E = fexp prec emax (Zpos (digits2_pos p) + 0)) by done.
  clearbody E. unfold shl_align.
  destruct (E - - Z.of_nat k) as [|d1|d1] eqn:H1;
    destruct (E - 0) as [|d0|d0] eqn:H0; try lia.
  - assert (k = 0%nat) as -> by lia. done.
  - rewrite Pos_iter_shifted.
    replace (- Z.of_nat k) with (E - Z.of_nat (k - Pos.to_nat d0)) by lia.
    replace (shifted k p)
      with (shifted (k - Pos.to_nat d0) (shifted (Pos.to_nat d0) p))
      by (rewrite shifted_add; f_equal; lia).
    apply binary_round_aux_shifted. rewrite shifted_digits.
    replace (Zpos (digits2_pos p) + Z.of_nat (Pos.to_nat d0) + E)
      with (Zpos (digits2_pos p) + 0) by lia. lia.
  - replace (- Z.of_nat k) with (0 - Z.of_nat k) by lia.
    apply binary_round_aux_shifted. lia.
  - replace (- Z.of_nat k) with (0 - Z.of_nat k) by lia.
    apply binary_round_aux_shifted. lia.
  - rewrite Pos_iter_shifted.
    replace (- Z.of_nat k) with (E - Z.of_nat (k - Pos.to_nat d0)) by lia.
    replace (shifted k p)
      with (shifted (k - Pos.to_nat d0) (shifted (Pos.to_nat d0) p))
      by (rewrite shifted_add; f_equal; lia).
    apply binary_round_aux_shifted. rewrite shifted_digits.
    replace (Zpos (digits2_pos p) + Z.of_nat (Pos.to_nat d0) + E)
      with (Zpos (digits2_pos p) + 0) by lia. lia.
  - rewrite !Pos_iter_shifted, shifted_add.
    by replace (Pos.to_nat d1 + k)%nat with (Pos.to_nat d0) by lia.
Qed.

Lemma binary_normalize_shifted z k :
  binary_normalize prec emax (z * 2 ^ Z.of_nat k) (- Z.of_nat k) false
  = binary_normalize prec emax z 0 false.
Proof.
  destruct z as [|p|p]; [done| |].
  - rewrite <- shifted_value. apply binary_round_shifted.
  - change (Z.neg p) with (- Zpos p). rewrite Z.mul_opp_l, <- shifted_value.
    apply binary_round_shifted.
Qed.

Lemma digits2_pos_lower p : 2 ^ (Zpos (digits2_pos p) - 1) <= Zpos p.
Proof.
  induction p as [p IH|p IH|]; cbn [digits2_pos]; [| |done].
  - rewrite Pos2Z.inj_succ.
    replace (Z.succ (Zpos (digits2_pos p)) - 1)
      with (Z.succ (Zpos (digits2_pos p) - 1)) by lia.
    rewrite Z.pow_succ_r by lia. lia.
  - rewrite Pos2Z.inj_succ.
    replace (Z.succ (Zpos (digits2_pos p)) - 1)
      with (Z.succ (Zpos (digits2_pos p) - 1)) by lia.
    rewrite Z.pow_succ_r by lia. lia.
Qed.

Lemma digits2_pos_small p : Zpos p < 2 ^ 53 -> Zpos (digits2_pos p) <= 53.
Proof.
  intros Hp. pose proof (digits2_pos_lower p) as Hlow.
  destruct (Z.le_gt_cases (Zpos (digits2_pos p)) 53) as [|Hgt]; [done|].
  assert (2 ^ 53 <= 2 ^ (Zpos (digits2_pos p) - 1)) by (apply Z.pow_le_mono_r; lia).
  lia.
Qed.

(** The double of an integer below [2^53]: the integer, with its mantissa
    shifted to 53 bits. *)
Lemma binary_round_small s p :
  Zpos p < 2 ^ 53 ->
  binary_round prec emax s p 0
  = S754_finite s (shifted (Z.to_nat (53 - Zpos (digits2_pos p))) p)
      (Zpos (digits2_pos p) - 53).
Proof.
  intros Hp. apply digits2_pos_small in Hp.
  set (d := Zpos (digits2_pos p)) in *.
  assert (Hd : 1 <= d) by (unfold d; lia).
  unfold binary_round. fold d.
  assert (HE : fexp prec emax (d + 0) = d - 53).
  { unfold fexp, emin, prec, emax. lia. }
  rewrite HE. unfold shl_align.
  assert (Haux : forall m e, Zpos (digits2_pos m) = 53 -> -52 <= e <= 0 ->
            binary_round_aux prec emax s (Zpos m) e loc_Exact = S754_finite s m e).
  { intros m e Hm He. unfold binary_round_aux, shr_fexp. cbn [Zdigits2].
    rewrite Hm.
    assert (fexp prec emax (53 + e) - e = 0) as ->
      by (unfold fexp, emin, prec, emax; lia).
    cbn [shr shr_record_of_loc shr_m loc_of_shr_record round_nearest_even Zdigits2].
    rewrite Hm.
    assert (fexp prec emax (53 + e) - e = 0) as ->
      by (unfold fexp, emin, prec, emax; lia).
    cbn [shr shr_record_of_loc shr_m].
    assert ((e <=? emax - prec) = true) as -> by (unfold emax, prec; lia).
    done. }
  destruct (d - 53 - 0) as [|n|n] eqn:Hn; [| lia |].
  - assert (53 - d = 0) as -> by lia. change (shifted (Z.to_nat 0) p) with p.
    replace (d - 53) with 0 by lia. apply Haux; [unfold d in *; lia|lia].
  - rewrite Pos_iter_shifted.
    assert (Z.to_nat (53 - d) = Pos.to_nat n) as -> by lia.
    apply Haux; [rewrite shifted_digits; fold d; lia|lia].
Qed.

Lemma Num_pos s p :
  Zpos p < 2 ^ 53 ->
  binary_normalize prec emax (cond_Zopp s (Zpos p)) 0 false
  = S754_finite s (shifted (Z.to_nat (53 - Zpos (digits2_pos p))) p)
      (Zpos (digits2_pos p) - 53).
Proof. intros Hp. destruct s; cbn; by apply binary_round_small. Qed.

Lemma SFsub_small sa pa sb pb :
  Zpos pa < 2 ^ 53 -> Zpos pb < 2 ^ 53 ->
  SFsub prec emax
    (binary_normalize prec emax (cond_Zopp sa (Zpos pa)) 0 false)
    (binary_normalize prec emax (cond_Zopp sb (Zpos pb)) 0 false)
  = binary_normalize prec emax (cond_Zopp sa (Zpos pa) - cond_Zopp sb (Zpos pb)) 0 false.
Proof.
  intros Ha Hb. rewrite !Num_pos by done.
  pose proof (digits2_pos_small pa Ha) as Hda.
  pose proof (digits2_pos_small pb Hb) as Hdb.
  set (da := Zpos (digits2_pos pa)) in *. set (db := Zpos (digits2_pos pb)) in *.
  assert (1 <= da) by (unfold da; lia). assert (1 <= db) by (unfold db; lia).
  cbn [SFsub].
  set (ez := Z.min (da - 53) (db - 53)).
  set (K := Z.to_nat (- ez)).
  assert (Hshl : forall d p, 1 <= d <= 53 -> ez <= d - 53 ->
            fst (shl_align (shifted (Z.to_nat (53 - d)) p) (d - 53) ez)
            = shifted K p).
  { intros d p Hd Hez. unfold shl_align.
    destruct (ez - (d - 53)) as [|n|n] eqn:Hn; [|lia|]; cbn [fst].
    - f_equal. unfold K. lia.
    - rewrite Pos_iter_shifted, shifted_add. f_equal. unfold K. lia. }
  rewrite !Hshl by (unfold ez; lia).
  replace ez with (- Z.of_nat K) by (unfold K, ez; lia).
  rewrite <- (binary_normalize_shifted (cond_Zopp sa (Zpos pa) - cond_Zopp sb (Zpos pb)) K).
  f_equal. rewrite !shifted_value. destruct sa, sb; cbn [cond_Zopp]; lia.
Qed.

(** On integers below [2^53] in magnitude, [a - b] is the Number value for
    the integer [a - b]: the difference itself when it is below [2^53] in
    magnitude too, and its nearest double otherwise. *)
Lemma jsSub_integers a b :
  Z.abs a < 2 ^ 53 -> Z.abs b < 2 ^ 53 -> jsSub (Num a) (Num b) = Num (a - b).
Proof.
  intros Ha Hb. unfold jsSub, Num. cbn [ToNumber]. f_equal.
  destruct a as [|pa|pa], b as [|pb|pb]; try done.
  - change (binary_normalize prec emax (Z.pos pb) 0 false)
      with (binary_round prec emax false pb 0).
    change (binary_normalize prec emax (0 - Z.pos pb) 0 false)
      with (binary_round prec emax true pb 0).
    by rewrite !binary_round_small by lia.
  - change (binary_normalize prec emax (Z.neg pb) 0 false)
      with (binary_round prec emax true pb 0).
    change (binary_normalize prec emax (0 - Z.neg pb) 0 false)
      with (binary_round prec emax false pb 0).
    by rewrite !binary_round_small by lia.
  - change (binary_normalize prec emax (Z.pos pa - 0) 0 false)
      with (binary_round prec emax false pa 0).
    change (binary_normalize prec emax (Z.pos pa) 0 false)
      with (binary_round prec emax false pa 0).
    by rewrite !binary_round_small by lia.
  - apply (SFsub_small false pa false pb); lia.
  - apply (SFsub_small false pa true pb); lia.
  - change (binary_normalize prec emax (Z.neg pa - 0) 0 false)
      with (binary_round prec emax true pa 0).
    change (binary_normalize prec emax (Z.neg pa) 0 false)
      with (binary_round prec emax true pa 0).
    by rewrite !binary_round_small by lia.
  - apply (SFsub_small true pa false pb); lia.
  - apply (SFsub_small true pa true pb); lia.
Qed.

(** Distinct integers below [2^53] in magnitude are distinct Numbers. *)
Lemma Num_inj x y :
  Z.abs x < 2 ^ 53 -> Z.abs y < 2 ^ 53 -> Num x = Num y -> x = y.
Proof.
  assert (Hpos : forall s s' p p', Zpos p < 2 ^ 53 -> Zpos p' < 2 ^ 53 ->
            binary_round prec emax s p 0 = binary_round prec emax s' p' 0 ->
            s = s' /\ p = p').
  { intros s s' p p' Hp Hp'. rewrite !binary_round_small by done.
    intros [= -> Hm He]. split; [done|].
    assert (Hd : Zpos (digits2_pos p) = Zpos (digits2_pos p')) by lia.
    rewrite Hd in Hm.
    pose proof (shifted_value (Z.to_nat (53 - Z.pos (digits2_pos p'))) p) as V.
    pose proof (shifted_value (Z.to_nat (53 - Z.pos (digits2_pos p'))) p') as V'.
    rewrite Hm, V' in V.
    assert (0 < 2 ^ Z.of_nat (Z.to_nat (53 - Z.pos (digits2_pos p'))))
      by (apply Z.pow_pos_nonneg; lia).
    apply Z.mul_cancel_r in V; [by injection V|lia]. }
  intros Hx Hy [= Heq]. revert Heq.
  destruct x as [|p|p], y as [|q|q]; cbn [binary_normalize]; try done.
  - rewrite !binary_round_small by lia. done.
  - rewrite !binary_round_small by lia. done.
  - rewrite !binary_round_small by lia. done.
  - intros Heq. apply Hpos in Heq as [_ ->]; [done|lia|lia].
  - intros Heq. apply Hpos in Heq as [? _]; [done|lia|lia].
  - rewrite !binary_round_small by lia. done.
  - intros Heq. apply Hpos in Heq as [? _]; [done|lia|lia].
  - intros Heq. apply Hpos in Heq as [_ ->]; [done|lia|lia].
Qed.

(** [n || 0] leaves such an integer as it is. *)
Lemma orZero_Num z : Z.abs z < 2 ^ 53 -> orZero (Num z) = Num z.
Proof.
  intros Hz. destruct z as [|p|p]; [done| |]; unfold orZero, Num;
    cbn [binary_normalize]; by rewrite binary_round_small by lia.
Qed.

Lemma SFsub_nan x y :
  x = S754_nan \/ y = S754_nan -> SFsub prec emax x y = S754_nan.
Proof. intros [-> | ->]; [done|]. by destruct x. Qed.

(** C5. [getFinancialMetrics] is absent without a profile; with one,
    grossProfit = revenue - costs, netProfit = grossProfit and
    equity = assets - liabilities, all in binary64 arithmetic with [null]
    counting as 0.  On integers below [2^53] in magnitude, which are
    distinct Numbers, the two differences are the Numbers of the integer
    differences, also through [setBusinessData]; [NaN] on either side gives
    [NaN].  The Acme input gives 400, 400, 3000; revenue 0.3 with costs 0.1
    gives 0.19999999999999998, and assets [2^53] with liabilities [-1] give
    [2^53]. *)
Theorem getFinancialMetrics_spec :
  (forall w, getBusinessData w = None -> getFinancialMetrics w = None)
  /\ (forall w b, getBusinessData w = Some b ->
        exists m, getFinancialMetrics w = Some m
          /\ grossProfit m = jsSub (revenue b) (costs b)
          /\ netProfit m = grossProfit m
          /\ equity m = jsSub (assets b) (liabilities b)
          /\ m_revenue m = revenue b /\ m_costs m = costs b
          /\ m_assets m = assets b /\ m_liabilities m = liabilities b
          /\ m_cashFlow m = cashFlow b /\ m_expenses m = costs b)
  /\ (forall x y, Z.abs x < 2 ^ 53 -> Z.abs y < 2 ^ 53 ->
        jsSub (Num x) (Num y) = Num (x - y)
        /\ jsSub Null (Num y) = Num (0 - y)
        /\ jsSub (Num x) Null = Num x
        /\ (Num x = Num y -> x = y))
  /\ (forall x y, x = NaN \/ y = NaN -> jsSub x y = NaN)
  /\ (forall e w data r c a l,
        p_revenue data = Some (Num r) -> p_costs data = Some (Num c) ->
        p_assets data = Some (Num a) -> p_liabilities data = Some (Num l) ->
        Z.abs r < 2 ^ 53 -> Z.abs c < 2 ^ 53 ->
        Z.abs a < 2 ^ 53 -> Z.abs l < 2 ^ 53 ->
        exists m, getFinancialMetrics (setBusinessData e data w) = Some m
          /\ grossProfit m = Num (r - c)
          /\ netProfit m = Num (r - c)
          /\ equity m = Num (a - l))
  /\ (forall e w,
        exists m, getFinancialMetrics (setBusinessData e acmeInput w) = Some m
          /\ grossProfit m = Num 400
          /\ netProfit m = Num 400
          /\ equity m = Num 3000)
  /\ (forall e w,
        exists m, getFinancialMetrics (setBusinessData e decimalInput w) = Some m
          /\ numToString (grossProfit m) = "0.19999999999999998"
          /\ grossProfit m <> Number_ "0.2"
          /\ netProfit m = grossProfit m
          /\ equity m = Num (2 ^ 53)
          /\ numToString (equity m) = "9007199254740992").
Proof.
  unfold getBusinessData, getFinancialMetrics. split_and!.
  - by intros w ->.
  - intros w b ->. eexists. split; [reflexivity|]. by simpl.
  - intros x y Hx Hy. split_and!.
    + by apply jsSub_integers.
    + by apply (jsSub_integers 0 y).
    + replace (Num x) with (Num (x - 0)) at 2 by (f_equal; lia).
      by apply (jsSub_integers x 0).
    + by apply Num_inj.
  - intros x y Hxy. unfold jsSub, NaN. f_equal. apply SFsub_nan.
    destruct Hxy as [-> | ->]; [by left|by right].
  - intros e w data r c a l Hr Hc Ha Hl ? ? ? ?.
    eexists. split; [reflexivity|]. cbn [businessData saveToStorage setBusinessData
      grossProfit netProfit equity revenue costs assets liabilities].
    rewrite Hr, Hc, Ha, Hl. cbn [numOrZero].
    rewrite !orZero_Num, !jsSub_integers by done. done.
  - intros e w. eexists. split; [reflexivity|]. by simpl.
  - intros e w. eexists. split; [reflexivity|].
    cbn [businessData saveToStorage setBusinessData
      grossProfit netProfit equity revenue costs assets liabilities decimalInput
      p_revenue p_costs p_assets p_liabilities].
    split_and!; [by vm_compute|by vm_compute|done|by vm_compute|by vm_compute].
Qed.

(** ** Indicators *)

Lemma filter_other_then_same {A B : Type} `{EqDecision B} (f : A -> B) (b : B)
  (l : list A) :
  filter (fun x => f x = b) (filter (fun x => f x <> b) l) = [].
Proof.
  induction l as [|x l IH]; [done|].
  rewrite (filter_cons (fun x => f x <> b)).
  destruct (decide (f x <> b)) as [Hne|Heq]; [|done].
  rewrite filter_cons. by destruct (decide (f x = b)).
Qed.

Lemma NoDup_fmap_filter {A B : Type} (f : A -> B) (P : A -> Prop)
  `{forall x, Decision (P x)} (l : list A) :
  NoDup (f <$> l) -> NoDup (f <$> filter P l).
Proof.
  intros Hl. eapply sublist_NoDup; [exact Hl|].
  apply fmap_sublist, sublist_filter.
Qed.

Lemma elem_of_fmap_filter_ne {A B : Type} `{EqDecision B} (f : A -> B) (b : B)
  (l : list A) :
  b ∉ f <$> filter (fun x => f x <> b) l.
Proof.
  intros (x & -> & Hx)%list_elem_of_fmap.
  apply list_elem_of_filter in Hx as [Hne _]. by apply Hne.
Qed.

Lemma NoDup_replace_by_key {A B : Type} `{EqDecision B} (f : A -> B) (a : A)
  (l : list A) :
  NoDup (f <$> l) -> NoDup (f <$> (filter (fun x => f x <> f a) l ++ [a])).
Proof.
  intros Hl. rewrite fmap_app. apply NoDup_app. split_and!.
  - by apply NoDup_fmap_filter.
  - intros b Hb Hin. apply list_elem_of_singleton in Hin as ->.
    by apply elem_of_fmap_filter_ne in Hb.
  - apply NoDup_singleton.
Qed.

Lemma fmap_insert_same_key {A B : Type} (f : A -> B) (l : list A) i x y :
  l !! i = Some x -> f y = f x -> f <$> <[i := y]> l = f <$> l.
Proof.
  intros Hi Hf. rewrite list_fmap_insert, Hf.
  apply list_insert_id. by rewrite list_lookup_fmap, Hi.
Qed.

(** C4, as stated, fails: [setKPIData] stores the list it is given, so a
    list that repeats a metric name leaves two indicators under it. *)
Lemma setKPIData_keeps_duplicates :
  ~ uniqueMetrics (getKPIData (setKPIData [marketShare; marketShare'] emptyWorld)).
Proof.
  unfold uniqueMetrics. simpl. intros Hnd.
  apply NoDup_cons in Hnd as [Hnotin _]. apply Hnotin. left.
Qed.

(** C4, amended.  [addKPI] leaves exactly one indicator under the added
    metric, the one just added, whatever the collection held; [addKPI],
    [deleteKPI] and an [updateKPI] that does not rename keep metric names
    unique; [setKPIData] stores the given list unchanged, so names are
    unique afterwards exactly when they are in that list. *)
Theorem indicators_unique_by_key w :
  (forall kpi,
      filter (fun k => metric k = metric kpi) (getKPIData (addKPI kpi w)) = [kpi])
  /\ (forall kpi, uniqueMetrics (getKPIData w) ->
        uniqueMetrics (getKPIData (addKPI kpi w)))
  /\ (forall m, uniqueMetrics (getKPIData w) ->
        uniqueMetrics (getKPIData (deleteKPI m w)))
  /\ (forall m updates, k_metric updates = None ->
        uniqueMetrics (getKPIData w) ->
        uniqueMetrics (getKPIData (updateKPI m updates w)))
  /\ (forall kpis, getKPIData (setKPIData kpis w) = kpis
        /\ (uniqueMetrics (getKPIData (setKPIData kpis w)) <-> uniqueMetrics kpis)).
Proof.
  unfold uniqueMetrics, getKPIData. split_and!.
  - intros kpi. simpl. rewrite filter_app, filter_other_then_same.
    rewrite filter_cons. by destruct (decide (metric kpi = metric kpi)).
  - intros kpi Hu. simpl. by apply NoDup_replace_by_key.
  - intros m Hu. simpl. by apply NoDup_fmap_filter.
  - intros m updates Hm Hu. unfold updateKPI.
    destruct (list_find _ _) as [[i k]|] eqn:Hfind; [|done].
    apply list_find_Some in Hfind as (Hi & _ & _). simpl.
    rewrite (fmap_insert_same_key metric _ i k); [done..|].
    unfold mergeKPI. simpl. by rewrite Hm.
  - intros kpis. by simpl.
Qed.

(** ** Records *)

Lemma placedAfter_false_le x y :
  is_Some (timeOf x) -> is_Some (timeOf y) ->
  placedAfter x y = false -> dateLe x y.
Proof.
  unfold placedAfter, compareDates, dateLe, notLater, timeOf.
  intros [tx ->] [ty ->] Hcmp. apply Z.ltb_ge in Hcmp. lia.
Qed.

Lemma placedAfter_true_le x y : placedAfter x y = true -> dateLe y x.
Proof.
  unfold placedAfter, compareDates, dateLe, notLater, timeOf.
  destruct (Date_parse (date x)), (Date_parse (date y)); try discriminate.
  intros Hcmp%Z.ltb_lt. lia.
Qed.

Lemma dateLe_placedAfter x y : dateLe x y -> placedAfter x y = false.
Proof.
  unfold placedAfter, compareDates, dateLe, notLater, timeOf.
  destruct (Date_parse (date x)), (Date_parse (date y)); try done.
  intros Hle. apply Z.ltb_ge. lia.
Qed.

#[local] Instance dateLe_trans : Transitive dateLe.
Proof.
  intros x y z. unfold dateLe, notLater.
  destruct (Date_parse (date x)), (Date_parse (date y)), (Date_parse (date z));
    try done. lia.
Qed.

Lemma insertByDate_perm x l : insertByDate x l ≡ₚ x :: l.
Proof.
  induction l as [|y l IH]; simpl; [done|].
  destruct (placedAfter x y); [|done].
  rewrite IH. apply perm_swap.
Qed.

Lemma sortByDate_perm l : sortByDate l ≡ₚ l.
Proof.
  induction l as [|x l IH]; simpl; [done|].
  by rewrite insertByDate_perm, IH.
Qed.

Lemma insertByDate_sorted x l :
  is_Some (timeOf x) -> datesValid l -> ascending l ->
  ascending (insertByDate x l).
Proof.
  unfold ascending, datesValid. intros Hx Hv Hs.
  induction Hs as [|y l Hs IH Hall]; simpl.
  - repeat constructor.
  - apply Forall_cons in Hv as [Hy Hv].
    destruct (placedAfter x y) eqn:Hcmp.
    + apply StronglySorted_cons. split; [|by apply IH].
      rewrite insertByDate_perm. constructor; [|done].
      by apply placedAfter_true_le.
    + apply placedAfter_false_le in Hcmp; [|done..].
      apply StronglySorted_cons. split; [|by constructor].
      constructor; [done|].
      eapply Forall_impl; [exact Hall|]. intros z Hz. by etrans.
Qed.

Lemma datesValid_perm l l' : l ≡ₚ l' -> datesValid l -> datesValid l'.
Proof. unfold datesValid. by intros ->. Qed.

Lemma sortByDate_sorted l : datesValid l -> ascending (sortByDate l).
Proof.
  intros Hv. induction l as [|x l IH]; simpl; [constructor|].
  apply Forall_cons in Hv as [Hx Hv].
  apply insertByDate_sorted; [done| |by apply IH].
  eapply datesValid_perm; [|exact Hv]. symmetry. apply sortByDate_perm.
Qed.

(** The sort is stable: a collection already in ascending order is kept
    as it is. *)
Lemma sortByDate_ascending_id l : ascending l -> sortByDate l = l.
Proof.
  induction 1 as [|x l Hs IH Hall]; simpl; [done|].
  rewrite IH. destruct l as [|y l]; [done|]. simpl.
  apply Forall_cons in Hall as [Hxy _]. by rewrite dateLe_placedAfter.
Qed.


Lemma Forall_filter' {A : Type} (Q P : A -> Prop) `{forall x, Decision (P x)}
  (l : list A) :
  Forall Q l -> Forall Q (filter P l).
Proof.
  rewrite !Forall_forall. intros Hl x [_ Hx]%list_elem_of_filter. by apply Hl.
Qed.

Lemma StronglySorted_filter {A : Type} (R : relation A) (P : A -> Prop)
  `{forall x, Decision (P x)} (l : list A) :
  StronglySorted R l -> StronglySorted R (filter P l).
Proof.
  induction 1 as [|x l Hs IH Hall]; [constructor|].
  rewrite filter_cons. destruct (decide (P x)); [|done].
  constructor; [done|]. by apply Forall_filter'.
Qed.



Lemma RecordsOk_filter (P : FinancialRecord -> Prop) `{forall x, Decision (P x)} rs :
  RecordsOk rs -> RecordsOk (filter P rs).
Proof.
  intros (Hu & Hv & Hs). split_and!.
  - by apply NoDup_fmap_filter.
  - unfold datesValid. by apply Forall_filter'.
  - unfold ascending. by apply StronglySorted_filter.
Qed.

Lemma addFinancialRecord_records e r w :
  financialRecords (addFinancialRecord e r w)
  = sortByDate
      (filter (fun x => date x <> newDate e r) (financialRecords w)
       ++ [ {| date := newDate e r; r_revenue := n_revenue r;
               expenses := n_expenses r; profit := n_profit r;
               r_cashFlow := n_cashFlow r |} ]).
Proof. reflexivity. Qed.

Lemma addFinancialRecord_RecordsOk e r w :
  RecordsOk (financialRecords w) ->
  is_Some (Date_parse (newDate e r)) ->
  RecordsOk (financialRecords (addFinancialRecord e r w)).
Proof.
  intros Hok Hd. rewrite addFinancialRecord_records.
  set (new := mkFinancialRecord (newDate e r) _ _ _ _).
  change (newDate e r) with (date new).
  set (kept := filter _ (financialRecords w)).
  assert (Hperm : sortByDate (kept ++ [new]) ≡ₚ kept ++ [new])
    by apply sortByDate_perm.
  assert (Hkept : RecordsOk kept) by (by apply RecordsOk_filter).
  destruct Hok as (Hu & Hv & Hs). destruct Hkept as (Hku & Hkv & Hks).
  assert (Hvalid : datesValid (kept ++ [new])).
  { apply Forall_app. split; [done|]. by constructor. }
  split_and!.
  - unfold uniqueDates. rewrite Hperm.
    apply (NoDup_replace_by_key date new). exact Hu.
  - eapply datesValid_perm; [symmetry; exact Hperm|done].
  - by apply sortByDate_sorted.
Qed.


(** ** CSV import: the line check *)

Lemma csvLines_spec text line :
  line ∈ csvLines text <-> trim line <> "" /\ line ∈ split newline text.
Proof. unfold csvLines. by rewrite list_elem_of_filter. Qed.


(** ** Spreadsheet import *)

Lemma bind_Done {A B : Type} (m : M A) (k : A -> M B) w w' a :
  m w = Done w' a -> (m ≫= k) w = k a w'.
Proof. unfold mbind, M_bind. by intros ->. Qed.

Lemma importBusinessSheet_done e sheet n w :
  sheetThrows sheet = false ->
  exists w',
    importBusinessSheet e sheet n w
    = Done w' (match sheetRows sheet with _ :: _ => S n | [] => n end)
    /\ kpiData w' = kpiData w
    /\ (sheet = None -> w' = w).
Proof.
  intros Hs. destruct sheet as [[[|r rows]|msg]|]; try discriminate; simpl.
  - by exists w.
  - eexists. split; [reflexivity|]. by split.
  - by exists w.
Qed.

Lemma importRecordRows_done e rows n w :
  exists w',
    importRecordRows e rows n w
    = Done w' (n + length (filter (fun r => is_Some (rowDate r)) rows))%nat
    /\ kpiData w' = kpiData w.
Proof.
  revert n w. induction rows as [|r rows IH]; intros n w; simpl.
  - exists w. split; [|done]. unfold mret, M_ret. f_equal. lia.
  - rewrite filter_cons. destruct (rowDate r) as [d|] eqn:Hd.
    + rewrite decide_True by eauto.
      destruct (IH (S n) (addFinancialRecord e (recordOfRow r d) w))
        as (w' & Hrun & Hk).
      exists w'. split; [|by rewrite Hk].
      erewrite bind_Done; [|reflexivity]. rewrite Hrun. f_equal. simpl. lia.
    + rewrite decide_False by (by intros [? ?]). apply IH.
Qed.

Lemma importFinancialSheet_done e sheet n w :
  sheetThrows sheet = false ->
  exists w',
    importFinancialSheet e sheet n w
    = Done w' (n + length (filter (fun r => is_Some (rowDate r)) (sheetRows sheet)))%nat
    /\ kpiData w' = kpiData w
    /\ (sheet = None -> w' = w).
Proof.
  intros Hs. destruct sheet as [[rows|msg]|]; try discriminate; simpl.
  - destruct (importRecordRows_done e rows n w) as (w' & Hrun & Hk).
    exists w'. split_and!; [|done..].
    erewrite bind_Done; [|reflexivity]. done.
  - exists w. split_and!; [|done..]. unfold mret, M_ret. f_equal. lia.
Qed.

Lemma importKPISheet_done sheet n w :
  sheetThrows sheet = false ->
  exists w',
    importKPISheet sheet n w = Done w' (n + length (kpisOfRows (sheetRows sheet)))%nat
    /\ kpiData w' = (if decide (kpisOfRows (sheetRows sheet) = [])
                     then kpiData w else kpisOfRows (sheetRows sheet))
    /\ (sheet = None -> w' = w).
Proof.
  intros Hs. destruct sheet as [[rows|msg]|]; try discriminate; simpl.
  - erewrite bind_Done; [|reflexivity].
    destruct (kpisOfRows rows) as [|k ks] eqn:Hks; simpl.
    + exists w. split_and!; [|done..]. unfold mret, M_ret. f_equal. lia.
    + eexists. split_and!; [reflexivity|done|done].
  - exists w. split_and!; [|done..]. unfold mret, M_ret. f_equal. lia.
Qed.

Lemma length_kpisOfRows rows :
  length (kpisOfRows rows)
  = length (filter (fun r => metric (kpiOfRow r) <> "") rows).
Proof.
  unfold kpisOfRows. induction rows as [|r rows IH]; [done|].
  rewrite fmap_cons, !filter_cons.
  destruct (decide (metric (kpiOfRow r) <> "")); simpl; by rewrite IH.
Qed.

Lemma importBody_done e sheets w :
  noSheetThrows sheets ->
  exists w',
    importBody e sheets w = Done w' (expectedCount sheets)
    /\ kpiData w' =
         (if decide (kpisOfRows (sheetRows (pickSheet "KPIs" "Metrics" sheets)) = [])
          then kpiData w
          else kpisOfRows (sheetRows (pickSheet "KPIs" "Metrics" sheets)))
    /\ (noSheetMatches sheets -> w' = w).
Proof.
  intros (Hb & Hf & Hk). unfold importBody, expectedCount.
  destruct (importBusinessSheet_done e _ 0%nat w Hb) as (w1 & Hrun1 & Hk1 & Hn1).
  erewrite bind_Done; [|exact Hrun1].
  destruct (importFinancialSheet_done e _
              (match sheetRows (pickSheet "Business Data" "Company" sheets) with
               | _ :: _ => 1%nat | [] => 0%nat end) w1 Hf)
    as (w2 & Hrun2 & Hk2 & Hn2).
  erewrite bind_Done; [|exact Hrun2].
  destruct (importKPISheet_done _
              (match sheetRows (pickSheet "Business Data" "Company" sheets) with
               | _ :: _ => 1%nat | [] => 0%nat end
               + length (filter (fun r => is_Some (rowDate r))
                   (sheetRows (pickSheet "Financial Records" "Financials" sheets))))%nat
              w2 Hk)
    as (w3 & Hrun3 & Hk3 & Hn3).
  exists w3. split_and!.
  - rewrite Hrun3. by rewrite length_kpisOfRows.
  - rewrite Hk3, Hk2, Hk1. done.
  - intros (Hnb & Hnf & Hnk). by rewrite (Hn3 Hnk), (Hn2 Hnf), (Hn1 Hnb).
Qed.


(** C10. When the indicators sheet is read, the rows that carry a metric
    name, if there is at least one, become the whole indicator collection
    in place of the previous one; if no row carries a metric name the
    previous collection stays as it was. *)
Theorem importFromExcel_indicators e sheets w rows :
  noSheetThrows sheets ->
  pickSheet "KPIs" "Metrics" sheets = Some (SheetRows rows) ->
  let w' := fst (importFromExcel e (Workbook sheets) w) in
  ((exists r, r ∈ rows /\ metric (kpiOfRow r) <> "") ->
     getKPIData w' = filter (fun k => metric k <> "") (kpiOfRow <$> rows))
  /\ ((forall r, r ∈ rows -> metric (kpiOfRow r) = "") ->
     getKPIData w' = getKPIData w).
Proof.
  intros Hno Hsheet. cbv zeta.
  destruct (importBody_done e sheets w Hno) as (w' & Hrun & Hk & _).
  unfold importFromExcel. rewrite Hrun. unfold getKPIData. simpl.
  rewrite Hsheet in Hk. simpl in Hk. rewrite Hk. clear Hk Hrun.
  unfold kpisOfRows. split.
  - intros (r & Hin & Hm). rewrite decide_False; [done|].
    intros Hnil.
    apply (filter_nil_not_elem_of _ _ (kpiOfRow r) Hnil Hm).
    by apply list_elem_of_fmap_2.
  - intros Hall. rewrite decide_True; [done|]. clear Hsheet.
    induction rows as [|r rows IH]; [done|].
    rewrite fmap_cons, filter_cons, decide_False.
    + apply IH. intros r' Hr'. apply Hall. by right.
    + intros Hm. apply Hm, Hall. by left.
Qed.

(** ** Text *)

Lemma occurs_app c s t : occurs c (s +:+ t) = occurs c s || occurs c t.
Proof.
  induction s as [|d s IH]; simpl; [done|]. by rewrite IH, orb_assoc.
Qed.

Lemma split_no_sep sep s : occurs sep s = false -> split sep s = [s].
Proof.
  induction s as [|c s IH]; simpl; [done|].
  intros [Hc Hs]%orb_false_elim. rewrite Hc, IH; done.
Qed.

Lemma split_app_sep sep s t :
  occurs sep s = false ->
  split sep (s +:+ String sep t) = s :: split sep t.
Proof.
  induction s as [|c s IH]; simpl.
  - intros _. by rewrite Ascii.eqb_refl.
  - intros [Hc Hs]%orb_false_elim. rewrite Hc, IH; done.
Qed.

Lemma split_join_lines (ls : list string) :
  ls <> [] -> Forall (fun l => occurs newline l = false) ls ->
  split newline (join (String newline "") ls) = ls.
Proof.
  induction ls as [|l ls IH]; [done|]. intros _ Hall.
  apply Forall_cons in Hall as [Hl Hls].
  destruct ls as [|l' ls]; simpl.
  - by apply split_no_sep.
  - change (split newline (l +:+ String newline (join (String newline "") (l' :: ls)))
            = l :: l' :: ls).
    rewrite split_app_sep by done. f_equal. by apply IH.
Qed.

Lemma stripQuotes_id s : occurs dquote s = false -> stripQuotes s = s.
Proof.
  induction s as [|c s IH]; simpl; [done|].
  intros [Hc Hs]%orb_false_elim. rewrite Hc. f_equal. by apply IH.
Qed.

Lemma trimEnd_nonwhite c s : isWhite c = false -> trimEnd (String c s) <> "".
Proof. intros Hc. simpl. rewrite Hc. by destruct (trimEnd s). Qed.

(** A string that [trim] leaves alone and that is not empty is not blank. *)
Lemma trim_fixed_head c s : trim (String c s) = String c s -> isWhite c = false.
Proof.
  unfold trim. simpl. destruct (isWhite c) eqn:Hc; [|done].
  intros Heq. exfalso.
  assert (Hlen : forall t, (String.length (trimEnd t) <= String.length t)%nat).
  { induction t as [|d t IHt]; simpl; [lia|].
    destruct (trimEnd t); simpl in *; [destruct (isWhite d); simpl; lia|lia]. }
  assert (Hlen' : forall t, (String.length (trimStart t) <= String.length t)%nat).
  { induction t as [|d t IHt]; simpl; [lia|].
    destruct (isWhite d); simpl; lia. }
  pose proof (Hlen (trimStart s)) as H1. pose proof (Hlen' s) as H2.
  rewrite Heq in H1. simpl in H1. lia.
Qed.

Lemma trim_app_nonblank s t : s <> "" -> trim s = s -> trim (s +:+ t) <> "".
Proof.
  destruct s as [|c s]; [done|]. intros _ Hfix.
  apply trim_fixed_head in Hfix. unfold trim. simpl. rewrite Hfix.
  change (trimEnd (String c (s +:+ t)) <> ""). by apply trimEnd_nonwhite.
Qed.

Lemma allPlain_trimEnd s : allPlain s = true -> trimEnd s = s.
Proof.
  induction s as [|c s IH]; simpl; [done|].
  intros [Hc Hs]%andb_prop. rewrite (IH Hs).
  destruct s; [|done].
  unfold plainChar in Hc. destruct (isWhite c); [done|done].
Qed.

Lemma allPlain_trim s : allPlain s = true -> trim s = s.
Proof.
  intros Hs. unfold trim.
  assert (trimStart s = s) as ->; [|by apply allPlain_trimEnd].
  destruct s as [|c s]; simpl; [done|].
  simpl in Hs. apply andb_prop in Hs as [Hc _].
  unfold plainChar in Hc. by destruct (isWhite c).
Qed.

Lemma allPlain_occurs s :
  allPlain s = true ->
  occurs comma s = false /\ occurs dquote s = false /\ occurs newline s = false.
Proof.
  induction s as [|c s IH]; simpl; [done|].
  intros [Hc Hs]%andb_prop. destruct (IH Hs) as (-> & -> & ->).
  unfold plainChar in Hc.
  destruct (Ascii.eqb c comma), (Ascii.eqb c dquote); simpl in *;
    rewrite ?andb_false_r in Hc; try done.
  split_and!; try done.
  destruct (Ascii.eqb_spec c newline) as [->|]; [|done].
  by vm_compute in Hc.
Qed.

(** ** Numbers as text *)

Lemma allPlain_app s t : allPlain (s +:+ t) = allPlain s && allPlain t.
Proof.
  induction s as [|c s IH]; [done|].
  change (allPlain (String c (s +:+ t))
          = plainChar c && allPlain s && allPlain t).
  cbn [allPlain]. by rewrite IH, andb_assoc.
Qed.

Lemma digitChar_plain d : 0 <= d < 10 -> plainChar (digitChar d) = true.
Proof.
  intros Hd.
  assert (d = 0 \/ d = 1 \/ d = 2 \/ d = 3 \/ d = 4 \/ d = 5 \/ d = 6
          \/ d = 7 \/ d = 8 \/ d = 9) as Hc by lia.
  by repeat destruct Hc as [->|Hc]; [..|subst d].
Qed.

Lemma digitsOf_go_plain fuel z acc :
  allPlain acc = true -> allPlain (digitsOf_go fuel z acc) = true.
Proof.
  revert z acc. induction fuel as [|fuel IH]; intros z acc Hacc;
    cbn [digitsOf_go].
  - cbn [allPlain]. rewrite Hacc, digitChar_plain; [done|].
    by apply Z.mod_pos_bound.
  - assert (allPlain (String (digitChar (z mod 10)) acc) = true).
    { cbn [allPlain]. rewrite Hacc, digitChar_plain; [done|].
      by apply Z.mod_pos_bound. }
    destruct (z <? 10); [done|]. by apply IH.
Qed.

Lemma digitsOf_plain z : allPlain (digitsOf z) = true.
Proof. by apply digitsOf_go_plain. Qed.

Lemma digitsOf_go_nonempty fuel z acc : digitsOf_go fuel z acc <> "".
Proof.
  revert z acc. induction fuel as [|fuel IH]; intros z acc;
    cbn [digitsOf_go]; [done|].
  destruct (z <? 10); [done|]. apply IH.
Qed.

Lemma digitsOf_nonempty z : digitsOf z <> "".
Proof. apply digitsOf_go_nonempty. Qed.

Lemma zeros_plain n : allPlain (zeros n) = true.
Proof. induction n as [|n IH]; [done|]. cbn [zeros allPlain]. by rewrite IH. Qed.

Lemma takeChars_plain n s : allPlain s = true -> allPlain (takeChars n s) = true.
Proof.
  revert s. induction n as [|n IH]; intros [|c s]; try done.
  cbn [takeChars allPlain]. intros [-> Hs]%andb_prop. by apply IH.
Qed.

Lemma dropChars_plain n s : allPlain s = true -> allPlain (dropChars n s) = true.
Proof.
  revert s. induction n as [|n IH]; intros [|c s]; try done.
  cbn [dropChars allPlain]. intros [_ Hs]%andb_prop. by apply IH.
Qed.

Lemma layout_plain s k n : allPlain (layout s k n) = true.
Proof.
  unfold layout.
  repeat match goal with
         | |- context [if ?b then _ else _] => destruct b
         end;
    rewrite ?allPlain_app, ?zeros_plain, ?digitsOf_plain, ?takeChars_plain,
      ?dropChars_plain by apply digitsOf_plain; done.
Qed.

Lemma append_nonempty_l s t : s <> "" -> s +:+ t <> "".
Proof. by destruct s. Qed.

Lemma append_nonempty_r s t : t <> "" -> s +:+ t <> "".
Proof. destruct s; [done|]. by intros _. Qed.

Lemma layout_nonempty s k n : layout s k n <> "".
Proof.
  unfold layout.
  repeat match goal with
         | |- context [if ?b then _ else _] => destruct b
         end;
    try (apply append_nonempty_l, digitsOf_nonempty);
    try done;
    apply append_nonempty_r; apply append_nonempty_l; done.
Qed.

(** The printed form of a number has no white space, comma or double quote,
    and is not empty. *)
Lemma numToString_plain n : allPlain (numToString n) = true.
Proof.
  destruct n as [[sg|sg| |sg m e]|]; try done; [by destruct sg|].
  unfold numToString, finiteToString.
  destruct (shortest 16 m e (position m e) 1) as [s k].
  rewrite allPlain_app.
  destruct (s =? 10 ^ k); rewrite layout_plain; by destruct sg.
Qed.

Lemma numToString_nonempty n : numToString n <> "".
Proof.
  destruct n as [[sg|sg| |sg m e]|]; try done; [by destruct sg|].
  unfold numToString, finiteToString.
  destruct (shortest 16 m e (position m e) 1) as [s k].
  apply append_nonempty_r.
  destruct (s =? 10 ^ k); apply layout_nonempty.
Qed.

(** ** Integers as text *)

Lemma digits10_go_pos fuel z : 1 <= digits10_go fuel z.
Proof.
  revert z. induction fuel as [|fuel IH]; intros z; cbn [digits10_go]; [lia|].
  destruct (z <? 10); [lia|]. specialize (IH (z / 10)). lia.
Qed.

Lemma digits10_go_spec fuel z :
  0 < z < 10 ^ (Z.of_nat fuel + 1) ->
  10 ^ (digits10_go fuel z - 1) <= z < 10 ^ digits10_go fuel z.
Proof.
  revert z. induction fuel as [|fuel IH]; intros z Hz; cbn [digits10_go].
  - change (10 ^ (Z.of_nat 0 + 1)) with 10 in Hz.
    change (10 ^ (1 - 1)) with 1. change (10 ^ 1) with 10. lia.
  - destruct (Z.ltb_spec z 10) as [Hlt|Hge].
    + change (10 ^ (1 - 1)) with 1. change (10 ^ 1) with 10. lia.
    + assert (Hq : 0 < z / 10 < 10 ^ (Z.of_nat fuel + 1)).
      { split; [apply Z.div_str_pos; lia|].
        apply Z.div_lt_upper_bound; [lia|].
        rewrite <- Z.pow_succ_r by lia.
        replace (Z.succ (Z.of_nat fuel + 1)) with (Z.of_nat (S fuel) + 1) by lia.
        apply Hz. }
      specialize (IH _ Hq). pose proof (digits10_go_pos fuel (z / 10)) as Hd.
      set (d := digits10_go fuel (z / 10)) in *.
      replace (1 + d - 1) with (Z.succ (d - 1)) by lia.
      replace (1 + d) with (Z.succ d) by lia.
      rewrite !Z.pow_succ_r by lia.
      pose proof (Z.div_mod z 10 ltac:(lia)) as Hdm.
      pose proof (Z.mod_pos_bound z 10 ltac:(lia)) as Hm. lia.
Qed.

Lemma log2_fuel z : 0 < z -> z < 10 ^ (Z.of_nat (Z.to_nat (Z.log2 z)) + 1).
Proof.
  intros Hz. pose proof (Z.log2_spec z Hz) as [_ Hup].
  pose proof (Z.log2_nonneg z) as Hl.
  rewrite Z2Nat.id by done.
  assert (2 ^ Z.succ (Z.log2 z) <= 10 ^ Z.succ (Z.log2 z))
    by (apply Z.pow_le_mono_l; lia).
  replace (Z.log2 z + 1) with (Z.succ (Z.log2 z)) by lia. lia.
Qed.

(** [digits10 m] is the number of decimal digits of [m]. *)
Lemma digits10_spec m : 10 ^ (digits10 m - 1) <= Zpos m < 10 ^ digits10 m.
Proof. apply digits10_go_spec. split; [lia|]. by apply log2_fuel. Qed.

Lemma digits10_upper m c : 0 <= c -> Zpos m < 10 ^ c -> 1 <= digits10 m <= c.
Proof.
  intros Hc Hm. pose proof (digits10_spec m) as [Hlow _].
  split; [apply digits10_go_pos|].
  destruct (Z.le_gt_cases (digits10 m) c) as [|Hgt]; [done|].
  assert (10 ^ c <= 10 ^ (digits10 m - 1)) by (apply Z.pow_le_mono_r; lia).
  lia.
Qed.

Lemma digitChar_digit d :
  0 <= d < 10 -> isDigit (digitChar d) = true /\ digitValue (digitChar d) = d.
Proof.
  intros Hd.
  assert (d = 0 \/ d = 1 \/ d = 2 \/ d = 3 \/ d = 4 \/ d = 5 \/ d = 6
          \/ d = 7 \/ d = 8 \/ d = 9) as Hc by lia.
  by repeat destruct Hc as [->|Hc]; [..|subst d].
Qed.

Lemma spanDigits_digit d tl acc len :
  0 <= d < 10 ->
  spanDigits (String (digitChar d) tl) acc len = spanDigits tl (10 * acc + d) (len + 1).
Proof.
  intros Hd. destruct (digitChar_digit d Hd) as [Hi Hv].
  cbn [spanDigits]. by rewrite Hi, Hv.
Qed.

Lemma spanDigits_digitsOf_go fuel z tl acc len :
  0 <= z < 10 ^ (Z.of_nat fuel + 1) ->
  spanDigits (digitsOf_go fuel z tl) acc len
  = spanDigits tl (acc * 10 ^ digits10_go fuel z + z) (len + digits10_go fuel z).
Proof.
  revert z tl. induction fuel as [|fuel IH]; intros z tl Hz;
    cbn [digitsOf_go digits10_go].
  - change (10 ^ (Z.of_nat 0 + 1)) with 10 in Hz.
    rewrite Z.mod_small by lia. rewrite spanDigits_digit by lia.
    change (10 ^ 1) with 10. f_equal; lia.
  - destruct (Z.ltb_spec z 10) as [Hlt|Hge].
    + rewrite Z.mod_small by lia. rewrite spanDigits_digit by lia.
      change (10 ^ 1) with 10. f_equal; lia.
    + assert (Hq : 0 <= z / 10 < 10 ^ (Z.of_nat fuel + 1)).
      { split; [apply Z.div_pos; lia|].
        apply Z.div_lt_upper_bound; [lia|].
        rewrite <- Z.pow_succ_r by lia.
        replace (Z.succ (Z.of_nat fuel + 1)) with (Z.of_nat (S fuel) + 1) by lia.
        apply Hz. }
      rewrite (IH _ _ Hq).
      pose proof (Z.mod_pos_bound z 10 ltac:(lia)) as Hm.
      rewrite spanDigits_digit by done.
      pose proof (digits10_go_pos fuel (z / 10)) as Hd.
      set (d := digits10_go fuel (z / 10)) in *.
      replace (1 + d) with (Z.succ d) by lia. rewrite Z.pow_succ_r by lia.
      pose proof (Z.div_mod z 10 ltac:(lia)) as Hdm.
      f_equal; lia.
Qed.

Lemma digitsOf_go_app fuel z tl rest :
  digitsOf_go fuel z tl +:+ rest = digitsOf_go fuel z (tl +:+ rest).
Proof.
  revert z tl. induction fuel as [|fuel IH]; intros z tl; cbn [digitsOf_go]; [done|].
  destruct (z <? 10); [done|]. by rewrite IH.
Qed.

Lemma digitsOf_go_head fuel z tl :
  exists c u, digitsOf_go fuel z tl = String c u /\ isDigit c = true.
Proof.
  revert z tl. induction fuel as [|fuel IH]; intros z tl; cbn [digitsOf_go].
  - eexists _, _. split; [done|].
    by apply digitChar_digit, Z.mod_pos_bound.
  - destruct (z <? 10); [|apply IH].
    eexists _, _. split; [done|].
    by apply digitChar_digit, Z.mod_pos_bound.
Qed.

Local Ltac compare :=
  repeat (apply andb_true_intro; split);
  first [apply Z.ltb_lt|apply Z.leb_le|apply Z.ltb_ge|apply Z.leb_gt]; lia.

Local Ltac triple :=
  apply (f_equal2 pair); [apply (f_equal2 pair)|]; try done; try lia.

Lemma spanDigits_zeros b acc len :
  spanDigits (zeros b) acc len = (acc * 10 ^ Z.of_nat b, len + Z.of_nat b, "").
Proof.
  revert acc len. induction b as [|b IH]; intros acc len.
  - cbn [zeros spanDigits]. change (Z.of_nat 0) with 0. rewrite Z.pow_0_r. triple.
  - cbn [zeros spanDigits]. change (isDigit "0") with true. cbn match.
    rewrite IH. change (digitValue "0") with 0.
    rewrite Nat2Z.inj_succ, Z.pow_succ_r by lia. triple.
Qed.

(** The digits of [a] followed by [b] zeros are read as [a * 10^b]. *)
Lemma spanDigits_integer a b :
  0 < a ->
  spanDigits (digitsOf a +:+ zeros b) 0 0
  = (a * 10 ^ Z.of_nat b,
     digits10_go (Z.to_nat (Z.log2 a)) a + Z.of_nat b, "").
Proof.
  intros Ha. unfold digitsOf. rewrite digitsOf_go_app.
  change ("" +:+ zeros b) with (zeros b).
  rewrite spanDigits_digitsOf_go by (split; [lia|by apply log2_fuel]).
  rewrite spanDigits_zeros. triple.
Qed.

Lemma isDigit_neq c x : isDigit c = true -> isDigit x = false -> Ascii.eqb c x = false.
Proof. intros Hc Hx. destruct (Ascii.eqb_spec c x) as [->|]; [congruence|done]. Qed.

Lemma spanDigits_rest s acc len acc' len' :
  (spanDigits s acc len).2 = (spanDigits s acc' len').2.
Proof.
  revert acc len acc' len'. induction s as [|c s IH]; intros; cbn [spanDigits]; [done|].
  destruct (isDigit c); [apply IH|done].
Qed.

Lemma nonDecimal_digits s v l : spanDigits s 0 0 = (v, l, "") -> nonDecimal s = None.
Proof.
  destruct s as [|c [|p [|d ds]]].
  - done.
  - intros _. unfold nonDecimal. by destruct c as [[] [] [] [] [] [] [] []].
  - intros _. unfold nonDecimal. by destruct c as [[] [] [] [] [] [] [] []].
  - intros Hs.
    assert (Hp : isDigit p = true).
    { cbn [spanDigits] in Hs. destruct (isDigit c); [|done].
      destruct (isDigit p); [done|]. by injection Hs. }
    unfold nonDecimal.
    rewrite !(isDigit_neq p) by done. cbn [orb].
    by destruct c as [[] [] [] [] [] [] [] []].
Qed.

Lemma unsignedDecimal_integer neg a b :
  0 < a ->
  unsignedDecimal neg (digitsOf a +:+ zeros b)
  = decimalValue neg (a * 10 ^ Z.of_nat b) 0.
Proof.
  intros Ha. unfold unsignedDecimal.
  destruct (digitsOf_go_head (Z.to_nat (Z.log2 a)) a "") as (c & u & Hhead & Hc).
  assert (Heq : String.eqb (digitsOf a +:+ zeros b) "Infinity" = false).
  { unfold digitsOf. rewrite Hhead.
    change (String c u +:+ zeros b) with (String c (u +:+ zeros b)).
    change (String.eqb (String c (u +:+ zeros b)) "Infinity")
      with (if Ascii.eqb c "I" then String.eqb (u +:+ zeros b) "nfinity" else false).
    by rewrite (isDigit_neq c "I"). }
  rewrite Heq, spanDigits_integer by done.
  pose proof (digits10_go_pos (Z.to_nat (Z.log2 a)) a) as Hd.
  cbn match. 
  assert ((0 <? digits10_go (Z.to_nat (Z.log2 a)) a + Z.of_nat b + 0) = true) as ->
    by compare.
  cbn [exponentPart]. f_equal; lia.
Qed.

(** [Number] reads a printed integer, with its sign, as that integer. *)
Lemma Number_integer (neg : bool) a b :
  0 < a ->
  Number_ ((if neg then "-" else "") +:+ digitsOf a +:+ zeros b)
  = Float (decimalValue neg (a * 10 ^ Z.of_nat b) 0).
Proof.
  intros Ha. unfold Number_.
  rewrite allPlain_trim
    by (rewrite !allPlain_app, digitsOf_plain, zeros_plain; by destruct neg).
  destruct neg.
  - change ("-" +:+ digitsOf a +:+ zeros b)
      with (String "-" (digitsOf a +:+ zeros b)).
    cbn [nonDecimal]. change (Ascii.eqb "-" "-") with true. cbn match.
    by rewrite unsignedDecimal_integer.
  - change ("" +:+ digitsOf a +:+ zeros b) with (digitsOf a +:+ zeros b).
    rewrite <- unsignedDecimal_integer by done.
    pose proof (spanDigits_integer a b Ha) as Hspan.
    pose proof (nonDecimal_digits _ _ _ Hspan) as Hnon.
    destruct (digitsOf_go_head (Z.to_nat (Z.log2 a)) a "") as (c & u & Hhead & Hc).
    assert (Hform : digitsOf a +:+ zeros b = String c (u +:+ zeros b))
      by (unfold digitsOf; by rewrite Hhead).
    rewrite Hform in *. rewrite Hnon.
    by rewrite (isDigit_neq c "-"), (isDigit_neq c "+").
Qed.

Lemma decimalValue_integer neg a t :
  0 < a < 10 ^ 100 -> 0 <= t <= 100 ->
  decimalValue neg a t
  = binary_normalize prec emax (cond_Zopp neg (a * 10 ^ t)) 0 false.
Proof.
  intros Ha Ht. destruct a as [|p|p]; [lia| |lia].
  pose proof (digits10_upper p 100 ltac:(lia) ltac:(lia)) as Hd.
  unfold decimalValue, decimalToDouble.
  assert ((310 <=? digits10 p + t) = false) as -> by compare.
  assert ((digits10 p + t <=? -325) = false) as -> by compare.
  by assert ((0 <=? t) = true) as -> by compare.
Qed.

Lemma binary_round_sign s q x m e :
  binary_round prec emax false q x = S754_finite false m e ->
  binary_round prec emax s q x = S754_finite s m e.
Proof.
  unfold binary_round, binary_round_aux.
  destruct (shl_align _ _ _) as [mz ez].
  destruct (shr_fexp _ _ _ _ _) as [mrs' e'].
  destruct (shr_fexp _ _ _ _ _) as [mrs'' e''].
  destruct (shr_m mrs''); [done| |done].
  destruct (e'' <=? emax - prec); [|done]. by intros [= -> ->].
Qed.

Lemma position_shifted j p :
  position (shifted j p) (- Z.of_nat j) = digits10 p.
Proof.
  unfold position. destruct (Z.leb_spec 0 (- Z.of_nat j)) as [Hj|Hj].
  - assert (j = 0%nat) as -> by lia.
    change (shifted 0 p) with p. change (- Z.of_nat 0) with 0.
    by rewrite Z.pow_0_r, Z.mul_1_r.
  - rewrite Z.opp_involutive, shifted_value, Z.div_mul; [done|].
    apply Z.pow_nonzero; lia.
Qed.

Lemma candidate_reads m e n k s :
  candidate m e n k = Some s ->
  decimalValue false s (n - k) = S754_finite false m e.
Proof.
  unfold candidate. cbv zeta.
  repeat case_bool_decide; [|by intros [= <-]..|done].
  destruct (_ ?= _); [|by intros [= <-]..].
  destruct (Z.even _); by intros [= <-].
Qed.

Lemma candidate_near m e n k s :
  candidate m e n k = Some s ->
  let num := Zpos m * 2 ^ (Z.max e 0) * 10 ^ (Z.max (- (n - k)) 0) in
  let den := 2 ^ (Z.max (- e) 0) * 10 ^ (Z.max (n - k) 0) in
  num / den <= s <= num / den + 1.
Proof.
  unfold candidate. cbv zeta.
  repeat case_bool_decide; [|intros [= <-]; lia..|done].
  destruct (_ ?= _); [|intros [= <-]; lia..].
  destruct (Z.even _); intros [= <-]; lia.
Qed.

Lemma shortest_finds m e n fuel k k0 :
  k <= k0 <= k + Z.of_nat fuel ->
  is_Some (candidate m e n k0) ->
  exists s k', shortest fuel m e n k = (s, k')
    /\ candidate m e n k' = Some s /\ k <= k' <= k0.
Proof.
  revert k. induction fuel as [|fuel IH]; intros k Hk Hsome; cbn [shortest].
  - assert (k = k0) as -> by lia. destruct Hsome as [s Hs]. rewrite Hs.
    exists s, k0. split_and!; [done|done|lia|lia].
  - destruct (candidate m e n k) as [s|] eqn:Hc.
    + exists s, k. split_and!; [done|done|lia|lia].
    + assert (k <> k0) by (intros ->; rewrite Hc in Hsome; by destruct Hsome).
      destruct (IH (k + 1)) as (s & k' & Hs & Hc' & Hk'); [lia|done|].
      exists s, k'. split_and!; [done|done|lia|lia].
Qed.

(** An integer below [2^53] in magnitude is printed with its digits, a run
    of zeros at the end left to the position, and is read back as it was. *)
Lemma readsBack_integer sg p :
  Zpos p < 2 ^ 53 ->
  readsBack (Float (binary_round prec emax sg p 0)).
Proof.
  intros Hp. pose proof (digits2_pos_small p Hp) as Hd2.
  assert (Hrep := binary_round_small false p Hp).
  rewrite (binary_round_small sg p Hp).
  set (j := Z.to_nat (53 - Z.pos (digits2_pos p))) in *.
  replace (Z.pos (digits2_pos p) - 53) with (- Z.of_nat j) in * by lia.
  set (m := shifted j p) in *. set (e := - Z.of_nat j) in *.
  assert (Hn : 1 <= digits10 p <= 16).
  { apply digits10_upper; [lia|]. change (10 ^ 16) with 10000000000000000.
    change (2 ^ 53) with 9007199254740992 in Hp. lia. }
  assert (Hpos : position m e = digits10 p) by apply position_shifted.
  set (n := digits10 p) in *.
  assert (Hnn : is_Some (candidate m e n n)).
  { assert (Hread : decimalValue false (Z.pos p) (n - n) = S754_finite false m e).
    { rewrite Z.sub_diag, decimalValue_integer.
      - cbn [cond_Zopp]. rewrite Z.pow_0_r, Z.mul_1_r. exact Hrep.
      - change (2 ^ 53) with 9007199254740992 in Hp.
        change (10 ^ 100) with (10000000000000000 * 10 ^ 84). lia.
      - lia. }
    unfold candidate. cbv zeta.
    assert (Hlo : Z.pos m * 2 ^ Z.max e 0 * 10 ^ Z.max (- (n - n)) 0
                  / (2 ^ Z.max (- e) 0 * 10 ^ Z.max (n - n) 0) = Z.pos p).
    { rewrite Z.sub_diag. change (Z.max (- 0) 0) with 0. change (Z.max 0 0) with 0.
      rewrite (Z.max_r e 0), (Z.max_l (- e) 0) by lia.
      rewrite !Z.pow_0_r, !Z.mul_1_r. unfold m, e.
      rewrite Z.opp_involutive, shifted_value, Z.div_mul; [done|].
      apply Z.pow_nonzero; lia. }
    rewrite Hlo. rewrite (bool_decide_eq_true_2 _ Hread).
    destruct (bool_decide _); [|done].
    destruct (_ ?= _); [|done..]. by destruct (Z.even _). }
  destruct (shortest_finds m e n 16 1 n ltac:(lia) Hnn)
    as (s & k & Hsh & Hcand & Hk).
  pose proof (candidate_reads _ _ _ _ _ Hcand) as Hreads.
  pose proof (candidate_near _ _ _ _ _ Hcand) as Hnear. cbv zeta in Hnear.
  assert (Hs : 0 < s <= Z.pos p + 1).
  { split.
    - destruct s as [|q|q]; [done|lia|done].
    - assert (Z.pos m * 2 ^ Z.max e 0 * 10 ^ Z.max (- (n - k)) 0
              / (2 ^ Z.max (- e) 0 * 10 ^ Z.max (n - k) 0) <= Z.pos p); [|lia].
      rewrite (Z.max_r e 0), (Z.max_l (- e) 0), (Z.max_r (- (n - k)) 0),
        (Z.max_l (n - k) 0) by lia.
      rewrite !Z.pow_0_r, !Z.mul_1_r. unfold m, e.
      rewrite Z.opp_involutive, shifted_value, <- Z.div_div, Z.div_mul.
      + apply Z.div_le_upper_bound; [apply Z.pow_pos_nonneg; lia|].
        assert (0 < 10 ^ (n - k)) by (apply Z.pow_pos_nonneg; lia). nia.
      + apply Z.pow_nonzero; lia.
      + apply Z.pow_nonzero; lia.
      + apply Z.pow_pos_nonneg; lia. }
  assert (Hs100 : 0 < s < 10 ^ 100).
  { change (2 ^ 53) with 9007199254740992 in Hp.
    change (10 ^ 100) with (10000000000000000 * 10 ^ 84). lia. }
  rewrite decimalValue_integer in Hreads by (done || lia).
  cbn [cond_Zopp] in Hreads.
  set (t := n - k) in *.
  assert (Hpow : 0 < 10 ^ t <= 10 ^ 15).
  { split; [apply Z.pow_pos_nonneg; lia|apply Z.pow_le_mono_r; lia]. }
  assert (HV : 0 < s * 10 ^ t < 10 ^ 100).
  { change (2 ^ 53) with 9007199254740992 in Hp.
    change (10 ^ 15) with 1000000000000000 in Hpow.
    change (10 ^ 100) with (10000000000000000 * 1000000000000000 * 10 ^ 69).
    nia. }
  assert (Hout : exists a b, 0 < a /\ a * 10 ^ Z.of_nat b = s * 10 ^ t
            /\ finiteToString m e = digitsOf a +:+ zeros b).
  { unfold finiteToString. rewrite Hpos, Hsh.
    destruct (Z.eqb_spec s (10 ^ k)) as [Hten|Hten].
    - exists 1, (Z.to_nat n). split; [lia|]. split.
      + rewrite Z2Nat.id, Hten, <- Z.pow_add_r by lia. unfold t.
        rewrite Z.mul_1_l. f_equal. lia.
      + unfold layout.
        assert (((1 <=? n + 1) && (n + 1 <=? 21)) = true) as -> by compare.
        do 2 f_equal. lia.
    - exists s, (Z.to_nat t). split; [lia|]. split.
      + by rewrite Z2Nat.id by lia.
      + unfold layout.
        by assert (((k <=? n) && (n <=? 21)) = true) as -> by compare. }
  destruct Hout as (a & b & Ha & Hab & Hstr).
  unfold readsBack, numToString. rewrite Hstr.
  rewrite (Number_integer sg a b Ha), Hab.
  rewrite decimalValue_integer by (done || lia).
  rewrite Z.pow_0_r, Z.mul_1_r.
  assert (Hfin : binary_normalize prec emax (cond_Zopp sg (s * 10 ^ t)) 0 false
                 = S754_finite sg m e).
  { destruct (s * 10 ^ t) as [|q|q] eqn:Hq; [lia| |lia].
    destruct sg; [|exact Hreads].
    by apply (binary_round_sign true) in Hreads. }
  by rewrite Hfin.
Qed.

Lemma readsBack_Num z : Z.abs z < 2 ^ 53 -> readsBack (Num z).
Proof.
  intros Hz. destruct z as [|p|p]; [by vm_compute| |].
  - apply (readsBack_integer false p). lia.
  - apply (readsBack_integer true p). lia.
Qed.

(** ** CSV lines *)

Lemma clean_field s :
  trim s = s -> occurs dquote s = false -> stripQuotes (trim s) = s.
Proof. intros -> Hq. by apply stripQuotes_id. Qed.

Lemma clean_number n : stripQuotes (trim (numToString n)) = numToString n.
Proof.
  pose proof (numToString_plain n) as Hp.
  apply clean_field; [by apply allPlain_trim|by apply allPlain_occurs].
Qed.

Lemma csvLine_unfold r :
  csvLine r
  = date r +:+ String comma (numToString (r_revenue r) +:+ String comma
      (numToString (expenses r) +:+ String comma (numToString (profit r)
        +:+ String comma (numToString (r_cashFlow r))))).
Proof. reflexivity. Qed.

Lemma csvFields_line r :
  csvSafeRecord r ->
  csvFields (csvLine r)
  = [date r; numToString (r_revenue r); numToString (expenses r);
     numToString (profit r); numToString (r_cashFlow r)].
Proof.
  intros ((_ & Htrim & Hcomma & Hquote & _) & _).
  unfold csvFields. rewrite csvLine_unfold.
  rewrite split_app_sep by done.
  rewrite !split_app_sep by (by apply allPlain_occurs, numToString_plain).
  rewrite split_no_sep by (by apply allPlain_occurs, numToString_plain).
  rewrite !fmap_cons, !clean_number, clean_field by done. done.
Qed.

Lemma csvLine_one_line r :
  csvSafeRecord r -> occurs newline (csvLine r) = false.
Proof.
  intros ((_ & _ & _ & _ & Hnl) & _). rewrite csvLine_unfold.
  assert (Hn : forall n, occurs newline (numToString n) = false)
    by (intros n; by apply allPlain_occurs, numToString_plain).
  rewrite !occurs_app; simpl; rewrite ?occurs_app; simpl.
  rewrite ?occurs_app; simpl. rewrite ?occurs_app; simpl.
  by rewrite Hnl, !Hn.
Qed.

Lemma csvLine_not_blank r : csvSafeRecord r -> trim (csvLine r) <> "".
Proof.
  intros ((Hne & Htrim & _) & _). rewrite csvLine_unfold.
  by apply trim_app_nonblank.
Qed.

Lemma filter_all {A : Type} (P : A -> Prop) `{forall x, Decision (P x)} (l : list A) :
  Forall P l -> filter P l = l.
Proof.
  induction 1 as [|x l Hx Hl IH]; [done|].
  by rewrite filter_cons, decide_True, IH.
Qed.

Lemma csvLines_content rs :
  Forall csvSafeRecord rs ->
  csvLines (csvContent rs) = csvHeader :: (csvLine <$> rs).
Proof.
  intros Hrs. unfold csvLines, csvContent.
  rewrite split_join_lines.
  - apply filter_all. constructor; [by vm_compute|].
    apply Forall_fmap. eapply Forall_impl; [exact Hrs|].
    intros r Hr. by apply csvLine_not_blank.
  - done.
  - constructor; [by vm_compute|].
    apply Forall_fmap. eapply Forall_impl; [exact Hrs|].
    intros r Hr. by apply csvLine_one_line.
Qed.

Lemma csvHeader_fields :
  csvFields csvHeader = ["Date"; "Revenue"; "Expenses"; "Profit"; "Cash Flow"].
Proof. by vm_compute. Qed.

Lemma csvRecordOf_row d a b c f :
  d <> "" -> a <> "" -> b <> "" -> c <> "" -> f <> "" ->
  csvRecordOf (rowObject ["Date"; "Revenue"; "Expenses"; "Profit"; "Cash Flow"]
                         [d; a; b; c; f])
  = Some {| n_date := Some d;
            n_revenue := orZero (Number_ a);
            n_expenses := orZero (Number_ b);
            n_profit := orZero (Number_ c);
            n_cashFlow := orZero (Number_ f) |}.
Proof.
  intros Hd Ha Hb Hc Hf. unfold csvRecordOf, rowObject. simpl.
  repeat (rewrite lookup_insert_eq || rewrite lookup_insert_ne by done
          || rewrite lookup_empty).
  simpl.
  destruct d; [done|]. destruct a; [done|]. destruct b; [done|].
  destruct c; [done|]. destruct f; [done|]. done.
Qed.

Lemma csvRecords_lines rs :
  Forall csvSafeRecord rs ->
  csvRecords (csvFields csvHeader) (csvLine <$> rs) = asNew <$> rs.
Proof.
  rewrite csvHeader_fields.
  induction 1 as [|r rs Hr Hrs IH]; [done|].
  rewrite !fmap_cons. cbn [csvRecords].
  rewrite csvFields_line by done. cbn [length Nat.leb].
  rewrite csvRecordOf_row; try apply numToString_nonempty; [|apply Hr].
  rewrite IH. f_equal.
  destruct Hr as (_ & Hrev & Hexp & Hpro & Hcf).
  unfold asNew. unfold readsBack in *. by rewrite Hrev, Hexp, Hpro, Hcf.
Qed.

(** ** Re-import *)

Lemma newDate_asNew e r : date r <> "" -> newDate e (asNew r) = date r.
Proof. unfold newDate, asNew. simpl. by destruct (date r). Qed.

Lemma asNew_record e r :
  date r <> "" ->
  {| date := newDate e (asNew r); r_revenue := n_revenue (asNew r);
     expenses := n_expenses (asNew r); profit := n_profit (asNew r);
     r_cashFlow := n_cashFlow (asNew r) |} = r.
Proof. intros Hd. rewrite newDate_asNew by done. by destruct r. Qed.

Lemma filter_absent_key {A B : Type} `{EqDecision B} (f : A -> B) (b : B)
  (l : list A) :
  b ∉ f <$> l -> filter (fun x => f x <> b) l = l.
Proof.
  intros Hb. apply filter_all, Forall_forall. intros x Hx Heq.
  apply Hb. rewrite <- Heq. by apply list_elem_of_fmap_2.
Qed.

(** Loading the records one after the other into a collection they extend
    in order rebuilds the collection. *)
Lemma import_in_order e rs pre w :
  financialRecords w = pre ->
  Forall (fun r => date r <> "") rs ->
  RecordsOk (pre ++ rs) ->
  financialRecords (foldl (fun acc r => addFinancialRecord e r acc) w (asNew <$> rs))
  = pre ++ rs.
Proof.
  revert pre w. induction rs as [|r rs IH]; intros pre w Hw Hne Hok.
  - simpl. by rewrite app_nil_r.
  - apply Forall_cons in Hne as [Hr Hne].
    rewrite fmap_cons. simpl.
    rewrite (IH (pre ++ [r])).
    + by rewrite <- app_assoc.
    + rewrite addFinancialRecord_records, asNew_record, newDate_asNew, Hw by done.
      destruct Hok as (Hu & _ & Hs).
      rewrite filter_absent_key.
      * apply sortByDate_ascending_id.
        unfold ascending in *. rewrite cons_middle, app_assoc in Hs.
        by apply StronglySorted_app_1_l in Hs.
      * unfold uniqueDates in Hu. rewrite fmap_app in Hu.
        apply NoDup_app in Hu as (_ & Hdis & _).
        intros Hin. apply (Hdis _ Hin). rewrite fmap_cons. left.
    + done.
    + by rewrite <- app_assoc.
Qed.


Lemma filter_no_key {A B : Type} `{EqDecision B} (f : A -> B) (b : B) (l : list A) :
  b ∉ f <$> l -> filter (fun x => f x = b) l = [].
Proof.
  induction l as [|x l IH]; [done|]. rewrite fmap_cons.
  intros [Hx Hl]%not_elem_of_cons.
  rewrite filter_cons, decide_False by done. by apply IH.
Qed.

Lemma filter_present_key {A B : Type} `{EqDecision B} (f : A -> B) (a : A)
  (l : list A) :
  NoDup (f <$> l) -> a ∈ l -> filter (fun x => f x = f a) l = [a].
Proof.
  induction l as [|x l IH]; intros Hnd Hin; [by apply elem_of_nil in Hin|].
  rewrite fmap_cons in Hnd. apply NoDup_cons in Hnd as [Hx Hnd].
  rewrite filter_cons. apply elem_of_cons in Hin as [->|Hin].
  - rewrite decide_True by done. f_equal. by apply filter_no_key.
  - rewrite decide_False; [by apply IH|].
    intros Heq. apply Hx. rewrite Heq. by apply list_elem_of_fmap_2.
Qed.

(** Loading the records of a collection into that same collection keeps
    its content and its order by date. *)
Lemma import_into_same e rs w :
  RecordsOk (financialRecords w) ->
  Forall (fun r => date r <> "") rs ->
  (forall r, r ∈ rs -> r ∈ financialRecords w) ->
  let w' := foldl (fun acc r => addFinancialRecord e r acc) w (asNew <$> rs) in
  financialRecords w' ≡ₚ financialRecords w /\ RecordsOk (financialRecords w').
Proof.
  cbv zeta. revert w. induction rs as [|r rs IH]; intros w Hok Hne Hin; [done|].
  apply Forall_cons in Hne as [Hr Hne]. rewrite fmap_cons. simpl.
  assert (Hrin : r ∈ financialRecords w) by (apply Hin; by left).
  assert (Hvalid : is_Some (Date_parse (newDate e (asNew r)))).
  { rewrite newDate_asNew by done. destruct Hok as (_ & Hv & _).
    unfold datesValid in Hv. rewrite Forall_forall in Hv. by apply Hv. }
  assert (Hstep : financialRecords (addFinancialRecord e (asNew r) w)
                  ≡ₚ financialRecords w).
  { rewrite addFinancialRecord_records, asNew_record, newDate_asNew by done.
    rewrite sortByDate_perm.
    rewrite <- (filter_app_complement (fun x => date x = date r) (financialRecords w))
      at 2.
    rewrite (filter_present_key date r) by (done || apply Hok).
    apply Permutation_app_comm. }
  destruct (IH (addFinancialRecord e (asNew r) w)) as (Hperm & Hok').
  - by apply addFinancialRecord_RecordsOk.
  - done.
  - intros r' Hr'. rewrite Hstep. apply Hin. by right.
  - split; [|done]. by rewrite Hperm.
Qed.

Lemma filter_none {A : Type} (P : A -> Prop) `{forall x, Decision (P x)} (l : list A) :
  Forall (fun x => ~ P x) l -> filter P l = [].
Proof.
  induction 1 as [|x l Hx Hl IH]; [done|].
  by rewrite filter_cons, decide_False, IH.
Qed.

(** Loading records of distinct dates one after the other leaves, up to
    order, those records and what the store had under other dates. *)
Lemma import_perm e rs w :
  Forall (fun r => date r <> "") rs ->
  NoDup (date <$> rs) ->
  financialRecords (foldl (fun acc r => addFinancialRecord e r acc) w (asNew <$> rs))
  ≡ₚ filter (fun r => date r ∉ date <$> rs) (financialRecords w) ++ rs.
Proof.
  revert w. induction rs as [|r rs IH]; intros w Hne Hnd.
  - cbn [fmap list_fmap foldl]. rewrite app_nil_r, filter_all; [done|].
    apply Forall_forall. intros x _. apply not_elem_of_nil.
  - apply Forall_cons in Hne as [Hr Hne].
    rewrite fmap_cons in Hnd. apply NoDup_cons in Hnd as [Hfresh Hnd].
    rewrite fmap_cons. cbn [foldl]. rewrite IH by done.
    rewrite addFinancialRecord_records, asNew_record, newDate_asNew by done.
    rewrite sortByDate_perm, filter_app, list_filter_filter.
    rewrite (filter_cons _ r), decide_True by done.
    rewrite filter_nil, <- app_assoc. cbn [app].
    apply Permutation_app_tail. erewrite list_filter_iff; [done|].
    intros x. cbn beta. rewrite fmap_cons, not_elem_of_cons. tauto.
Qed.

(** ** CSV export followed by CSV import *)

(** C6, amended.  When the store holds at least one record, every date is
    non-empty, free of commas, double quotes and line breaks and has no
    white space at its ends, and every numeric field prints to a text that
    [Number(text) || 0] reads back as that same number, as every integer
    below [2^53] in magnitude does, and as [NaN], [-0] and [null] do not,
    [exportToCSV] writes the header line followed by one line per record,
    and importing that text reports success with the number of records and
    applies exactly the exported records.  When no two records share a
    date the store then holds, up to order, the exported records and the
    records it had under other dates: an equivalent collection when the
    import is into a store without records or into the exporting store;
    and the same collection in the same order when it is into a store
    without records and the dates are readable and ascending. *)
Theorem csv_round_trip e w :
  ((forall z, Z.abs z < 2 ^ 53 -> readsBack (Num z))
   /\ ~ readsBack NaN /\ ~ readsBack (Float (S754_zero true)) /\ ~ readsBack Null)
  /\ (financialRecords w <> [] ->
      Forall csvSafeRecord (financialRecords w) ->
      exists file,
         exportToCSV e w = Some file
         /\ content file
            = join (String newline "") (csvHeader :: (csvLine <$> financialRecords w))
         /\ forall e' w0,
             let res := importFromCSV e' (Resolved (content file)) w0 in
             snd res = {| success := true;
                          message := countMessage "Successfully imported "
                                       (length (financialRecords w)) " financial records" |}
             /\ fst res = foldl (fun acc r => addFinancialRecord e' r acc) w0
                            (asNew <$> financialRecords w)
             /\ (uniqueDates (financialRecords w) ->
                 getFinancialRecords (fst res)
                 ≡ₚ filter (fun r => date r ∉ date <$> financialRecords w)
                      (financialRecords w0) ++ financialRecords w)
             /\ (uniqueDates (financialRecords w) -> financialRecords w0 = [] ->
                 getFinancialRecords (fst res) ≡ₚ financialRecords w)
             /\ (uniqueDates (financialRecords w) ->
                 financialRecords w0 = financialRecords w ->
                 getFinancialRecords (fst res) ≡ₚ financialRecords w)
             /\ (RecordsOk (financialRecords w) -> financialRecords w0 = [] ->
                 getFinancialRecords (fst res) = financialRecords w)).
Proof.
  split; [split_and!; [apply readsBack_Num|by vm_compute..]|].
  intros Hne Hsafe. unfold exportToCSV.
  destruct (financialRecords w) as [|r0 rs0] eqn:Hrs; [done|].
  eexists. split; [reflexivity|]. split; [reflexivity|].
  intros e' w0. cbv zeta. cbn [content].
  change (join (String newline "") (csvHeader :: (csvLine <$> r0 :: rs0)))
    with (csvContent (r0 :: rs0)).
  assert (Hlen : (length (csvHeader :: (csvLine <$> r0 :: rs0)) <? 2)%nat = false)
    by done.
  revert Hlen. rewrite <- Hrs in *. intros Hlen. clear Hne.
  assert (Himp : importFromCSV e' (Resolved (csvContent (financialRecords w))) w0
                 = (foldl (fun acc r => addFinancialRecord e' r acc) w0
                      (asNew <$> financialRecords w),
                    {| success := true;
                       message := countMessage "Successfully imported "
                         (length (financialRecords w)) " financial records" |})).
  { unfold importFromCSV. rewrite csvLines_content by done.
    rewrite Hlen. cbn [hd tl].
    rewrite csvRecords_lines by done. by rewrite length_fmap. }
  rewrite Himp. cbn [fst snd]. unfold getFinancialRecords.
  assert (Hdates : Forall (fun r => date r <> "") (financialRecords w)).
  { eapply Forall_impl; [exact Hsafe|]. by intros r ((Hd & _) & _). }
  split_and!; [done|done| | | |].
  - intros Hu. by apply import_perm.
  - intros Hu Hw0. rewrite import_perm by done. by rewrite Hw0.
  - intros Hu Hw0. rewrite import_perm by done. rewrite Hw0.
    rewrite filter_none; [done|].
    apply Forall_forall. intros r Hr Hout. apply Hout.
    by apply list_elem_of_fmap_2.
  - intros Hok Hw0. by rewrite (import_in_order e' _ [] w0).
Qed.

End Facts.

(* ===================================================================== *)
(** * Runs with the ISO date parser *)
(* ===================================================================== *)

(** Closed decidable statements about concrete stores are settled by
    evaluation. *)
Ltac evaluate :=
  unfold RecordsOk, uniqueDates, datesValid, ascending;
  apply (bool_decide_unpack _); vm_compute; exact I.




(** C6, as stated, fails: a stored date may contain a comma; the exported
    line then has six fields and the import reads another date and shifted
    amounts, so neither a fresh store nor the exporting store ends up with
    the collection that was exported. *)
Lemma csv_round_trip_breaks_on_comma :
  exists file,
    exportToCSV env0 jan5World = Some file
    /\ getFinancialRecords jan5World
       = [ {| date := "Jan 5, 2024"; r_revenue := Num 100; expenses := Num 60;
              profit := Num 40; r_cashFlow := Num 30 |} ]
    /\ getFinancialRecords
         (fst (importFromCSV (H := isoDates) env1 (Resolved (content file)) emptyWorld))
       = [ {| date := "Jan 5"; r_revenue := Num 2024; expenses := Num 100;
              profit := Num 60; r_cashFlow := Num 40 |} ]
    /\ length (getFinancialRecords
         (fst (importFromCSV (H := isoDates) env1 (Resolved (content file)) jan5World)))
       = 2%nat.
Proof.
  eexists. split; [reflexivity|]. split_and!; by vm_compute.
Qed.

Lemma threeMonths_ok : RecordsOk (H := isoDates) (getFinancialRecords threeMonths).
Proof. evaluate. Qed.

(** Numbers that a CSV line gives back, and the three that it does not. *)
Lemma readsBack_samples :
  readsBack (Num 125000) /\ readsBack (Number_ "1250.50")
  /\ readsBack (Number_ "1e21") /\ readsBack (Number_ "-0.1")
  /\ readsBack (Number_ "5e-324") /\ readsBack (Number_ "-Infinity")
  /\ ~ readsBack NaN /\ ~ readsBack (Float (S754_zero true)) /\ ~ readsBack Null.
Proof. unfold readsBack. split_and!; by vm_compute. Qed.

Lemma threeMonths_csvSafe : Forall csvSafeRecord (financialRecords threeMonths).
Proof.
  assert (financialRecords threeMonths
          = [ {| date := "2024-01-01"; r_revenue := Num 125000;
                 expenses := Num 100000; profit := Num 25000;
                 r_cashFlow := Num 15000 |};
              {| date := "2024-02-01"; r_revenue := Num 130000;
                 expenses := Num 102000; profit := Num 28000;
                 r_cashFlow := Num 18000 |};
              {| date := "2024-03-01"; r_revenue := Number_ "1250.50";
                 expenses := Number_ "1e21"; profit := Number_ "-0.1";
                 r_cashFlow := Number_ "Infinity" |} ]) as -> by (by vm_compute).
  repeat constructor; try done; by vm_compute.
Qed.

Lemma csv_round_trip_witness :
  financialRecords threeMonths <> []
  /\ Forall csvSafeRecord (financialRecords threeMonths)
  /\ exists file,
       exportToCSV env0 threeMonths = Some file
       /\ content file
          = join (String newline "")
              [ "Date,Revenue,Expenses,Profit,Cash Flow";
                "2024-01-01,125000,100000,25000,15000";
                "2024-02-01,130000,102000,28000,18000";
                "2024-03-01,1250.5,1e+21,-0.1,Infinity" ]
       /\ getFinancialRecords
            (fst (importFromCSV (H := isoDates) env1 (Resolved (content file)) emptyWorld))
          = financialRecords threeMonths.
Proof.
  assert (Hne : financialRecords threeMonths <> []) by (vm_compute; discriminate).
  split; [exact Hne|]. split; [exact threeMonths_csvSafe|].
  destruct (csv_round_trip (H := isoDates) env0 threeMonths) as [_ Hround].
  destruct (Hround Hne threeMonths_csvSafe) as (file & Hexp & Hcontent & Himp).
  exists file. split; [exact Hexp|]. split.
  - rewrite Hcontent. by vm_compute.
  - destruct (Himp env1 emptyWorld) as (_ & _ & _ & _ & _ & Hfresh).
    apply Hfresh; [exact threeMonths_ok|reflexivity].
Defined.

Lemma sampleWorkbook_reads : noSheetThrows sampleWorkbook.
Proof. by vm_compute. Qed.

Lemma sampleWorkbook_text : textSheets sampleWorkbook.
Proof. unfold textSheets, textColumns. vm_compute. split_and!; repeat constructor. Qed.

Lemma importFromExcel_indicators_witness :
  noSheetThrows sampleWorkbook
  /\ pickSheet "KPIs" "Metrics" sampleWorkbook
     = Some (SheetRows
         [ {[ "Metric" := CText "Market Share"; "Value" := CNumber (Num 12) ]};
           {[ "Value" := CNumber (Num 1) ]} ])
  /\ getKPIData
       (fst (importFromExcel (H := isoDates) env0 (Workbook sampleWorkbook)
               (setKPIData [marketShare'] emptyWorld)))
     = [ {| metric := "Market Share"; value := Num 12; target := Num 0;
            unit_ := ""; category := "operational" |} ].
Proof.
  assert (Hsheet : pickSheet "KPIs" "Metrics" sampleWorkbook
     = Some (SheetRows
         [ {[ "Metric" := CText "Market Share"; "Value" := CNumber (Num 12) ]};
           {[ "Value" := CNumber (Num 1) ]} ])) by (by vm_compute).
  split; [exact sampleWorkbook_reads|]. split; [exact Hsheet|].
  destruct (importFromExcel_indicators (H := isoDates) env0 sampleWorkbook
              (setKPIData [marketShare'] emptyWorld) _ sampleWorkbook_reads Hsheet)
    as [Hsome _].
  rewrite Hsome.
  - by vm_compute.
  - eexists. split; [left|]. by vm_compute.
Defined.

(* ===================================================================== *)
(** * Further facts about the store *)
(* ===================================================================== *)

Section StoreFacts.
Context `{HostDate}.

(** ** What is written to [localStorage] *)

Lemma jsonNumber_idem x : jsonNumber (jsonNumber x) = jsonNumber x.
Proof. by destruct x as [[| | |]|]. Qed.

Lemma jsonRecord_idem r : jsonRecord (jsonRecord r) = jsonRecord r.
Proof. unfold jsonRecord. cbn. by rewrite !jsonNumber_idem. Qed.

Lemma jsonKPI_idem k : jsonKPI (jsonKPI k) = jsonKPI k.
Proof. unfold jsonKPI. cbn. by rewrite !jsonNumber_idem. Qed.

Lemma jsonProfile_idem b : jsonProfile (jsonProfile b) = jsonProfile b.
Proof. unfold jsonProfile. cbn. by rewrite !jsonNumber_idem. Qed.

Lemma jsonNumber_finite x : finiteNumber x -> jsonNumber x = x.
Proof. by destruct x as [[[]| | |]|]. Qed.

Lemma jsonRecord_finite rs : Forall finiteRecord rs -> jsonRecord <$> rs = rs.
Proof.
  induction 1 as [|r rs (Ha & Hb & Hc & Hd) _ IH]; [done|].
  rewrite fmap_cons, IH. f_equal. unfold jsonRecord.
  rewrite !jsonNumber_finite by done. by destruct r.
Qed.

Lemma jsonKPI_finite ks : Forall finiteKPI ks -> jsonKPI <$> ks = ks.
Proof.
  induction 1 as [|k ks (Ha & Hb) _ IH]; [done|].
  rewrite fmap_cons, IH. f_equal. unfold jsonKPI.
  rewrite !jsonNumber_finite by done. by destruct k.
Qed.

Lemma garbled_saveToStorage w :
  garbled (localStorage w) BUSINESS_DATA_KEY = false ->
  garbled (localStorage (saveToStorage w)) BUSINESS_DATA_KEY = false
  /\ garbled (localStorage (saveToStorage w)) FINANCIAL_RECORDS_KEY = false
  /\ garbled (localStorage (saveToStorage w)) KPI_DATA_KEY = false.
Proof.
  intros Hg. unfold garbled, saveToStorage in *. cbn [localStorage].
  rewrite lookup_insert_eq.
  rewrite (lookup_insert_ne _ KPI_DATA_KEY FINANCIAL_RECORDS_KEY) by done.
  rewrite lookup_insert_eq.
  rewrite !(lookup_insert_ne _ _ BUSINESS_DATA_KEY) by done.
  destruct (businessData w); [by rewrite lookup_insert_eq|done].
Qed.

Lemma reloads_saveToStorage w :
  garbled (localStorage w) BUSINESS_DATA_KEY = false -> reloads (saveToStorage w).
Proof.
  intros Hg. destruct (garbled_saveToStorage w Hg) as (Hb & Hr & Hk).
  unfold reloads, loadFromStorage. rewrite Hb, Hr, Hk.
  unfold saveToStorage. cbn [localStorage businessData financialRecords kpiData].
  rewrite lookup_insert_eq.
  rewrite (lookup_insert_ne _ KPI_DATA_KEY FINANCIAL_RECORDS_KEY) by done.
  rewrite lookup_insert_eq.
  split_and!; [done..|].
  intros b ->. rewrite !lookup_insert_ne by done. by rewrite lookup_insert_eq.
Qed.

Lemma localStorage_loadFromStorage ls : localStorage (loadFromStorage ls) = ls.
Proof. unfold loadFromStorage. by repeat destruct (garbled _ _). Qed.

Lemma reloads_loadFromStorage ls : reloads (loadFromStorage ls).
Proof.
  unfold reloads. rewrite localStorage_loadFromStorage. unfold loadFromStorage.
  assert (Hrs : forall rs : list FinancialRecord,
            jsonRecord <$> rs = jsonRecord <$> (jsonRecord <$> rs)).
  { intros rs. rewrite <- list_fmap_compose. apply list_fmap_ext.
    intros i r _. cbn. by rewrite jsonRecord_idem. }
  assert (Hks : forall ks : list KPIData,
            jsonKPI <$> ks = jsonKPI <$> (jsonKPI <$> ks)).
  { intros ks. rewrite <- list_fmap_compose. apply list_fmap_ext.
    intros i k _. cbn. by rewrite jsonKPI_idem. }
  assert (Hb : forall b,
    match ls !! BUSINESS_DATA_KEY with
    | Some (SnapProfile b0) => Some (jsonProfile b0)
    | _ => None
    end = Some b ->
    match ls !! BUSINESS_DATA_KEY with
    | Some (SnapProfile b0) => Some (jsonProfile b0)
    | _ => None
    end = Some (jsonProfile b)).
  { intros b. destruct (ls !! BUSINESS_DATA_KEY) as [[]|]; try done.
    intros [= <-]. by rewrite jsonProfile_idem. }
  destruct (garbled ls BUSINESS_DATA_KEY); [done|].
  destruct (garbled ls FINANCIAL_RECORDS_KEY); [by split_and!|].
  destruct (garbled ls KPI_DATA_KEY); cbn [businessData financialRecords kpiData];
    split_and!; try done;
    try (destruct (ls !! FINANCIAL_RECORDS_KEY) as [[]|]; try done; apply Hrs);
    try (destruct (ls !! KPI_DATA_KEY) as [[]|]; try done; apply Hks).
Qed.


(** A relation between the store before and after that every method keeps
    is kept by the two imports, whether they finish or throw. *)
Section Imports.
Context (R : World -> World -> Prop) `{!Reflexive R, !Transitive R}.
Hypothesis R_setBusinessData : forall e data w, R w (setBusinessData e data w).
Hypothesis R_addFinancialRecord : forall e r w, R w (addFinancialRecord e r w).
Hypothesis R_setKPIData : forall kpis w, R w (setKPIData kpis w).

Lemma keeps_ret {A : Type} (a : A) : keeps R (mret a).
Proof. intros w. simpl. reflexivity. Qed.

Lemma keeps_throw {A : Type} msg : keeps R (@throw A msg).
Proof. intros w. simpl. reflexivity. Qed.

Lemma keeps_bind {A B : Type} (m : M A) (k : A -> M B) :
  keeps R m -> (forall a, keeps R (k a)) -> keeps R (m ≫= k).
Proof.
  intros Hm Hk w. unfold mbind, M_bind. specialize (Hm w).
  destruct (m w) as [w1 a|w1 msg]; [|done].
  specialize (Hk a w1). destruct (k a w1); by etrans.
Qed.

Lemma keeps_perform (f : World -> World) :
  (forall w, R w (f w)) -> keeps R (perform f).
Proof. intros Hf w. apply Hf. Qed.

Lemma keeps_sheet_to_json s : keeps R (sheet_to_json s).
Proof. destruct s; [apply keeps_ret|apply keeps_throw]. Qed.

Lemma keeps_importRecordRows e rows n : keeps R (importRecordRows e rows n).
Proof.
  revert n. induction rows as [|r rows IH]; intros n; simpl.
  - apply keeps_ret.
  - destruct (rowDate r); [|apply IH].
    apply keeps_bind; [by apply keeps_perform|]. intros _. apply IH.
Qed.

Lemma keeps_importBusinessSheet e sheet n : keeps R (importBusinessSheet e sheet n).
Proof.
  unfold importBusinessSheet. destruct sheet; [|apply keeps_ret].
  apply keeps_bind; [apply keeps_sheet_to_json|]. intros [|r rows].
  - apply keeps_ret.
  - apply keeps_bind; [by apply keeps_perform|]. intros _. apply keeps_ret.
Qed.

Lemma keeps_importFinancialSheet e sheet n : keeps R (importFinancialSheet e sheet n).
Proof.
  unfold importFinancialSheet. destruct sheet; [|apply keeps_ret].
  apply keeps_bind; [apply keeps_sheet_to_json|]. intros rows.
  apply keeps_importRecordRows.
Qed.

Lemma keeps_importKPISheet sheet n : keeps R (importKPISheet sheet n).
Proof.
  unfold importKPISheet. destruct sheet; [|apply keeps_ret].
  apply keeps_bind; [apply keeps_sheet_to_json|]. intros rows.
  destruct (0 <? length (kpisOfRows rows))%nat; [|apply keeps_ret].
  apply keeps_bind; [by apply keeps_perform|]. intros _. apply keeps_ret.
Qed.

Lemma keeps_importBody e sheets : keeps R (importBody e sheets).
Proof.
  unfold importBody. apply keeps_bind; [|intros n1; apply keeps_bind; [|intros n2]].
  - apply keeps_importBusinessSheet.
  - apply keeps_importFinancialSheet.
  - apply keeps_importKPISheet.
Qed.

Lemma R_importFromExcel e file w : R w (fst (importFromExcel e file w)).
Proof.
  destruct file as [|msg|sheets]; simpl; [reflexivity..|].
  pose proof (keeps_importBody e sheets w) as Hk.
  by destruct (importBody e sheets w).
Qed.

Lemma R_foldl_add e records w :
  R w (foldl (fun acc r => addFinancialRecord e r acc) w records).
Proof.
  revert w. induction records as [|r rs IH]; intros w; simpl; [reflexivity|].
  etrans; [apply R_addFinancialRecord|apply IH].
Qed.

Lemma R_importFromCSV e file w : R w (fst (importFromCSV e file w)).
Proof.
  destruct file as [text|]; simpl; [|reflexivity].
  destruct (length (csvLines text) <? 2)%nat; simpl; [reflexivity|].
  apply R_foldl_add.
Qed.

End Imports.

#[global] Instance sameOrSaved_refl : Reflexive sameOrSaved.
Proof. intros w. by left. Qed.

#[global] Instance sameOrSaved_trans : Transitive sameOrSaved.
Proof.
  intros w1 w2 w3 [->|H12] [->|H23]; unfold sameOrSaved; auto.
  right. intros Hg. apply H23. by apply H12.
Qed.

Lemma sameOrSaved_saveToStorage w w' :
  localStorage w' = localStorage w -> sameOrSaved w (saveToStorage w').
Proof.
  intros Hls. right. rewrite <- Hls. intros Hg. split.
  - by apply garbled_saveToStorage.
  - by apply reloads_saveToStorage.
Qed.

#[global] Instance storageGrows_refl : Reflexive storageGrows.
Proof. intros w. by split. Qed.

#[global] Instance storageGrows_trans : Transitive storageGrows.
Proof.
  intros w1 w2 w3 [Hk12 Hd12] [Hk23 Hd23]. split.
  - intros k Hk. by rewrite Hk23, Hk12.
  - intros k Hk. by apply Hd23, Hd12.
Qed.

#[global] Instance onlyRecords_refl : Reflexive onlyRecords.
Proof. intros w. by split. Qed.

#[global] Instance onlyRecords_trans : Transitive onlyRecords.
Proof. intros w1 w2 w3 [? ?] [? ?]. split; congruence. Qed.

Lemma storageGrows_saveToStorage w w' :
  localStorage w' = localStorage w -> storageGrows w (saveToStorage w').
Proof.
  intros Hls. unfold storageGrows, saveToStorage. cbn [localStorage]. rewrite Hls.
  split.
  - intros k Hk. unfold storeKeys in Hk.
    apply not_elem_of_cons in Hk as [Hb Hk].
    apply not_elem_of_cons in Hk as [Hf Hk].
    apply not_elem_of_cons in Hk as [Hkpi _].
    rewrite !lookup_insert_ne by done.
    destruct (businessData w'); [by rewrite lookup_insert_ne|done].
  - intros k Hk.
    destruct (decide (k = KPI_DATA_KEY)) as [->|];
      [rewrite lookup_insert_eq; eauto|rewrite lookup_insert_ne by done].
    destruct (decide (k = FINANCIAL_RECORDS_KEY)) as [->|];
      [rewrite lookup_insert_eq; eauto|rewrite lookup_insert_ne by done].
    destruct (businessData w'); [|done].
    destruct (decide (k = BUSINESS_DATA_KEY)) as [->|];
      [rewrite lookup_insert_eq; eauto|by rewrite lookup_insert_ne].
Qed.

Lemma call_sameOrSaved c w : sameOrSaved w (call c w).
Proof.
  destruct c; simpl;
    try (by apply sameOrSaved_saveToStorage).
  - unfold updateFinancialRecord. destruct (list_find _ _) as [[i r]|]; [|by left].
    by apply sameOrSaved_saveToStorage.
  - unfold updateKPI. destruct (list_find _ _) as [[i k]|]; [|by left].
    by apply sameOrSaved_saveToStorage.
  - apply (R_importFromCSV sameOrSaved).
    intros e' r w'. by apply sameOrSaved_saveToStorage.
  - apply (R_importFromExcel sameOrSaved); intros;
      by apply sameOrSaved_saveToStorage.
Qed.

Lemma call_storageGrows c w : storageGrows w (call c w).
Proof.
  destruct c; simpl;
    try (by apply storageGrows_saveToStorage).
  - unfold updateFinancialRecord. destruct (list_find _ _) as [[i r]|]; [|reflexivity].
    by apply storageGrows_saveToStorage.
  - unfold updateKPI. destruct (list_find _ _) as [[i k]|]; [|reflexivity].
    by apply storageGrows_saveToStorage.
  - apply (R_importFromCSV storageGrows).
    intros e' r w'. by apply storageGrows_saveToStorage.
  - apply (R_importFromExcel storageGrows); intros;
      by apply storageGrows_saveToStorage.
Qed.

Lemma session_sameOrSaved ls calls :
  garbled ls BUSINESS_DATA_KEY = false ->
  garbled (localStorage (session ls calls)) BUSINESS_DATA_KEY = false
  /\ reloads (session ls calls).
Proof.
  intros Hg. unfold session. induction calls as [|c calls IH] using rev_ind.
  - cbn [foldl]. split; [by rewrite localStorage_loadFromStorage|].
    apply reloads_loadFromStorage.
  - rewrite foldl_snoc. destruct IH as [IHg IHr].
    destruct (call_sameOrSaved c (foldl (fun w c => call c w)
      (loadFromStorage ls) calls)) as [->|Hs]; [done|]. by apply Hs.
Qed.

(** X1. When the text under the profile key at start-up is one that parses,
    or there is none, then whatever calls were made since, a reload finds
    what JSON makes of the records and of the indicators in memory, and of
    the profile when memory has one: the same values, except that [NaN] and
    infinite amounts come back as [null] and [-0] as [0]; so it finds the
    records and the indicators of memory when their amounts are finite and
    not [-0].  When that text does not parse, a record added after start-up
    is in memory and is written, but a reload finds no record: the failed
    parse of the profile ends the load. *)
Theorem session_reloads ls calls :
  (garbled ls BUSINESS_DATA_KEY = false ->
     reloads (session ls calls)
     /\ (Forall finiteRecord (financialRecords (session ls calls)) ->
         financialRecords (loadFromStorage (localStorage (session ls calls)))
         = financialRecords (session ls calls))
     /\ (Forall finiteKPI (kpiData (session ls calls)) ->
         kpiData (loadFromStorage (localStorage (session ls calls)))
         = kpiData (session ls calls)))
  /\ (forall e r,
        garbled ls BUSINESS_DATA_KEY = true ->
        let w := session ls [CallAddFinancialRecord e r] in
        getFinancialRecords w <> []
        /\ localStorage w !! FINANCIAL_RECORDS_KEY
           = Some (SnapRecords (getFinancialRecords w))
        /\ getFinancialRecords (loadFromStorage (localStorage w)) = []).
Proof.
  split.
  - intros Hg. destruct (session_sameOrSaved ls calls Hg) as [_ Hr].
    split; [exact Hr|]. destruct Hr as (Hrs & Hks & _). split.
    + intros Hfin. by rewrite Hrs, jsonRecord_finite.
    + intros Hfin. by rewrite Hks, jsonKPI_finite.
  - intros e r Hg. cbv zeta. unfold session. cbn [foldl call].
    assert (Hkey : garbled (localStorage (addFinancialRecord e r (loadFromStorage ls)))
                     BUSINESS_DATA_KEY = true).
    { unfold addFinancialRecord, saveToStorage, garbled, withRecords.
      cbn [localStorage businessData]. rewrite localStorage_loadFromStorage.
      rewrite !(lookup_insert_ne _ _ BUSINESS_DATA_KEY) by done.
      unfold loadFromStorage. rewrite Hg. cbn [businessData]. exact Hg. }
    split_and!.
    + unfold getFinancialRecords. rewrite addFinancialRecord_records.
      intros Hnil. apply (f_equal length) in Hnil.
      rewrite (Permutation_length (sortByDate_perm _)), length_app in Hnil.
      cbn in Hnil. lia.
    + apply (saveToStorage_collections (withRecords _ _)).
    + unfold getFinancialRecords, loadFromStorage at 1. by rewrite Hkey.
Qed.

(** X2. The store writes under its three keys only and never removes an
    entry: after any calls, every other key of [localStorage] holds what it
    held at start-up, and every key present at start-up is still present. *)
Theorem session_storage ls calls :
  (forall k, k ∉ storeKeys -> localStorage (session ls calls) !! k = ls !! k)
  /\ (forall k, is_Some (ls !! k) -> is_Some (localStorage (session ls calls) !! k)).
Proof.
  assert (Hs : storageGrows (loadFromStorage ls) (session ls calls)).
  { unfold session. induction calls as [|c calls IH] using rev_ind; simpl.
    - reflexivity.
    - rewrite foldl_snoc. etrans; [exact IH|apply call_storageGrows]. }
  unfold storageGrows in Hs. by rewrite localStorage_loadFromStorage in Hs.
Qed.

(** X3. A call on the records (add, update, delete, CSV import) leaves the
    profile and the indicators as they were; a call on the indicators
    (set, add, update, delete) leaves the profile and the records as they
    were; [setBusinessData] leaves both collections as they were. *)
Theorem call_frame c w :
  (recordCall c = true -> onlyRecords w (call c w))
  /\ (indicatorCall c = true -> onlyIndicators w (call c w))
  /\ (forall e data, c = CallSetBusinessData e data ->
        financialRecords (call c w) = financialRecords w
        /\ kpiData (call c w) = kpiData w).
Proof.
  split_and!.
  - destruct c; try discriminate; intros _; simpl; try done.
    + unfold updateFinancialRecord. by destruct (list_find _ _) as [[i r]|].
    + by apply (R_importFromCSV onlyRecords).
  - destruct c; try discriminate; intros _; simpl; try done.
    unfold updateKPI. by destruct (list_find _ _) as [[i k]|].
  - by intros e data ->.
Qed.

(** ** Records: delete, update, and how insertions compose *)

(** X4. [deleteFinancialRecord] keeps exactly the records of another date,
    in their order; for a date no record has, the collection is as before. *)
Theorem deleteFinancialRecord_spec d w :
  (forall r, r ∈ getFinancialRecords (deleteFinancialRecord d w)
             <-> r ∈ getFinancialRecords w /\ date r <> d)
  /\ getFinancialRecords (deleteFinancialRecord d w)
       `sublist_of` getFinancialRecords w
  /\ (d ∉ date <$> getFinancialRecords w ->
      getFinancialRecords (deleteFinancialRecord d w) = getFinancialRecords w).
Proof.
  unfold getFinancialRecords. simpl. split_and!.
  - intros r. rewrite list_elem_of_filter. tauto.
  - apply sublist_filter.
  - apply filter_absent_key.
Qed.

Lemma list_find_key_None {A B : Type} `{EqDecision B} (f : A -> B) (b : B)
  (l : list A) :
  b ∉ f <$> l -> list_find (fun x => f x = b) l = None.
Proof.
  intros Hb. apply list_find_None, Forall_forall. intros x Hx Heq.
  apply Hb. rewrite <- Heq. by apply list_elem_of_fmap_2.
Qed.

Lemma list_find_key_Some {A B : Type} `{EqDecision B} (f : A -> B) (b : B)
  (l : list A) :
  b ∈ f <$> l -> exists i x, list_find (fun x => f x = b) l = Some (i, x).
Proof.
  intros (x & -> & Hx)%list_elem_of_fmap.
  destruct (list_find (fun y => f y = f x) l) as [[i y]|] eqn:Hfind; [by eauto|].
  apply list_find_None in Hfind. rewrite Forall_forall in Hfind.
  by destruct (Hfind x Hx).
Qed.

(** X5. [updateFinancialRecord] for a date no record has does nothing at
    all, not even a write.  Otherwise it replaces the first record of that
    date by the merge, field by field, of that record and the updates: the
    length and every other position stay as they were. *)
Theorem updateFinancialRecord_spec d updates w :
  (d ∉ date <$> getFinancialRecords w -> updateFinancialRecord d updates w = w)
  /\ (d ∈ date <$> getFinancialRecords w ->
      exists i r,
        getFinancialRecords w !! i = Some r /\ date r = d
        /\ (forall j r', (j < i)%nat -> getFinancialRecords w !! j = Some r' ->
                         date r' <> d)
        /\ getFinancialRecords (updateFinancialRecord d updates w) !! i
           = Some {| date := default (date r) (u_date updates);
                     r_revenue := default (r_revenue r) (u_revenue updates);
                     expenses := default (expenses r) (u_expenses updates);
                     profit := default (profit r) (u_profit updates);
                     r_cashFlow := default (r_cashFlow r) (u_cashFlow updates) |}
        /\ (forall j, j <> i ->
              getFinancialRecords (updateFinancialRecord d updates w) !! j
              = getFinancialRecords w !! j)
        /\ length (getFinancialRecords (updateFinancialRecord d updates w))
           = length (getFinancialRecords w)).
Proof.
  unfold getFinancialRecords, updateFinancialRecord. split.
  - intros Hd. by rewrite list_find_key_None.
  - intros Hd. destruct (list_find_key_Some date d _ Hd) as (i & r & Hfind).
    rewrite Hfind. apply list_find_Some in Hfind as (Hi & Hr & Hfirst).
    exists i, r. simpl. split_and!; [done|done| | | |].
    + intros j r' Hj Hr'. by apply (Hfirst j).
    + rewrite list_lookup_insert_eq; [done|]. by eapply lookup_lt_Some.
    + intros j Hj. by rewrite list_lookup_insert_ne.
    + by rewrite length_insert.
Qed.

Lemma saveToStorage_twice b rs ks rs0 ks0 ls :
  saveToStorage
    (mkWorld b rs ks (localStorage (saveToStorage (mkWorld b rs0 ks0 ls))))
  = saveToStorage (mkWorld b rs ks ls).
Proof.
  unfold saveToStorage. cbn [businessData financialRecords kpiData localStorage].
  f_equal. apply map_eq. intros k.
  destruct b; repeat (rewrite lookup_insert; case_decide); done.
Qed.

Lemma insertByDate_head y l : Forall (dateLe y) l -> insertByDate y l = y :: l.
Proof.
  destruct 1 as [|z l Hz _]; [done|]. simpl. by rewrite dateLe_placedAfter.
Qed.

(** Sorting an ascending collection with one record appended only places
    that record. *)
Lemma sortByDate_snoc l x :
  ascending l -> exists l1 l2, l = l1 ++ l2 /\ sortByDate (l ++ [x]) = l1 ++ x :: l2.
Proof.
  induction 1 as [|y l Hs (l1 & l2 & -> & IH) Hall]; [by exists [], []|].
  simpl. rewrite IH. destruct l1 as [|z l1]; simpl.
  - destruct (placedAfter y x).
    + exists [], (y :: l2). split; [done|]. simpl. by rewrite insertByDate_head.
    + by exists [y], l2.
  - apply Forall_cons in Hall as [Hz _]. rewrite dateLe_placedAfter by done.
    by exists (y :: z :: l1), l2.
Qed.

Lemma filter_added_out e r w :
  ascending (financialRecords w) ->
  filter (fun x => date x <> newDate e r)
    (financialRecords (addFinancialRecord e r w))
  = filter (fun x => date x <> newDate e r) (financialRecords w).
Proof.
  intros Hs. rewrite addFinancialRecord_records.
  set (new := mkFinancialRecord (newDate e r) _ _ _ _).
  set (kept := filter _ (financialRecords w)).
  destruct (sortByDate_snoc kept new) as (l1 & l2 & Hkept & ->).
  { by apply StronglySorted_filter. }
  rewrite filter_app, filter_cons, decide_False by (by intros Hne; apply Hne).
  rewrite <- filter_app, <- Hkept. unfold kept.
  apply filter_all, Forall_forall. by intros x [Hx _]%list_elem_of_filter.
Qed.

(** X6. On a collection in ascending order, inserting a record and then
    another for the same date leaves the store, memory and [localStorage]
    alike, as the second insertion alone would: the last write wins. *)
Theorem addFinancialRecord_overwrites e1 r1 e2 r2 w :
  ascending (getFinancialRecords w) ->
  newDate e1 r1 = newDate e2 r2 ->
  addFinancialRecord e2 r2 (addFinancialRecord e1 r1 w)
  = addFinancialRecord e2 r2 w.
Proof.
  unfold getFinancialRecords. intros Hs Hd.
  pose proof (filter_added_out e1 r1 w Hs) as Hout. rewrite Hd in Hout.
  unfold addFinancialRecord at 1 3. fold (newDate e2 r2). cbn [date].
  rewrite Hout.
  unfold addFinancialRecord, withRecords.
  cbn [businessData kpiData financialRecords saveToStorage localStorage].
  destruct w as [b rs ks ls]. cbn [businessData kpiData financialRecords localStorage].
  apply (saveToStorage_twice b _ ks _ ks ls).
Qed.

(** X7. On a collection in ascending order, inserting a record and then
    deleting its date leaves the store as deleting that date alone would. *)
Theorem addFinancialRecord_then_delete e r w :
  ascending (getFinancialRecords w) ->
  deleteFinancialRecord (newDate e r) (addFinancialRecord e r w)
  = deleteFinancialRecord (newDate e r) w.
Proof.
  unfold getFinancialRecords. intros Hs.
  pose proof (filter_added_out e r w Hs) as Hout.
  unfold deleteFinancialRecord. rewrite Hout.
  unfold addFinancialRecord, withRecords.
  cbn [businessData kpiData financialRecords saveToStorage localStorage].
  destruct w as [b rs ks ls]. cbn [businessData kpiData financialRecords localStorage].
  apply (saveToStorage_twice b _ ks _ ks ls).
Qed.

(** ** Indicators: delete, update, and how additions compose *)

(** X8. [updateKPI] for a metric no indicator has does nothing at all, not
    even a write.  Otherwise it replaces the first indicator of that metric
    by the merge of that indicator and the updates: the length and every
    other position stay as they were. *)
Theorem updateKPI_spec m updates w :
  (m ∉ metric <$> getKPIData w -> updateKPI m updates w = w)
  /\ (m ∈ metric <$> getKPIData w ->
      exists i k,
        getKPIData w !! i = Some k /\ metric k = m
        /\ (forall j k', (j < i)%nat -> getKPIData w !! j = Some k' -> metric k' <> m)
        /\ getKPIData (updateKPI m updates w) !! i
           = Some {| metric := default (metric k) (k_metric updates);
                     value := default (value k) (k_value updates);
                     target := default (target k) (k_target updates);
                     unit_ := default (unit_ k) (k_unit updates);
                     category := default (category k) (k_category updates) |}
        /\ (forall j, j <> i ->
              getKPIData (updateKPI m updates w) !! j = getKPIData w !! j)
        /\ length (getKPIData (updateKPI m updates w)) = length (getKPIData w)).
Proof.
  unfold getKPIData, updateKPI. split.
  - intros Hm. by rewrite list_find_key_None.
  - intros Hm. destruct (list_find_key_Some metric m _ Hm) as (i & k & Hfind).
    rewrite Hfind. apply list_find_Some in Hfind as (Hi & Hk & Hfirst).
    exists i, k. simpl. split_and!; [done|done| | | |].
    + intros j k' Hj Hk'. by apply (Hfirst j).
    + rewrite list_lookup_insert_eq; [done|]. by eapply lookup_lt_Some.
    + intros j Hj. by rewrite list_lookup_insert_ne.
    + by rewrite length_insert.
Qed.

Lemma filter_key_twice {A B : Type} `{EqDecision B} (f : A -> B) (b : B)
  (l : list A) (a : A) :
  f a = b ->
  filter (fun x => f x <> b) (filter (fun x => f x <> b) l ++ [a])
  = filter (fun x => f x <> b) l.
Proof.
  intros Ha. rewrite filter_app, filter_cons, decide_False by (by intros Hne).
  rewrite filter_nil, app_nil_r.
  apply filter_all, Forall_forall. by intros x [Hx _]%list_elem_of_filter.
Qed.

(** X9. [deleteKPI] keeps exactly the indicators of another metric, in
    their order.  Adding an indicator and then another of the same metric
    leaves the store as the second addition alone would, and adding an
    indicator and then deleting its metric leaves it as the deletion alone
    would; the added indicator always comes last. *)
Theorem indicator_calls_compose w :
  (forall m k, k ∈ getKPIData (deleteKPI m w) <-> k ∈ getKPIData w /\ metric k <> m)
  /\ (forall m, getKPIData (deleteKPI m w) `sublist_of` getKPIData w)
  /\ (forall k1 k2, metric k1 = metric k2 ->
        addKPI k2 (addKPI k1 w) = addKPI k2 w)
  /\ (forall k, deleteKPI (metric k) (addKPI k w) = deleteKPI (metric k) w)
  /\ (forall k, last (getKPIData (addKPI k w)) = Some k).
Proof.
  unfold getKPIData. split_and!.
  - intros m k. simpl. rewrite list_elem_of_filter. tauto.
  - intros m. apply sublist_filter.
  - intros k1 k2 Hm. unfold addKPI, withKPIs.
    cbn [businessData kpiData financialRecords saveToStorage localStorage].
    rewrite <- Hm, (filter_key_twice metric (metric k1)) by done.
    destruct w as [b rs ks ls].
    cbn [businessData kpiData financialRecords localStorage].
    apply (saveToStorage_twice b rs _ rs _ ls).
  - intros k. unfold deleteKPI, addKPI, withKPIs.
    cbn [businessData kpiData financialRecords saveToStorage localStorage].
    rewrite (filter_key_twice metric (metric k)) by done.
    destruct w as [b rs ks ls].
    cbn [businessData kpiData financialRecords localStorage].
    apply (saveToStorage_twice b rs _ rs _ ls).
  - intros k. simpl. apply last_snoc.
Qed.

End StoreFacts.

(* ===================================================================== *)
(** * Further facts about the CSV import *)
(* ===================================================================== *)

Ltac lookups :=
  repeat first [ rewrite lookup_insert_eq
               | rewrite lookup_insert_ne by done
               | rewrite lookup_empty ].

Section CsvFacts.
Context `{HostDate}.

Lemma split_nonempty sep s : split sep s <> [].
Proof.
  destruct s as [|c s]; simpl; [done|].
  destruct (Ascii.eqb c sep); [done|]. by destruct (split sep s).
Qed.

Lemma split_app sep a b :
  split sep (a +:+ String sep b) = split sep a ++ split sep b.
Proof.
  induction a as [|c a IH]; simpl.
  - by rewrite Ascii.eqb_refl.
  - destruct (Ascii.eqb c sep); [by rewrite IH|].
    rewrite IH. pose proof (split_nonempty sep a).
    by destruct (split sep a).
Qed.

Lemma csvLines_app a b :
  csvLines (a +:+ String newline b) = csvLines a ++ csvLines b.
Proof. unfold csvLines. by rewrite split_app, filter_app. Qed.

(** X10. Line breaks only separate lines: the lines of two texts joined by
    a line break are the lines of the first followed by the lines of the
    second.  So a text made of blank lines can be put between two lines, and
    a line break can end the file, without changing what the import does. *)
Theorem importFromCSV_blank_lines e w a blank b :
  csvLines blank = [] ->
  csvLines (a +:+ String newline b) = csvLines a ++ csvLines b
  /\ importFromCSV e (Resolved (a +:+ String newline (blank +:+ String newline b))) w
     = importFromCSV e (Resolved (a +:+ String newline b)) w
  /\ importFromCSV e (Resolved (a +:+ String newline blank)) w
     = importFromCSV e (Resolved a) w.
Proof.
  intros Hblank. split; [apply csvLines_app|].
  unfold importFromCSV.
  rewrite !csvLines_app, Hblank, app_nil_r. done.
Qed.

Lemma rowObject_absent headers values k :
  k ∉ headers -> rowObject headers values !! k = None.
Proof.
  assert (Hgen : forall (m : gmap string string), k ∉ headers ->
            foldl (fun m hv => <[hv.1 := hv.2]> m) m (zip headers values) !! k = m !! k).
  { revert values. induction headers as [|h hs IH]; intros values m Hk; [done|].
    apply not_elem_of_cons in Hk as [Hne Hk].
    destruct values as [|v vs]; [done|]. simpl.
    rewrite IH by done. by rewrite lookup_insert_ne. }
  intros Hk. unfold rowObject. by rewrite Hgen.
Qed.

Lemma csvRecords_no_date headers dataLines :
  "date" ∉ headers -> "Date" ∉ headers -> csvRecords headers dataLines = [].
Proof.
  intros Hd HD. induction dataLines as [|line rest IH]; [done|]. simpl.
  rewrite IH. unfold csvRecordOf. rewrite !rowObject_absent by done. simpl.
  by destruct (length headers <=? length (csvFields line))%nat.
Qed.

(** X11. The date column is found by the exact header [date] or [Date].
    When the header line has neither, the import of a file with a header and
    data lines still reports success, with a count of 0, and leaves the
    store and [localStorage] as they were. *)
Theorem importFromCSV_no_date_column e text w :
  (2 <= length (csvLines text))%nat ->
  "date" ∉ csvFields (hd "" (csvLines text)) ->
  "Date" ∉ csvFields (hd "" (csvLines text)) ->
  importFromCSV e (Resolved text) w
  = (w, {| success := true;
           message := "Successfully imported 0 financial records" |}).
Proof.
  intros Hlen Hd HD. unfold importFromCSV.
  rewrite (proj2 (Nat.ltb_ge _ _) Hlen), csvRecords_no_date by done. done.
Qed.

Lemma occurs_trimStart c s : occurs c s = false -> occurs c (trimStart s) = false.
Proof.
  induction s as [|d s IH]; simpl; [done|].
  intros [Hd Hs]%orb_false_elim. destruct (isWhite d); [by apply IH|].
  simpl. by rewrite Hd, Hs.
Qed.

Lemma occurs_trimEnd c s : occurs c s = false -> occurs c (trimEnd s) = false.
Proof.
  induction s as [|d s IH]; simpl; [done|].
  intros [Hd Hs]%orb_false_elim. specialize (IH Hs).
  destruct (trimEnd s); simpl in *.
  - destruct (isWhite d); simpl; [done|by rewrite Hd].
  - by rewrite Hd, IH.
Qed.

Lemma occurs_stripQuotes c s :
  occurs c s = false -> occurs c (stripQuotes s) = false.
Proof.
  induction s as [|d s IH]; simpl; [done|].
  intros [Hd Hs]%orb_false_elim. destruct (Ascii.eqb d dquote); [by apply IH|].
  simpl. by rewrite Hd, IH.
Qed.

Lemma stripQuotes_no_quote s : occurs dquote (stripQuotes s) = false.
Proof.
  induction s as [|d s IH]; simpl; [done|].
  destruct (Ascii.eqb d dquote) eqn:Hd; [done|]. simpl. by rewrite Hd, IH.
Qed.

Lemma split_pieces sep c s f :
  f ∈ split sep s ->
  occurs sep f = false /\ (occurs c s = false -> occurs c f = false).
Proof.
  revert f. induction s as [|d s IH]; simpl; intros f Hf.
  - apply list_elem_of_singleton in Hf as ->. done.
  - destruct (Ascii.eqb d sep) eqn:Hd.
    + apply elem_of_cons in Hf as [->|Hf]; [done|].
      destruct (IH f Hf) as [Hsep Hc]. split; [done|].
      intros [_ Hs]%orb_false_elim. by apply Hc.
    + pose proof (split_nonempty sep s) as Hne.
      destruct (split sep s) as [|g gs]; [done|].
      apply elem_of_cons in Hf as [->|Hf].
      * destruct (IH g) as [Hsep Hc]; [by left|]. simpl. rewrite Hd, Hsep.
        split; [done|]. intros [Hdc Hs]%orb_false_elim. by rewrite Hdc, Hc.
      * destruct (IH f) as [Hsep Hc]; [by right|]. split; [done|].
        intros [_ Hs]%orb_false_elim. by apply Hc.
Qed.

Lemma csvFields_clean line v :
  v ∈ csvFields line ->
  occurs comma v = false /\ occurs dquote v = false
  /\ (occurs newline line = false -> occurs newline v = false).
Proof.
  unfold csvFields. intros (f & -> & Hf)%list_elem_of_fmap.
  destruct (split_pieces comma newline line f Hf) as [Hcomma Hnl].
  unfold trim. split_and!.
  - by apply occurs_stripQuotes, occurs_trimEnd, occurs_trimStart.
  - apply stripQuotes_no_quote.
  - intros Hline. by apply occurs_stripQuotes, occurs_trimEnd, occurs_trimStart, Hnl.
Qed.

Lemma rowObject_present headers values k v :
  rowObject headers values !! k = Some v -> v ∈ values.
Proof.
  assert (Hgen : forall (m : gmap string string),
            foldl (fun m hv => <[hv.1 := hv.2]> m) m (zip headers values) !! k = Some v ->
            m !! k = Some v \/ v ∈ values).
  { revert values. induction headers as [|h hs IH]; intros values m Hv; [by left|].
    destruct values as [|u us]; [by left|]. simpl in Hv.
    apply IH in Hv as [Hv|Hv]; [|right; by right].
    rewrite lookup_insert in Hv. case_decide; [|by left].
    simpl in Hv. injection Hv as ->. right. by left. }
  unfold rowObject. intros Hv. by destruct (Hgen _ Hv).
Qed.

Lemma orZero_amount n : amount (orZero n).
Proof.
  unfold orZero, amount.
  destruct n as [[sg|sg| |sg m e]|]; cbn [truthyNum]; eexists;
    (split; [reflexivity|done]).
Qed.

Lemma csvRecordOf_clean headers values r :
  csvRecordOf (rowObject headers values) = Some r ->
  exists d, n_date r = Some d /\ d <> "" /\ d ∈ values
    /\ amount (n_revenue r) /\ amount (n_expenses r) /\ amount (n_profit r)
    /\ amount (n_cashFlow r).
Proof.
  unfold csvRecordOf.
  destruct (orElseStr _ _) as [d|] eqn:Hd; [|done].
  destruct (truthyStr d) eqn:Ht; [|done]. intros [= <-]. exists d. simpl.
  split_and!; try apply orZero_amount; [done|by destruct d|].
  unfold orElseStr in Hd.
  destruct (rowObject headers values !! "date") as [d1|] eqn:H1.
  - destruct (truthyStr d1).
    + injection Hd as <-. by eapply rowObject_present.
    + by eapply rowObject_present.
  - by eapply rowObject_present.
Qed.

Lemma csvRecords_clean headers dataLines r :
  Forall (fun line => occurs newline line = false) dataLines ->
  r ∈ csvRecords headers dataLines ->
  exists d, n_date r = Some d /\ d <> "" /\ occurs comma d = false
    /\ occurs dquote d = false /\ occurs newline d = false
    /\ amount (n_revenue r) /\ amount (n_expenses r) /\ amount (n_profit r)
    /\ amount (n_cashFlow r).
Proof.
  induction 1 as [|line rest Hline Hrest IH]; simpl; [by intros ?%elem_of_nil|].
  destruct (length headers <=? length (csvFields line))%nat; [|done].
  destruct (csvRecordOf _) as [r0|] eqn:Hr0; [|done].
  intros [->|Hr]%elem_of_cons; [|by apply IH].
  apply csvRecordOf_clean in Hr0 as (d & Hd & Hne & Hin & Hnum).
  destruct (csvFields_clean line d Hin) as (Hc & Hq & Hnl).
  exists d. split_and!; try done; [by apply Hnl|apply Hnum..].
Qed.

Lemma csvLines_one_line text :
  Forall (fun line => occurs newline line = false) (csvLines text).
Proof.
  apply Forall_forall. intros line [_ Hl]%csvLines_spec.
  by destruct (split_pieces newline newline text line Hl).
Qed.

Lemma elem_of_added e r w x :
  x ∈ financialRecords (addFinancialRecord e r w) ->
  x ∈ financialRecords w
  \/ x = {| date := newDate e r; r_revenue := n_revenue r;
            expenses := n_expenses r; profit := n_profit r;
            r_cashFlow := n_cashFlow r |}.
Proof.
  rewrite addFinancialRecord_records, sortByDate_perm, elem_of_app.
  intros [[_ Hx]%list_elem_of_filter|Hx%list_elem_of_singleton]; auto.
Qed.

Lemma csvLines_single line :
  occurs newline line = false -> trim line <> "" -> csvLines line = [line].
Proof.
  intros Hnl Hne. unfold csvLines. rewrite split_no_sep by done.
  by rewrite filter_cons, decide_True.
Qed.

Lemma importFromCSV_one_line e w d f :
  csvSafe d -> occurs comma f = false -> occurs newline f = false ->
  importFromCSV e (Resolved ("Date,Revenue" +:+ String newline (d +:+ String comma f))) w
  = (addFinancialRecord e
       {| n_date := Some d;
          n_revenue := orZero (Number_ (stripQuotes (trim f)));
          n_expenses := Num 0; n_profit := Num 0; n_cashFlow := Num 0 |} w,
     {| success := true; message := "Successfully imported 1 financial records" |}).
Proof.
  intros (Hne & Htrim & Hcomma & Hquote & Hnl) Hfc Hfn. unfold importFromCSV.
  rewrite csvLines_app.
  assert (csvLines "Date,Revenue" = ["Date,Revenue"]) as -> by (by vm_compute).
  rewrite (csvLines_single (d +:+ String comma f)).
  - cbn [app length Nat.ltb Nat.leb hd tl csvRecords].
    assert (csvFields "Date,Revenue" = ["Date"; "Revenue"]) as -> by (by vm_compute).
    assert (csvFields (d +:+ String comma f) = [d; stripQuotes (trim f)]) as ->.
    { unfold csvFields. rewrite split_app_sep, split_no_sep by done.
      rewrite !fmap_cons, fmap_nil. by rewrite clean_field. }
    cbn [length Nat.leb]. unfold csvRecordOf, rowObject. cbn [zip zip_with foldl fst snd].
    lookups. cbn [orElseStr NumberOpt].
    assert (truthyStr d = true) as -> by (by destruct d).
    cbn [foldl length]. reflexivity.
  - rewrite occurs_app. cbn [occurs]. by rewrite Hnl, Hfn.
  - by apply trim_app_nonblank.
Qed.

(** X12. After a CSV import every record of the store either was there
    before or has a non-empty date free of commas, double quotes and line
    breaks, taken from the file, and four amounts that are Numbers other
    than [NaN] and [-0]; the current date is never filled in.  From a file
    with the header [Date,Revenue] and one data line [d,f] the record stored
    under [d] has the revenue [Number(f) || 0], [f] trimmed and without its
    double quotes, which is [0] when [f] is no numeral, and [0] for the
    three amounts the file leaves out. *)
Theorem importFromCSV_records e w :
  (forall file x,
     x ∈ getFinancialRecords (fst (importFromCSV e file w)) ->
     x ∈ getFinancialRecords w \/ fromCsv x)
  /\ (forall d f,
        csvSafe d -> occurs comma f = false -> occurs newline f = false ->
        importFromCSV e
          (Resolved ("Date,Revenue" +:+ String newline (d +:+ String comma f))) w
        = (addFinancialRecord e
             {| n_date := Some d;
                n_revenue := orZero (Number_ (stripQuotes (trim f)));
                n_expenses := Num 0; n_profit := Num 0; n_cashFlow := Num 0 |} w,
           {| success := true;
              message := "Successfully imported 1 financial records" |})
        /\ (Number_ (stripQuotes (trim f)) = NaN ->
            forall x, x ∈ getFinancialRecords (fst (importFromCSV e
                (Resolved ("Date,Revenue" +:+ String newline (d +:+ String comma f))) w)) ->
              date x = d -> r_revenue x = Num 0)).
Proof.
  split.
  - intros file x. revert w. unfold getFinancialRecords, importFromCSV. intros w.
    destruct file as [text|]; [|by left].
    destruct (length (csvLines text) <? 2)%nat; [by left|]. cbn [fst].
    assert (Hclean : Forall (fun line => occurs newline line = false)
                       (tl (csvLines text))).
    { pose proof (csvLines_one_line text) as Hall.
      destruct (csvLines text); [done|]. by apply Forall_cons in Hall as [_ ?]. }
    pose proof (fun r => csvRecords_clean (csvFields (hd "" (csvLines text)))
                           (tl (csvLines text)) r Hclean) as Hrec.
    revert w Hrec. generalize (csvRecords (csvFields (hd "" (csvLines text)))
                                 (tl (csvLines text))) as records.
    induction records as [|r rs IH]; intros w Hrec; simpl; [by left|].
    intros Hx. apply IH in Hx as [Hx|Hx]; [|by right|].
    + apply elem_of_added in Hx as [Hx| ->]; [by left|]. right.
      destruct (Hrec r) as (d & Hd & Hne & Hc & Hq & Hnl & Hnum); [by left|].
      unfold fromCsv, newDate. cbn [date r_revenue expenses profit r_cashFlow].
      rewrite Hd. assert (truthyStr d = true) as -> by (by destruct d).
      destruct Hnum as (? & ? & ? & ?). by split_and!.
    + intros r' Hr'. apply Hrec. by right.
  - intros d f Hd Hfc Hfn. split; [by apply importFromCSV_one_line|].
    intros Hnan x. rewrite importFromCSV_one_line by done. cbn [fst].
    unfold getFinancialRecords. rewrite addFinancialRecord_records.
    rewrite sortByDate_perm, elem_of_app.
    unfold newDate. cbn [n_date n_revenue].
    assert (truthyStr d = true) as -> by (destruct Hd as [? _]; by destruct d).
    intros [[Hne _]%list_elem_of_filter|Hx%list_elem_of_singleton] Hdate; [done|].
    subst x. cbn [r_revenue]. by rewrite Hnan.
Qed.

(** ** The line check *)

Lemma join_split sep s : join (String sep "") (split sep s) = s.
Proof.
  induction s as [|c s IH]; [done|]. cbn [split].
  destruct (Ascii.eqb_spec c sep) as [->|Hc].
  - pose proof (split_nonempty sep s) as Hne.
    destruct (split sep s) as [|f fs]; [done|].
    cbn [join] in *. by rewrite IH.
  - pose proof (split_nonempty sep s) as Hne.
    destruct (split sep s) as [|f fs]; [done|].
    destruct fs as [|g gs]; cbn [join] in *; by rewrite <- IH.
Qed.

Lemma split_pieces_sep sep s : Forall (fun f => occurs sep f = false) (split sep s).
Proof.
  apply Forall_forall. intros f Hf.
  by destruct (split_pieces sep sep s f Hf).
Qed.

Lemma trimStart_allWhite s : trimStart s = "" <-> allWhite s = true.
Proof.
  induction s as [|c s IH]; cbn [trimStart allWhite]; [done|].
  destruct (isWhite c); [exact IH|]. by split.
Qed.

Lemma trim_allWhite s : trim s = "" <-> allWhite s = true.
Proof.
  unfold trim. rewrite <- trimStart_allWhite. split; [|by intros ->].
  induction s as [|c s IH]; [done|]. cbn [trimStart].
  destruct (isWhite c) eqn:Hc; [exact IH|].
  intros Hend. by apply trimEnd_nonwhite in Hend.
Qed.

Lemma csvLines_join lines :
  Forall (fun l => occurs newline l = false) lines ->
  csvLines (join (String newline "") lines)
  = filter (fun l => allWhite l = false) lines.
Proof.
  intros Hall. unfold csvLines.
  destruct lines as [|l ls]; [done|].
  rewrite split_join_lines by done.
  apply list_filter_iff. intros x. rewrite trim_allWhite.
  by destruct (allWhite x).
Qed.

(** C9. The text is cut at every line break, every text being its lines
    joined by line breaks, and the lines of white space only are dropped.
    With fewer than two lines left the import fails with the message asking
    for a header and a data row, and the store, memory and [localStorage],
    is as before; with two or more it goes on to parse the rows after the
    first and succeeds.  A header alone fails, also when blank lines follow
    it; a header and one data line pass, also with Windows line ends. *)
Theorem importFromCSV_line_check e w :
  (forall text,
     Forall (fun l => occurs newline l = false) (split newline text)
     /\ join (String newline "") (split newline text) = text)
  /\ (forall lines,
        Forall (fun l => occurs newline l = false) lines ->
        let text := join (String newline "") lines in
        let kept := filter (fun l => allWhite l = false) lines in
        csvLines text = kept
        /\ ((length kept < 2)%nat ->
            importFromCSV e (Resolved text) w
            = (w, {| success := false;
                     message := "CSV file must have at least a header and one data row" |}))
        /\ ((2 <= length kept)%nat ->
            let records := csvRecords (csvFields (hd "" kept)) (tl kept) in
            importFromCSV e (Resolved text) w
            = (foldl (fun acc r => addFinancialRecord e r acc) w records,
               {| success := true;
                  message := countMessage "Successfully imported " (length records)
                               " financial records" |})))
  /\ importFromCSV e (Resolved csvHeader) w
     = (w, {| success := false;
              message := "CSV file must have at least a header and one data row" |})
  /\ importFromCSV e
       (Resolved (join (String newline "")
                    ["Date,Revenue"; "   "; String "009" ""; String "013" ""; ""])) w
     = (w, {| success := false;
              message := "CSV file must have at least a header and one data row" |})
  /\ snd (importFromCSV e
            (Resolved (join (String newline "")
                         [String "013" "";
                          "Date,Revenue" +:+ String "013" "";
                          "2024-01-01,5" +:+ String "013" ""; ""])) w)
     = {| success := true; message := "Successfully imported 1 financial records" |}.
Proof.
  split_and!.
  - intros text. split; [apply split_pieces_sep|apply join_split].
  - intros lines Hall. cbv zeta. pose proof (csvLines_join lines Hall) as Hlines.
    unfold importFromCSV. rewrite Hlines. split_and!; [done| |].
    + intros Hlt. by rewrite (proj2 (Nat.ltb_lt _ _) Hlt).
    + intros Hge. by rewrite (proj2 (Nat.ltb_ge _ _) Hge).
  - unfold importFromCSV.
    assert (csvLines csvHeader = [csvHeader]) as -> by (vm_compute; reflexivity).
    reflexivity.
  - unfold importFromCSV.
    match goal with
    | |- context [csvLines ?t] =>
        assert (csvLines t = ["Date,Revenue"]) as -> by (by vm_compute)
    end.
    reflexivity.
  - unfold importFromCSV.
    match goal with
    | |- context [csvLines ?t] =>
        assert (csvLines t = ["Date,Revenue" +:+ String "013" "";
                              "2024-01-01,5" +:+ String "013" ""]) as ->
          by (by vm_compute)
    end.
    cbn [length Nat.ltb Nat.leb hd tl snd]. reflexivity.
Qed.

End CsvFacts.

(* ===================================================================== *)
(** * Further facts about the spreadsheet import *)
(* ===================================================================== *)

Section ExcelFacts.
Context `{HostDate}.

Lemma importRecordRows_run e rows n w :
  importRecordRows e rows n w
  = Done (foldl (fun acc r => addFinancialRecord e r acc) w (datedRows rows))
         (n + length (datedRows rows))%nat.
Proof.
  revert n w. induction rows as [|r rows IH]; intros n w; simpl.
  - unfold mret, M_ret. f_equal. lia.
  - destruct (rowDate r) as [d|]; simpl; [|apply IH].
    erewrite bind_Done; [|reflexivity]. rewrite IH. f_equal. lia.
Qed.

Lemma importBusinessSheet_run e sheet n w :
  sheetThrows sheet = false ->
  importBusinessSheet e sheet n w
  = Done (match sheetRows sheet with
          | r :: _ => setBusinessData e (businessOfRow r) w
          | [] => w
          end)
         (match sheetRows sheet with _ :: _ => S n | [] => n end).
Proof. by destruct sheet as [[[|r rows]|msg]|]. Qed.

Lemma importFinancialSheet_run e sheet n w :
  sheetThrows sheet = false ->
  importFinancialSheet e sheet n w
  = Done (foldl (fun acc r => addFinancialRecord e r acc) w
            (datedRows (sheetRows sheet)))
         (n + length (datedRows (sheetRows sheet)))%nat.
Proof.
  destruct sheet as [[rows|msg]|]; try done; intros _; simpl.
  - erewrite bind_Done; [|reflexivity]. apply importRecordRows_run.
  - unfold mret, M_ret. f_equal. lia.
Qed.

Lemma importKPISheet_run sheet n w :
  sheetThrows sheet = false ->
  exists n', importKPISheet sheet n w
  = Done (match kpisOfRows (sheetRows sheet) with
          | [] => w
          | kpis => setKPIData kpis w
          end) n'.
Proof.
  destruct sheet as [[rows|msg]|]; try done; intros _; simpl; [|by eauto].
  erewrite bind_Done; [|reflexivity].
  destruct (kpisOfRows rows); simpl; by eauto.
Qed.

Lemma importBody_phases e sheets w :
  noSheetThrows sheets ->
  exists n,
    importBody e sheets w
    = Done (indicatorsPhase sheets (recordsPhase e sheets (profilePhase e sheets w))) n.
Proof.
  intros (Hb & Hf & Hk). unfold importBody, profilePhase, recordsPhase, indicatorsPhase.
  erewrite bind_Done; [|by apply importBusinessSheet_run].
  erewrite bind_Done; [|by apply importFinancialSheet_run].
  by apply importKPISheet_run.
Qed.

Lemma importKPISheet_count sheet n w :
  sheetThrows sheet = false ->
  importKPISheet sheet n w
  = Done (match kpisOfRows (sheetRows sheet) with
          | [] => w
          | kpis => setKPIData kpis w
          end) (n + length (kpisOfRows (sheetRows sheet)))%nat.
Proof.
  destruct sheet as [[rows|msg]|]; try done; intros _; simpl.
  - erewrite bind_Done; [|reflexivity].
    destruct (kpisOfRows rows); simpl; unfold mret, M_ret; f_equal; lia.
  - unfold mret, M_ret. f_equal. lia.
Qed.

Lemma importBody_run e sheets w :
  noSheetThrows sheets ->
  importBody e sheets w
  = Done (indicatorsPhase sheets (recordsPhase e sheets (profilePhase e sheets w)))
      (length (option_list (head (sheetRows (pickSheet "Business Data" "Company" sheets))))
       + length (datedRows (sheetRows (pickSheet "Financial Records" "Financials" sheets)))
       + length (kpisOfRows (sheetRows (pickSheet "KPIs" "Metrics" sheets))))%nat.
Proof.
  intros (Hb & Hf & Hk). unfold importBody, profilePhase, recordsPhase, indicatorsPhase.
  erewrite bind_Done; [|by apply importBusinessSheet_run].
  erewrite bind_Done; [|by apply importFinancialSheet_run].
  rewrite importKPISheet_count by done. f_equal.
  by destruct (sheetRows (pickSheet "Business Data" "Company" sheets)).
Qed.

Lemma dates_after_add e r w d :
  d ∈ date <$> financialRecords (addFinancialRecord e r w)
  <-> d = newDate e r \/ d ∈ date <$> financialRecords w.
Proof.
  rewrite addFinancialRecord_records, sortByDate_perm, fmap_app, elem_of_app.
  rewrite !list_elem_of_fmap. cbn [fmap list_fmap date].
  setoid_rewrite list_elem_of_filter. setoid_rewrite list_elem_of_singleton.
  split.
  - intros [(x & Hd & _ & Hx)|(x & Hd & Hx)]; [right; eauto|left].
    by rewrite Hd, Hx.
  - intros [Hd|(x & Hd & Hx)].
    { right. eexists. split; [|reflexivity]. exact Hd. }
    destruct (decide (date x = newDate e r)) as [Heq|Hne]; [|left; eauto].
    right. eexists. split; [|reflexivity]. by rewrite Hd.
Qed.

Lemma dates_after_adds e rs w r :
  r ∈ rs ->
  newDate e r ∈ date <$> financialRecords
                  (foldl (fun acc r => addFinancialRecord e r acc) w rs).
Proof.
  intros Hr. induction rs as [|r' rs IH] using rev_ind; [by apply elem_of_nil in Hr|].
  rewrite foldl_snoc, dates_after_add.
  apply elem_of_app in Hr as [Hr|Hr%list_elem_of_singleton]; [right; by apply IH|].
  subst. by left.
Qed.

(** C8. When no sheet throws, [importFromExcel] reports success with the
    count 1 for a profile row, plus 1 per record row carrying a date, plus
    the number of indicator rows carrying a metric name; when no sheet name
    matches, the count is 0, the result is still a success and the store is
    untouched.  The counted items are the items it imported: with text in
    the text columns, the profile row was handed to [setBusinessData], the
    dated rows were added one after the other, and the indicators replaced
    the store's; afterwards the profile has the company name of the row,
    every counted record row has its date in the store, and the counted
    indicators are the store's indicators. *)
Theorem importFromExcel_count e sheets w :
  noSheetThrows sheets ->
  let profile := head (sheetRows (pickSheet "Business Data" "Company" sheets)) in
  let records :=
    datedRows (sheetRows (pickSheet "Financial Records" "Financials" sheets)) in
  let kpis := kpisOfRows (sheetRows (pickSheet "KPIs" "Metrics" sheets)) in
  let res := importFromExcel e (Workbook sheets) w in
  snd res
  = {| success := true;
       message := countMessage "Successfully imported "
                    (length (option_list profile) + length records + length kpis)
                    " records" |}
  /\ (noSheetMatches sheets ->
      res = (w, {| success := true; message := "Successfully imported 0 records" |}))
  /\ (textSheets sheets ->
      fst res
      = (match kpis with [] => fun w => w | _ => setKPIData kpis end)
          (foldl (fun acc r => addFinancialRecord e r acc)
             (match profile with
              | Some r => setBusinessData e (businessOfRow r) w
              | None => w
              end) records)
      /\ (forall r, profile = Some r ->
            exists b, getBusinessData (fst res) = Some b
              /\ companyName b = strOrEmpty (p_companyName (businessOfRow r)))
      /\ (forall r, r ∈ records ->
            newDate e r ∈ date <$> getFinancialRecords (fst res))
      /\ (kpis <> [] -> getKPIData (fst res) = kpis)).
Proof.
  intros Hno. cbv zeta. unfold importFromExcel.
  rewrite (importBody_run e sheets w Hno). cbn [fst snd].
  assert (Hstore :
    indicatorsPhase sheets (recordsPhase e sheets (profilePhase e sheets w))
    = (match kpisOfRows (sheetRows (pickSheet "KPIs" "Metrics" sheets)) with
       | [] => fun w => w
       | _ => setKPIData (kpisOfRows (sheetRows (pickSheet "KPIs" "Metrics" sheets)))
       end)
        (foldl (fun acc r => addFinancialRecord e r acc)
           (match head (sheetRows (pickSheet "Business Data" "Company" sheets)) with
            | Some r => setBusinessData e (businessOfRow r) w
            | None => w
            end)
           (datedRows (sheetRows (pickSheet "Financial Records" "Financials" sheets))))).
  { unfold indicatorsPhase, recordsPhase, profilePhase.
    destruct (sheetRows (pickSheet "Business Data" "Company" sheets)),
      (kpisOfRows (sheetRows (pickSheet "KPIs" "Metrics" sheets))); done. }
  split; [done|]. split.
  { intros (Hb & Hf & Hk). rewrite Hstore, Hb, Hf, Hk. reflexivity. }
  intros _. split; [exact Hstore|]. rewrite Hstore.
  set (w1 := match head _ with Some r => _ | None => w end).
  set (records := datedRows _).
  set (kpis := kpisOfRows _).
  set (w2 := foldl _ w1 records).
  assert (Hw2 : businessData w2 = businessData w1)
    by (by apply (R_foldl_add onlyRecords)).
  assert (Hb3 : forall w', businessData
            ((match kpis with [] => fun w => w | _ => setKPIData kpis end) w')
          = businessData w') by (intros w'; by destruct kpis).
  assert (Hr3 : forall w', financialRecords
            ((match kpis with [] => fun w => w | _ => setKPIData kpis end) w')
          = financialRecords w') by (intros w'; by destruct kpis).
  unfold getBusinessData, getFinancialRecords, getKPIData.
  split_and!.
  - intros r Hr. rewrite Hb3, Hw2. unfold w1. rewrite Hr. eexists. by split.
  - intros r Hr. rewrite Hr3. by apply dates_after_adds.
  - intros Hne. by destruct kpis.
Qed.

(** X13. The spreadsheet import applies the profile row, then the dated
    record rows in sheet order, then the indicators.  An exception in one
    sheet ends it with a failure result carrying the exception's message,
    and nothing is rolled back: what the sheets before it changed stays in
    the store and in [localStorage]. *)
Theorem importFromExcel_no_rollback e sheets w msg :
  (pickSheet "Business Data" "Company" sheets = Some (SheetThrows msg) ->
     importFromExcel e (Workbook sheets) w = (w, failure msg))
  /\ (sheetThrows (pickSheet "Business Data" "Company" sheets) = false ->
      pickSheet "Financial Records" "Financials" sheets = Some (SheetThrows msg) ->
      importFromExcel e (Workbook sheets) w = (profilePhase e sheets w, failure msg))
  /\ (sheetThrows (pickSheet "Business Data" "Company" sheets) = false ->
      sheetThrows (pickSheet "Financial Records" "Financials" sheets) = false ->
      pickSheet "KPIs" "Metrics" sheets = Some (SheetThrows msg) ->
      importFromExcel e (Workbook sheets) w
      = (recordsPhase e sheets (profilePhase e sheets w), failure msg))
  /\ (noSheetThrows sheets ->
      fst (importFromExcel e (Workbook sheets) w)
      = indicatorsPhase sheets (recordsPhase e sheets (profilePhase e sheets w))).
Proof.
  unfold importFromExcel, importBody, profilePhase, recordsPhase, indicatorsPhase.
  split_and!.
  - intros ->. reflexivity.
  - intros Hb Hf. erewrite bind_Done; [|by apply importBusinessSheet_run].
    rewrite Hf. reflexivity.
  - intros Hb Hf Hk. erewrite bind_Done; [|by apply importBusinessSheet_run].
    erewrite bind_Done; [|by apply importFinancialSheet_run].
    rewrite Hk. reflexivity.
  - intros Hno. fold (profilePhase e sheets w).
    destruct (importBody_phases e sheets w Hno) as (n & Hrun).
    unfold importBody, profilePhase, recordsPhase, indicatorsPhase in Hrun.
    by rewrite Hrun.
Qed.

#[global] Instance sameProfile_refl : Reflexive sameProfile.
Proof. by intros w. Qed.

#[global] Instance sameProfile_trans : Transitive sameProfile.
Proof. intros w1 w2 w3. unfold sameProfile. congruence. Qed.

(** X14. A spreadsheet with a profile row always gives the profile a new
    identity: only the first row of the profile sheet is read, the id is
    freshly generated and [createdAt] is the time of the import, whatever
    profile the store held and whatever the later sheets do.  The company
    name is the text under [Company Name] when that is not empty, and
    otherwise the text under [companyName]. *)
Theorem importFromExcel_profile e sheets w r rows :
  pickSheet "Business Data" "Company" sheets = Some (SheetRows (r :: rows)) ->
  exists b,
    getBusinessData (fst (importFromExcel e (Workbook sheets) w)) = Some b
    /\ id b = generateId e /\ createdAt b = now e /\ updatedAt b = now e
    /\ (forall s, r !! "Company Name" = Some (CText s) -> s <> "" ->
          companyName b = s)
    /\ (forall s, r !! "Company Name" = None ->
          r !! "companyName" = Some (CText s) -> companyName b = s).
Proof.
  intros Hsheet. unfold getBusinessData.
  assert (Hafter : forall n w1,
    match (imported ← importFinancialSheet e
             (pickSheet "Financial Records" "Financials" sheets) n;
           importKPISheet (pickSheet "KPIs" "Metrics" sheets) imported) w1 with
    | Done w' _ => sameProfile w1 w'
    | Thrown w' _ => sameProfile w1 w'
    end).
  { intros n w1. apply (keeps_bind sameProfile).
    - apply keeps_importFinancialSheet; try apply _. by intros; unfold sameProfile.
    - intros n'. apply keeps_importKPISheet; try apply _.
      by intros; unfold sameProfile. }
  exists (default (mkBusinessData "" "" "" NaN NaN NaN NaN NaN NaN 0 0)
            (businessData (setBusinessData e (businessOfRow r) w))).
  split.
  - unfold importFromExcel, importBody.
    erewrite bind_Done; [|apply importBusinessSheet_run; by rewrite Hsheet].
    rewrite Hsheet. cbn [sheetRows].
    specialize (Hafter 1%nat (setBusinessData e (businessOfRow r) w)).
    match type of Hafter with
    | match ?run with Done _ _ => _ | Thrown _ _ => _ end =>
        destruct run as [w' n|w' m]
    end; cbn [fst]; by rewrite Hafter.
  - cbn. split_and!; try done.
    + intros s -> Hs. cbn. by destruct s.
    + intros s -> ->. cbn. by destruct s.
Qed.

(** ** Spreadsheet export followed by spreadsheet import *)

Lemma number_back n :
  steady n -> orZero (NumberCell (orElseCell (Some (CNumber n)) None)) = n.
Proof.
  unfold steady. by destruct n as [[[]|sg| |sg m e]|].
Qed.

Lemma steady_orZero n : steady n -> orZero n = n.
Proof.
  unfold steady. by destruct n as [[[]|sg| |sg m e]|].
Qed.

Lemma text_back s fallback :
  s <> "" -> textOr (Some (CText s)) None fallback = s.
Proof. by destruct s. Qed.

Lemma rowDate_recordRow readDate r :
  date r <> "" -> rowDate (readRow readDate (recordRow r)) = Some (CText (date r)).
Proof.
  intros Hd. unfold rowDate, readRow, recordRow.
  cbn [fmap list_fmap list_to_map foldr fst snd readCell]. lookups.
  by destruct (date r).
Qed.

Lemma recordOfRow_recordRow readDate r :
  sheetSafeRecord r ->
  recordOfRow (readRow readDate (recordRow r)) (CText (date r)) = asNew r.
Proof.
  intros (Hd & Hrev & Hexp & Hpro & Hcf). unfold recordOfRow, readRow, recordRow.
  cbn [fmap list_fmap list_to_map foldr fst snd readCell]. lookups.
  by rewrite !number_back.
Qed.

Lemma datedRows_recordRow readDate rs :
  Forall sheetSafeRecord rs ->
  datedRows (readRow readDate <$> (recordRow <$> rs)) = asNew <$> rs.
Proof.
  induction 1 as [|r rs Hr _ IH]; [done|].
  rewrite !fmap_cons. unfold datedRows in *. cbn [omap list_omap].
  rewrite IH, rowDate_recordRow by apply Hr.
  cbn [fmap option_fmap option_map]. by rewrite recordOfRow_recordRow.
Qed.

Lemma kpisOfRows_kpiRow readDate ks :
  Forall sheetSafeKPI ks ->
  kpisOfRows (readRow readDate <$> (kpiRow <$> ks)) = ks.
Proof.
  unfold kpisOfRows.
  induction 1 as [|k ks (Hm & Hc & Hv & Ht) _ IH]; [done|].
  rewrite !fmap_cons, filter_cons.
  assert (Hk : kpiOfRow (readRow readDate (kpiRow k)) = k).
  { unfold kpiOfRow, readRow, kpiRow.
    cbn [fmap list_fmap list_to_map foldr fst snd readCell]. lookups.
    rewrite !number_back, !text_back by done.
    destruct k as [m v t u c]. cbn in *. f_equal; [by destruct u|by destruct c]. }
  rewrite Hk, decide_True by done. by rewrite IH.
Qed.

Lemma setBusinessData_profileRow e readDate b w :
  sheetSafeProfile b ->
  businessData (setBusinessData e (businessOfRow (readRow readDate (profileRow b))) w)
  = Some (reissued e b).
Proof.
  intros (He & Hr & Hc & Ha & Hl & Hf).
  unfold setBusinessData, businessOfRow, readRow, profileRow.
  cbn [fmap list_fmap list_to_map foldr fst snd readCell]. lookups.
  cbn [businessData saveToStorage p_id p_companyName p_industry p_employees
       p_revenue p_costs p_assets p_liabilities p_cashFlow p_createdAt].
  rewrite !number_back by done. unfold reissued. cbn [numOrZero].
  rewrite !steady_orZero by done. f_equal. f_equal.
  - by destruct (companyName b).
  - by destruct (industry b).
Qed.

Lemma exported_sheets readDate e w wb :
  exportToExcel e w = Saved wb ->
  pickSheet "Business Data" "Company" (readWorkbook readDate wb)
  = (fun b => SheetRows [readRow readDate (profileRow b)]) <$> businessData w
  /\ pickSheet "Financial Records" "Financials" (readWorkbook readDate wb)
     = match financialRecords w with
       | [] => None
       | rs => Some (SheetRows (readRow readDate <$> (recordRow <$> rs)))
       end
  /\ pickSheet "KPIs" "Metrics" (readWorkbook readDate wb)
     = match kpiData w with
       | [] => None
       | ks => Some (SheetRows (readRow readDate <$> (kpiRow <$> ks)))
       end.
Proof.
  unfold readWorkbook, exportToExcel, pickSheet.
  destruct (businessData w), (financialRecords w), (kpiData w);
    cbn [app]; intros [= <-];
    cbn [workbookSheets fmap list_fmap list_to_map foldr fst snd option_fmap
         option_map];
    lookups; done.
Qed.

Lemma exported_sheets_read readDate e w wb :
  exportToExcel e w = Saved wb -> noSheetThrows (readWorkbook readDate wb).
Proof.
  intros Hwb. destruct (exported_sheets readDate e w wb Hwb) as (Hb & Hf & Hk).
  unfold noSheetThrows. rewrite Hb, Hf, Hk.
  by destruct (businessData w), (financialRecords w), (kpiData w).
Qed.

#[global] Instance onlyIndicators_refl : Reflexive onlyIndicators.
Proof. intros w. by split. Qed.

(** X15. [exportToExcel] saves a workbook when the store has a profile, a
    record or an indicator; on a store that has none of them [XLSX.write]
    throws, nothing is saved and the form shows a failure.  A workbook that
    was saved and is uploaded again, the library giving back the rows it was
    given, is imported with success.  Into a store without records it
    brings back the record collection (unique readable dates in ascending
    order, no empty date, amounts that [Number(x) || 0] leaves alone), the
    indicators (no empty metric or category, such amounts) and the profile
    with its fields but a new id and new time stamps; a part the store did
    not have is not in the workbook and leaves the importing store's own. *)
Theorem excel_round_trip readDate e e' w w0 :
  (businessData w = None -> financialRecords w = [] -> kpiData w = [] ->
   exportToExcel e w = WriteThrows "Workbook is empty"
   /\ handleExportExcel e w
      = (None, mkMessage MsgError "Failed to export to Excel"))
  /\ (businessData w <> None \/ financialRecords w <> [] \/ kpiData w <> [] ->
      exists wb, exportToExcel e w = Saved wb
        /\ handleExportExcel e w
           = (Some wb, mkMessage MsgSuccess "Data exported to Excel successfully"))
  /\ (forall wb,
        exportToExcel e w = Saved wb ->
        RecordsOk (financialRecords w) ->
        Forall sheetSafeRecord (financialRecords w) ->
        Forall sheetSafeKPI (kpiData w) ->
        financialRecords w0 = [] ->
        let res := importFromExcel e' (Workbook (readWorkbook readDate wb)) w0 in
        success (snd res) = true
        /\ getFinancialRecords (fst res) = financialRecords w
        /\ getKPIData (fst res)
           = (if decide (kpiData w = []) then kpiData w0 else kpiData w)
        /\ (forall b, businessData w = Some b -> sheetSafeProfile b ->
              getBusinessData (fst res) = Some (reissued e' b))
        /\ (businessData w = None -> getBusinessData (fst res) = businessData w0)).
Proof.
  split_and!.
  - intros Hb Hr Hk. unfold handleExportExcel, exportToExcel.
    by rewrite Hb, Hr, Hk.
  - intros Hsome. unfold handleExportExcel, exportToExcel.
    destruct (businessData w), (financialRecords w), (kpiData w); cbn [app];
      try (eexists; split; reflexivity).
    by destruct Hsome as [?|[?|?]].
  - intros wb Hwb Hok Hrs Hks Hw0. cbv zeta.
    set (sheets := readWorkbook readDate wb).
    destruct (importBody_phases e' sheets w0 (exported_sheets_read readDate e w wb Hwb))
      as (n & Hrun).
    unfold importFromExcel. rewrite Hrun. cbn [fst snd success].
    destruct (exported_sheets readDate e w wb Hwb) as (Hb & Hf & Hk).
    fold sheets in Hb, Hf, Hk.
    set (w1 := profilePhase e' sheets w0).
    set (w2 := recordsPhase e' sheets w1).
    assert (Hw1 : financialRecords w1 = [] /\ kpiData w1 = kpiData w0).
    { unfold w1, profilePhase. by destruct (sheetRows _). }
    assert (Hdated : datedRows (sheetRows (pickSheet "Financial Records" "Financials" sheets))
                     = asNew <$> financialRecords w).
    { rewrite Hf. destruct (financialRecords w) eqn:Hfr; [done|].
      cbn [sheetRows]. by apply datedRows_recordRow. }
    assert (Hw2 : financialRecords w2 = financialRecords w
                  /\ businessData w2 = businessData w1 /\ kpiData w2 = kpiData w1).
    { unfold w2, recordsPhase. rewrite Hdated. split.
      - apply (import_in_order e' _ [] w1); [apply Hw1| |done].
        eapply Forall_impl; [exact Hrs|]. by intros r (Hd & _).
      - by apply (R_foldl_add onlyRecords). }
    assert (Hkpis : kpisOfRows (sheetRows (pickSheet "KPIs" "Metrics" sheets)) = kpiData w).
    { rewrite Hk. destruct (kpiData w) eqn:Hkd; [done|].
      cbn [sheetRows]. by apply kpisOfRows_kpiRow. }
    set (w3 := indicatorsPhase sheets w2).
    assert (Hw3 : businessData w3 = businessData w2
                  /\ financialRecords w3 = financialRecords w2
                  /\ kpiData w3 = (if decide (kpiData w = []) then kpiData w2
                                   else kpiData w)).
    { unfold w3, indicatorsPhase. rewrite Hkpis.
      destruct (kpiData w); [by rewrite decide_True|by rewrite decide_False]. }
    unfold getFinancialRecords, getKPIData, getBusinessData.
    destruct Hw3 as (Hb3 & Hr3 & Hk3). destruct Hw2 as (Hr2 & Hb2 & Hk2).
    destruct Hw1 as (Hr1 & Hk1).
    rewrite Hb3, Hr3, Hk3, Hb2, Hr2, Hk2, Hk1.
    split_and!; [done..| |].
    + intros b Hbw Hsafe. unfold w1, profilePhase.
      rewrite Hb, Hbw. cbn [fmap option_fmap option_map sheetRows].
      by apply setBusinessData_profileRow.
    + intros Hbw. unfold w1, profilePhase. by rewrite Hb, Hbw.
Qed.

End ExcelFacts.

(* ===================================================================== *)
(** * Facts about the data input form *)
(* ===================================================================== *)

Section FormFacts.
Context `{HostDate}.

Lemma toBase36_go_nonempty fuel n acc :
  acc <> "" \/ fuel <> 0%nat -> toBase36_go fuel n acc <> "".
Proof.
  revert n acc. induction fuel as [|fuel IH]; intros n acc [Hacc|Hfuel]; simpl;
    try done.
  - destruct (n / 36 =? 0); [done|]. apply IH. by left.
  - destruct (n / 36 =? 0); [done|]. apply IH. by left.
Qed.

Lemma generateId_nonempty e : generateId e <> "".
Proof.
  unfold generateId, toBase36.
  assert (Hgo : forall n m, toBase36_go (Z.to_nat n + 1) m "" <> "").
  { intros n m. apply toBase36_go_nonempty. right. lia. }
  destruct (idStamp e <? 0); simpl; [done|].
  specialize (Hgo (Z.log2 (idStamp e)) (idStamp e)).
  by destruct (toBase36_go _ _ _).
Qed.

Lemma filter_added_key e r w :
  filter (fun x => date x = newDate e r) (financialRecords (addFinancialRecord e r w))
  = [ {| date := newDate e r; r_revenue := n_revenue r; expenses := n_expenses r;
         profit := n_profit r; r_cashFlow := n_cashFlow r |} ].
Proof.
  rewrite addFinancialRecord_records.
  set (new := mkFinancialRecord (newDate e r) _ _ _ _).
  change (newDate e r) with (date new).
  apply Permutation_singleton_r.
  rewrite sortByDate_perm, filter_app, filter_other_then_same, app_nil_l.
  by rewrite filter_cons, decide_True.
Qed.

(** X16. The three forms refuse an empty company name, an empty date and an
    empty metric name: the store and [localStorage] stay as they were and an
    error is shown.  What they accept is stored under the key typed in: the
    profile carries that company name and a non-empty id, the record is the
    only one under the date entered (the current date is never filled in),
    and the indicator is the only one under its metric. *)
Theorem form_guards e w :
  (forall form, strOrEmpty (p_companyName form) = "" ->
     handleBusinessDataSave e form w
     = (w, mkMessage MsgError "Company name is required"))
  /\ (forall form, strOrEmpty (p_companyName form) <> "" ->
      exists b,
        getBusinessData (fst (handleBusinessDataSave e form w)) = Some b
        /\ companyName b = strOrEmpty (p_companyName form) /\ id b <> ""
        /\ type_ (snd (handleBusinessDataSave e form w)) = MsgSuccess)
  /\ (forall form, strOrEmpty (n_date form) = "" ->
      handleFinancialRecordAdd e form w
      = (w, mkMessage MsgError "Date is required", form))
  /\ (forall form d, n_date form = Some d -> d <> "" ->
      filter (fun x => date x = d)
        (getFinancialRecords (handleFinancialRecordAdd e form w).1.1)
      = [ {| date := d; r_revenue := n_revenue form; expenses := n_expenses form;
             profit := n_profit form; r_cashFlow := n_cashFlow form |} ]
      /\ (handleFinancialRecordAdd e form w).2 = blankRecord e)
  /\ (forall kpi, metric kpi = "" ->
      handleKPIAdd kpi w = (w, mkMessage MsgError "Metric name is required", kpi))
  /\ (forall kpi, metric kpi <> "" ->
      filter (fun k => metric k = metric kpi) (getKPIData (handleKPIAdd kpi w).1.1)
      = [kpi]).
Proof.
  split_and!.
  - intros form Hc. unfold handleBusinessDataSave. by rewrite Hc.
  - intros form Hc. unfold handleBusinessDataSave.
    destruct (strOrEmpty (p_companyName form)) as [|c0 s0] eqn:Hname; [done|].
    cbn [truthyStr fst snd].
    eexists. split; [reflexivity|]. cbn. rewrite Hname. split_and!; [done| |done].
    destruct (p_id form) as [[|c1 s1]|]; try done; apply generateId_nonempty.
  - intros form Hd. unfold handleFinancialRecordAdd. by rewrite Hd.
  - intros form d Hd Hne. unfold handleFinancialRecordAdd, getFinancialRecords.
    rewrite Hd. assert (strOrEmpty (Some d) = d) as -> by (by destruct d).
    assert (truthyStr d = true) as -> by (by destruct d). cbn [fst snd].
    split; [|done].
    assert (newDate e form = d) as <-.
    { unfold newDate. rewrite Hd. by destruct d. }
    apply filter_added_key.
  - intros kpi Hm. unfold handleKPIAdd. by rewrite Hm.
  - intros kpi Hm. unfold handleKPIAdd, getKPIData.
    assert (truthyStr (metric kpi) = true) as -> by (by destruct (metric kpi)).
    cbn [fst snd]. simpl. rewrite filter_app, filter_other_then_same.
    by rewrite filter_cons, decide_True.
Qed.

(** X17. Saving the profile form as it was set up from the stored profile,
    with nothing edited, changes [updatedAt] and nothing else, in a profile
    that has a company name, a non-empty id and no [NaN], [-0] or [null]
    among its numbers. *)
Theorem handleBusinessDataSave_unedited e w b :
  getBusinessData w = Some b ->
  companyName b <> "" -> id b <> "" -> sheetSafeProfile b ->
  getBusinessData (fst (handleBusinessDataSave e (profileForm w) w))
  = Some {| id := id b; companyName := companyName b; industry := industry b;
            employees := employees b; revenue := revenue b; costs := costs b;
            assets := assets b; liabilities := liabilities b;
            cashFlow := cashFlow b; createdAt := createdAt b;
            updatedAt := now e |}
  /\ getFinancialRecords (fst (handleBusinessDataSave e (profileForm w) w))
     = getFinancialRecords w
  /\ getKPIData (fst (handleBusinessDataSave e (profileForm w) w)) = getKPIData w.
Proof.
  intros Hb Hname Hid (He & Hr & Hc & Ha & Hl & Hf).
  unfold profileForm, handleBusinessDataSave. rewrite Hb. cbn [asPartial p_companyName].
  assert (Hs : forall s, strOrEmpty (Some s) = s) by (by intros []).
  pose proof steady_orZero as Hn.
  rewrite Hs. assert (truthyStr (companyName b) = true) as ->
    by (by destruct (companyName b)).
  cbn [fst]. split_and!; [|done..].
  unfold getBusinessData, setBusinessData. cbn -[strOrEmpty orZero].
  rewrite !Hs, !Hn by done.
  by destruct (id b).
Qed.

Lemma endsWith_refl s : endsWith s s = true.
Proof. destruct s; cbn [endsWith]; by rewrite String.eqb_refl. Qed.

Lemma endsWith_length s f :
  endsWith s f = true -> (String.length f <= String.length s)%nat.
Proof.
  induction s as [|c s IH]; cbn [endsWith].
  - rewrite orb_false_r. by intros <-%String.eqb_eq.
  - intros [<-%String.eqb_eq|Hs]%orb_prop; [done|]. specialize (IH Hs).
    cbn [String.length]. lia.
Qed.

(** Of two endings of one string, the shorter is an ending of the longer. *)
Lemma endsWith_nested s a b :
  endsWith s a = true -> endsWith s b = true ->
  (String.length a <= String.length b)%nat -> endsWith b a = true.
Proof.
  induction s as [|c s IH]; cbn [endsWith].
  - rewrite !orb_false_r. intros <-%String.eqb_eq <-%String.eqb_eq _. done.
  - intros [Ha|Ha]%orb_prop [Hb|Hb]%orb_prop Hlen.
    + apply String.eqb_eq in Ha as <-. apply String.eqb_eq in Hb as <-.
      apply endsWith_refl.
    + apply String.eqb_eq in Ha as <-. apply endsWith_length in Hb.
      cbn [String.length] in Hlen. lia.
    + apply String.eqb_eq in Hb as <-. cbn [endsWith]. by rewrite Ha, orb_true_r.
    + by apply IH.
Qed.

Lemma endsWith_excludes s a b :
  endsWith s a = true ->
  endsWith a b = false -> endsWith b a = false -> endsWith s b = false.
Proof.
  intros Ha Hab Hba. destruct (endsWith s b) eqn:Hb; [|done].
  destruct (Nat.le_ge_cases (String.length a) (String.length b)) as [Hle|Hle].
  - by rewrite (endsWith_nested s a b) in Hba.
  - by rewrite (endsWith_nested s b a) in Hab.
Qed.

(** X18. An upload is dispatched on the exact ending of the file name.  A
    name with none of the endings [.csv], [.xlsx], [.xls] is refused with an
    error and the store stays as it was; so is a name whose extension is
    written in capitals.  A [.csv] file goes to the CSV import, which leaves
    the profile and the indicators alone.  [handleExportCSV] shows its
    success message even when the store has no record and nothing is
    saved. *)
Theorem handleFileUpload_dispatch e f w :
  (endsWith (name f) ".csv" = false -> endsWith (name f) ".xlsx" = false ->
   endsWith (name f) ".xls" = false ->
   handleFileUpload e (Some f) w
   = (w, Some (mkMessage MsgError "Please upload a CSV or Excel file"), None))
  /\ (endsWith (name f) ".CSV" = true \/ endsWith (name f) ".XLSX" = true
      \/ endsWith (name f) ".XLS" = true ->
      handleFileUpload e (Some f) w
      = (w, Some (mkMessage MsgError "Please upload a CSV or Excel file"), None))
  /\ (endsWith (name f) ".csv" = true ->
      (handleFileUpload e (Some f) w).1.1 = fst (importFromCSV e (asText f) w)
      /\ getBusinessData (handleFileUpload e (Some f) w).1.1 = getBusinessData w
      /\ getKPIData (handleFileUpload e (Some f) w).1.1 = getKPIData w)
  /\ (getFinancialRecords w = [] ->
      handleExportCSV e w
      = (None, mkMessage MsgSuccess "Financial data exported to CSV successfully")).
Proof.
  assert (Hrefuse : endsWith (name f) ".csv" = false ->
            endsWith (name f) ".xlsx" = false -> endsWith (name f) ".xls" = false ->
            handleFileUpload e (Some f) w
            = (w, Some (mkMessage MsgError "Please upload a CSV or Excel file"), None)).
  { intros Hc Hx Hl. unfold handleFileUpload. by rewrite Hc, Hx, Hl. }
  split_and!.
  - exact Hrefuse.
  - intros [Hu|[Hu|Hu]]; apply Hrefuse;
      by apply (endsWith_excludes _ _ _ Hu).
  - intros Hc. unfold handleFileUpload. rewrite Hc.
    assert (Hfst : (let r := importFromCSV e (asText f) w in
                    if success r.2
                    then (r.1, Some (mkMessage MsgSuccess (message r.2)),
                          Some (profileForm r.1))
                    else (r.1, Some (mkMessage MsgError (message r.2)), None)).1.1
                   = fst (importFromCSV e (asText f) w)).
    { cbv zeta. by destruct (success _). }
    cbv zeta in Hfst. rewrite Hfst. split; [done|].
    by destruct (R_importFromCSV onlyRecords (fun _ _ _ => conj eq_refl eq_refl)
                   e (asText f) w).
  - unfold getFinancialRecords, handleExportCSV, exportToCSV. by intros ->.
Qed.

End FormFacts.

(* ===================================================================== *)
(** * Facts about the clean-up of a model response *)
(* ===================================================================== *)

Lemma append_assoc_ (a b c : string) : (a +:+ b) +:+ c = a +:+ (b +:+ c).
Proof.
  induction a as [|x a IH]; [reflexivity|].
  change (String x ((a +:+ b) +:+ c) = String x (a +:+ (b +:+ c))).
  by rewrite IH.
Qed.

Lemma length_append_ (a b : string) :
  String.length (a +:+ b) = (String.length a + String.length b)%nat.
Proof.
  induction a as [|x a IH]; [reflexivity|].
  change (S (String.length (a +:+ b)) = S (String.length a + String.length b)).
  by rewrite IH.
Qed.

Lemma trimStart_app p c x :
  isWhite c = false -> trimStart (p +:+ String c x) = trimStart p +:+ String c x.
Proof.
  intros Hc. induction p as [|d p IH]; simpl; [by rewrite Hc|].
  by destruct (isWhite d).
Qed.

Lemma trimEnd_app y c q :
  isWhite c = false -> trimEnd (y +:+ String c q) = y +:+ String c (trimEnd q).
Proof.
  intros Hc. induction y as [|d y IH]; simpl.
  - rewrite Hc. by destruct (trimEnd q).
  - rewrite IH. by destruct y.
Qed.

Lemma trimStart_fixed s : trimStart (trimStart s) = trimStart s.
Proof.
  induction s as [|c s IH]; simpl; [done|].
  destruct (isWhite c) eqn:Hc; [done|]. simpl. by rewrite Hc.
Qed.

Lemma trimEnd_fixed s : trimEnd (trimEnd s) = trimEnd s.
Proof.
  induction s as [|c s IH]; simpl; [done|].
  destruct (trimEnd s) as [|d t] eqn:Ht.
  - destruct (isWhite c) eqn:Hc; simpl; [done|by rewrite Hc].
  - assert (Hstep : trimEnd (String c (String d t))
                    = match trimEnd (String d t) with
                      | EmptyString => if isWhite c then EmptyString
                                       else String c EmptyString
                      | String _ _ as u => String c u
                      end) by reflexivity.
    by rewrite Hstep, IH.
Qed.

Lemma trimEnd_head c s :
  isWhite c = false -> exists t, trimEnd (String c s) = String c t.
Proof. intros Hc. simpl. rewrite Hc. destruct (trimEnd s); eauto. Qed.

Lemma trimStart_head s c u : trimStart s = String c u -> isWhite c = false.
Proof.
  induction s as [|d s IH]; simpl; [done|].
  destruct (isWhite d) eqn:Hd; [done|]. by intros [= <- _].
Qed.

(** [trim] leaves a trimmed string alone. *)
Lemma trim_fixed s : trim (trim s) = trim s.
Proof.
  unfold trim.
  destruct (trimStart s) as [|c u] eqn:Hu; [done|].
  pose proof (trimStart_head s c u Hu) as Hc.
  destruct (trimEnd_head c u Hc) as (t & Ht). rewrite Ht.
  cbn [trimStart]. rewrite Hc, <- Ht. apply trimEnd_fixed.
Qed.

Lemma prefix_app f p c x :
  String.prefix f (p +:+ String c x) = true -> occurs c f = false ->
  exists p', p = f +:+ p'.
Proof.
  revert p. induction f as [|a f IH]; intros p Hpre Hocc; [by exists p|].
  simpl in Hocc. apply orb_false_elim in Hocc as [Ha Hf].
  destruct p as [|b p]; simpl in Hpre.
  - destruct (ascii_dec a c) as [->|]; [by rewrite Ascii.eqb_refl in Ha|done].
  - destruct (ascii_dec a b) as [->|]; [|done].
    destruct (IH p Hpre Hf) as (p' & ->). by exists p'.
Qed.

Lemma dropChars_app f r : dropChars (String.length f) (f +:+ r) = r.
Proof. induction f as [|a f IH]; simpl; done. Qed.

Lemma takeChars_app a b : takeChars (String.length a) (a +:+ b) = a.
Proof. induction a as [|x a IH]; simpl; [by destruct b|]. by rewrite IH. Qed.

Lemma stripSuffix_app f y c q :
  occurs c f = false ->
  stripSuffix f (y +:+ String c q) = (fun q' => y +:+ String c q') <$> stripSuffix f q.
Proof.
  intros Hf.
  assert (Hne : forall z, String.eqb (z +:+ String c q) f = false).
  { intros z. destruct (String.eqb_spec (z +:+ String c q) f) as [<-|]; [|done].
    rewrite occurs_app in Hf. simpl in Hf. rewrite Ascii.eqb_refl in Hf.
    by rewrite orb_true_r in Hf. }
  induction y as [|d y IH].
  - pose proof (Hne "") as H0.
    change ("" +:+ String c q) with (String c q) in *.
    cbn [stripSuffix]. rewrite H0. by destruct (stripSuffix f q).
  - pose proof (Hne (String d y)) as H0.
    change (String d y +:+ String c q) with (String d (y +:+ String c q)) in *.
    cbn [stripSuffix]. rewrite H0, IH.
    by destruct (stripSuffix f q).
Qed.

Lemma stripSuffix_Some f s before :
  stripSuffix f s = Some before -> s = before +:+ f.
Proof.
  revert before. induction s as [|c s IH]; intros before; cbn [stripSuffix].
  - destruct (String.eqb_spec "" f) as [<-|]; [|done]. by intros [= <-].
  - destruct (String.eqb_spec (String c s) f) as [<-|]; [by intros [= <-]|].
    destruct (stripSuffix f s) as [b|]; [|done]. intros [= <-].
    simpl. by rewrite (IH b).
Qed.

Lemma indexOf_app c p r :
  occurs c p = false -> indexOf c (p +:+ String c r) = Some (String.length p).
Proof.
  induction p as [|d p IH]; simpl; [by rewrite Ascii.eqb_refl|].
  intros [Hd Hp]%orb_false_elim. by rewrite Hd, IH.
Qed.

Lemma lastIndexOf_none c q : occurs c q = false -> lastIndexOf c q = None.
Proof.
  induction q as [|d q IH]; simpl; [done|].
  intros [Hd Hq]%orb_false_elim. by rewrite IH, Hd.
Qed.

Lemma lastIndexOf_app c y q :
  occurs c q = false -> lastIndexOf c (y +:+ String c q) = Some (String.length y).
Proof.
  intros Hq. induction y as [|d y IH]; simpl.
  - by rewrite lastIndexOf_none, Ascii.eqb_refl.
  - by rewrite IH.
Qed.

(** What every step of the clean-up keeps: a brace-delimited object with
    no opening brace before it and no closing brace after it. *)
Lemma dropClosing_around y q :
  occurs closeBrace q = false ->
  exists q', dropClosing (y +:+ String closeBrace q) = y +:+ String closeBrace q'
             /\ occurs closeBrace q' = false.
Proof.
  intros Hq. unfold dropClosing. rewrite stripSuffix_app by done.
  destruct (stripSuffix fence q) as [before|] eqn:Hs; cbn [fmap option_fmap option_map].
  - rewrite trimEnd_app by done. exists (trimEnd before). split; [done|].
    apply stripSuffix_Some in Hs. subst q. rewrite occurs_app in Hq.
    apply orb_false_elim in Hq as [Hb _]. by apply occurs_trimEnd.
  - by exists q.
Qed.

Lemma dropOpening_around opening p x :
  occurs openBrace opening = false -> occurs openBrace p = false ->
  startsWith (p +:+ String openBrace x) opening = true ->
  exists p', dropOpening opening (p +:+ String openBrace x) = p' +:+ String openBrace x
             /\ occurs openBrace p' = false.
Proof.
  intros Ho Hp Hstart. unfold startsWith in Hstart.
  destruct (prefix_app _ _ _ _ Hstart Ho) as (p' & ->).
  unfold dropOpening. rewrite append_assoc_, dropChars_app, trimStart_app by done.
  exists (trimStart p'). split; [done|].
  rewrite occurs_app in Hp. apply orb_false_elim in Hp as [_ Hp'].
  by apply occurs_trimStart.
Qed.

Lemma regroup p inner q :
  p +:+ String openBrace (inner +:+ String closeBrace q)
  = (p +:+ String openBrace inner) +:+ String closeBrace q.
Proof. by rewrite append_assoc_. Qed.

(** X19. From a model response that holds one brace-delimited object, with
    no opening brace in the text before it and no closing brace in the text
    after it, [extractJsonFromResponse] brings out exactly that object,
    whatever prose, white space or code fences surround it. *)
Theorem extractJsonFromResponse_recovers before inner after :
  occurs openBrace before = false ->
  occurs closeBrace after = false ->
  extractJsonFromResponse
    (before +:+ String openBrace (inner +:+ String closeBrace after))
  = String openBrace (inner +:+ String closeBrace "").
Proof.
  intros Hbefore Hafter. unfold extractJsonFromResponse.
  (* the first trim *)
  assert (Htrim : exists p q,
    trim (before +:+ String openBrace (inner +:+ String closeBrace after))
    = p +:+ String openBrace (inner +:+ String closeBrace q)
    /\ occurs openBrace p = false /\ occurs closeBrace q = false).
  { unfold trim. rewrite trimStart_app by done.
    rewrite regroup, trimEnd_app by done. rewrite <- regroup.
    exists (trimStart before), (trimEnd after).
    split; [done|]. split; [by apply occurs_trimStart|by apply occurs_trimEnd]. }
  destruct Htrim as (p & q & -> & Hp & Hq).
  (* the fences *)
  assert (Hfence : exists p' q',
    (if startsWith (p +:+ String openBrace (inner +:+ String closeBrace q)) "```json"
     then dropClosing (dropOpening "```json"
            (p +:+ String openBrace (inner +:+ String closeBrace q)))
     else if startsWith (p +:+ String openBrace (inner +:+ String closeBrace q)) "```"
     then dropClosing (dropOpening "```"
            (p +:+ String openBrace (inner +:+ String closeBrace q)))
     else p +:+ String openBrace (inner +:+ String closeBrace q))
    = p' +:+ String openBrace (inner +:+ String closeBrace q')
    /\ occurs openBrace p' = false /\ occurs closeBrace q' = false).
  { assert (Hstep : forall opening, occurs openBrace opening = false ->
      startsWith (p +:+ String openBrace (inner +:+ String closeBrace q)) opening = true ->
      exists p' q',
        dropClosing (dropOpening opening
          (p +:+ String openBrace (inner +:+ String closeBrace q)))
        = p' +:+ String openBrace (inner +:+ String closeBrace q')
        /\ occurs openBrace p' = false /\ occurs closeBrace q' = false).
    { intros opening Ho Hs.
      destruct (dropOpening_around opening p _ Ho Hp Hs) as (p' & -> & Hp').
      rewrite regroup.
      destruct (dropClosing_around (p' +:+ String openBrace inner) q Hq)
        as (q' & -> & Hq').
      rewrite <- regroup. by exists p', q'. }
    destruct (startsWith _ "```json") eqn:H1; [by apply Hstep|].
    destruct (startsWith _ "```") eqn:H2; [by apply Hstep|].
    by exists p, q. }
  destruct Hfence as (p' & q' & -> & Hp' & Hq').
  (* the braces *)
  rewrite indexOf_app by done.
  rewrite regroup, lastIndexOf_app by done.
  rewrite length_append_. cbn [String.length].
  rewrite (proj2 (Nat.ltb_lt _ _)) by lia.
  unfold substring_. rewrite <- regroup, dropChars_app.
  replace (String.length p' + S (String.length inner) + 1 - String.length p')%nat
    with (String.length (String openBrace (inner +:+ String closeBrace "")))
    by (cbn [String.length]; rewrite length_append_; cbn [String.length]; lia).
  change (String openBrace (inner +:+ String closeBrace q'))
    with (String openBrace inner +:+ String closeBrace q').
  assert (Hsplit : String openBrace inner +:+ String closeBrace q'
                   = String openBrace (inner +:+ String closeBrace "") +:+ q').
  { change (String openBrace (inner +:+ String closeBrace q')
            = String openBrace ((inner +:+ String closeBrace "") +:+ q')).
    by rewrite append_assoc_. }
  rewrite Hsplit, takeChars_app.
  (* the last trim *)
  unfold trim. cbn [trimStart].
  assert (isWhite openBrace = false) as -> by done.
  change (String openBrace (inner +:+ String closeBrace ""))
    with (String openBrace inner +:+ String closeBrace "").
  by rewrite trimEnd_app.
Qed.

Lemma prefix_app_l f g s :
  String.prefix (f +:+ g) s = true -> String.prefix f s = true.
Proof.
  revert s. induction f as [|a f IH]; intros s; [by destruct s|].
  change (String a f +:+ g) with (String a (f +:+ g)).
  destruct s as [|b s]; simpl; [done|].
  destruct (ascii_dec a b); [apply IH|done].
Qed.

(** X20. The result of [extractJsonFromResponse] never has white space at
    its ends; and a response with no code fence at its start and no brace
    comes back trimmed and otherwise as it was. *)
Theorem extractJsonFromResponse_trimmed responseText :
  trim (extractJsonFromResponse responseText) = extractJsonFromResponse responseText
  /\ (startsWith (trim responseText) fence = false ->
      occurs openBrace responseText = false ->
      extractJsonFromResponse responseText = trim responseText).
Proof.
  split; [apply trim_fixed|].
  intros Hfence Hbrace. unfold extractJsonFromResponse.
  assert (Hjson : startsWith (trim responseText) "```json" = false).
  { destruct (startsWith (trim responseText) "```json") eqn:Hj; [|done].
    unfold startsWith, fence in *.
    apply (prefix_app_l "```" "json") in Hj. by rewrite Hj in Hfence. }
  rewrite Hjson. unfold fence in Hfence. rewrite Hfence.
  assert (Hnone : indexOf openBrace (trim responseText) = None).
  { assert (Hocc : occurs openBrace (trim responseText) = false)
      by (by apply occurs_trimEnd, occurs_trimStart).
    revert Hocc. generalize (trim responseText) as s.
    induction s as [|d s IH]; simpl; [done|].
    intros [Hd Hs]%orb_false_elim. by rewrite Hd, IH. }
  rewrite Hnone. apply trim_fixed.
Qed.

(* ===================================================================== *)
(** * The sample templates and the imports *)
(* ===================================================================== *)

Section TemplateFacts.
Context `{HostDate}.

Lemma template_sheets_read readDate :
  noSheetThrows (readWorkbook readDate generateSampleDataTemplate).
Proof. by vm_compute. Qed.

(** X21. The two sample templates are files the imports accept, on any
    host and into any store.  The CSV template is imported with a count of
    6, the workbook template, the library giving back the rows it was
    given, with a count of 13; the CSV template changes the store exactly
    as the records sheet of the workbook template does; and the workbook
    template sets the profile it describes, then its six records, then
    replaces the indicators by its six. *)
Theorem templates_import readDate e w :
  importFromCSV e (Resolved (content generateSampleCSVTemplate)) w
  = (recordsPhase e (readWorkbook readDate generateSampleDataTemplate) w,
     {| success := true; message := "Successfully imported 6 financial records" |})
  /\ importFromExcel e (Workbook (readWorkbook readDate generateSampleDataTemplate)) w
     = (setKPIData templateKPIs
          (recordsPhase e (readWorkbook readDate generateSampleDataTemplate)
             (setBusinessData e templateProfile w)),
        {| success := true; message := "Successfully imported 13 records" |}).
Proof.
  split.
  - unfold importFromCSV, recordsPhase.
    assert (Hlines : csvLines (content generateSampleCSVTemplate)
                     = [ "Date,Revenue,Expenses,Profit,Cash Flow";
                         "2024-01-01,125000,100000,25000,15000";
                         "2024-02-01,130000,102000,28000,18000";
                         "2024-03-01,135000,105000,30000,20000";
                         "2024-04-01,140000,108000,32000,22000";
                         "2024-05-01,145000,110000,35000,25000";
                         "2024-06-01,150000,112000,38000,28000" ])
      by (by vm_compute).
    rewrite Hlines. cbn [length Nat.ltb Nat.leb hd tl].
    assert (Hsame :
      csvRecords (csvFields "Date,Revenue,Expenses,Profit,Cash Flow")
        [ "2024-01-01,125000,100000,25000,15000";
          "2024-02-01,130000,102000,28000,18000";
          "2024-03-01,135000,105000,30000,20000";
          "2024-04-01,140000,108000,32000,22000";
          "2024-05-01,145000,110000,35000,25000";
          "2024-06-01,150000,112000,38000,28000" ]
      = datedRows (sheetRows (pickSheet "Financial Records" "Financials"
                     (readWorkbook readDate generateSampleDataTemplate))))
      by (by vm_compute).
    rewrite Hsame. reflexivity.
  - destruct (importBody_phases e _ w (template_sheets_read readDate)) as (n & Hrun).
    destruct (importBody_done e _ w (template_sheets_read readDate))
      as (w' & Hdone & _).
    rewrite Hrun in Hdone. injection Hdone as _ Hn.
    unfold importFromExcel. rewrite Hrun, Hn. reflexivity.
Qed.

End TemplateFacts.

(* ===================================================================== *)
(** * Further runs with the ISO date parser *)
(* ===================================================================== *)

Lemma twoMonths_ascending : ascending (H := isoDates) (getFinancialRecords twoMonths).
Proof. evaluate. Qed.

Lemma addFinancialRecord_overwrites_witness :
  ascending (H := isoDates) (getFinancialRecords twoMonths)
  /\ newDate env0 january = newDate env1 januaryRevised
  /\ addFinancialRecord (H := isoDates) env1 januaryRevised
       (addFinancialRecord (H := isoDates) env0 january twoMonths)
     = addFinancialRecord (H := isoDates) env1 januaryRevised twoMonths.
Proof.
  split; [exact twoMonths_ascending|]. split; [reflexivity|].
  apply (addFinancialRecord_overwrites (H := isoDates));
    [exact twoMonths_ascending|reflexivity].
Defined.

Lemma addFinancialRecord_then_delete_witness :
  ascending (H := isoDates) (getFinancialRecords twoMonths)
  /\ deleteFinancialRecord (newDate env1 januaryRevised)
       (addFinancialRecord (H := isoDates) env1 januaryRevised twoMonths)
     = deleteFinancialRecord (newDate env1 januaryRevised) twoMonths.
Proof.
  split; [exact twoMonths_ascending|].
  apply (addFinancialRecord_then_delete (H := isoDates)). exact twoMonths_ascending.
Defined.

Lemma importFromCSV_blank_lines_witness :
  csvLines "   " = []
  /\ importFromCSV (H := isoDates) env0
       (Resolved ("Date,Revenue" +:+ String newline
                    ("   " +:+ String newline "2024-03-01,5"))) emptyWorld
     = importFromCSV (H := isoDates) env0
         (Resolved ("Date,Revenue" +:+ String newline "2024-03-01,5")) emptyWorld.
Proof.
  split; [reflexivity|].
  destruct (importFromCSV_blank_lines (H := isoDates) env0 emptyWorld
              "Date,Revenue" "   " "2024-03-01,5") as (_ & Hbetween & _);
    [reflexivity|exact Hbetween].
Defined.

Lemma importFromCSV_no_date_column_witness :
  (2 <= length (csvLines capitalsFile))%nat
  /\ ("date" ∉ csvFields (hd "" (csvLines capitalsFile)))
  /\ ("Date" ∉ csvFields (hd "" (csvLines capitalsFile)))
  /\ importFromCSV (H := isoDates) env0 (Resolved capitalsFile) twoMonths
     = (twoMonths, {| success := true;
                      message := "Successfully imported 0 financial records" |}).
Proof.
  assert (Hlen : (2 <= length (csvLines capitalsFile))%nat) by (vm_compute; lia).
  assert (Hlower : "date" ∉ csvFields (hd "" (csvLines capitalsFile)))
    by (apply (bool_decide_unpack _); vm_compute; exact I).
  assert (Hupper : "Date" ∉ csvFields (hd "" (csvLines capitalsFile)))
    by (apply (bool_decide_unpack _); vm_compute; exact I).
  split_and!; [exact Hlen|exact Hlower|exact Hupper|].
  exact (importFromCSV_no_date_column (H := isoDates) env0 capitalsFile twoMonths
           Hlen Hlower Hupper).
Defined.

Lemma importFromCSV_records_witness :
  csvSafe "2024-03-01"
  /\ getFinancialRecords
       (fst (importFromCSV (H := isoDates) env0 (Resolved marchFile) emptyWorld))
     = [march]
  /\ getFinancialRecords
       (fst (importFromCSV (H := isoDates) env0
               (Resolved ("Date,Revenue" +:+ String newline
                            ("2024-03-01" +:+ String comma " 1250.50 ")))
               emptyWorld))
     = [ {| date := "2024-03-01"; r_revenue := Number_ "1250.5";
            expenses := Num 0; profit := Num 0; r_cashFlow := Num 0 |} ].
Proof.
  assert (Hsafe : csvSafe "2024-03-01") by (by split_and!).
  split; [exact Hsafe|].
  destruct (importFromCSV_records (H := isoDates) env0 emptyWorld) as [_ Hline].
  split.
  - destruct (Hline "2024-03-01" "abc" Hsafe eq_refl eq_refl) as [Heq _].
    change marchFile
      with ("Date,Revenue" +:+ String newline ("2024-03-01" +:+ String comma "abc")).
    rewrite Heq. by vm_compute.
  - destruct (Hline "2024-03-01" " 1250.50 " Hsafe eq_refl eq_refl) as [Heq _].
    rewrite Heq. by vm_compute.
Defined.

Lemma importFromExcel_count_witness :
  noSheetThrows sampleWorkbook
  /\ textSheets sampleWorkbook
  /\ snd (importFromExcel (H := isoDates) env0 (Workbook sampleWorkbook) emptyWorld)
     = {| success := true; message := "Successfully imported 4 records" |}
  /\ date <$> getFinancialRecords
       (fst (importFromExcel (H := isoDates) env0 (Workbook sampleWorkbook) emptyWorld))
     = ["2024-01-01"; "2024-02-01"]
  /\ length (getKPIData
       (fst (importFromExcel (H := isoDates) env0 (Workbook sampleWorkbook) emptyWorld)))
     = 1%nat.
Proof.
  split; [exact sampleWorkbook_reads|]. split; [exact sampleWorkbook_text|].
  destruct (importFromExcel_count (H := isoDates) env0 sampleWorkbook emptyWorld
              sampleWorkbook_reads) as (Hcount & _ & Htext).
  destruct (Htext sampleWorkbook_text) as (Hstore & _).
  rewrite Hcount, Hstore. split_and!; by vm_compute.
Defined.

Lemma importFromExcel_profile_witness :
  pickSheet "Business Data" "Company" sampleWorkbook
  = Some (SheetRows
      [ {[ "Company Name" := CText "Acme"; "revenue" := CNumber (Num 1000) ]} ])
  /\ exists b,
       getBusinessData
         (fst (importFromExcel (H := isoDates) env1 (Workbook sampleWorkbook) acmeWorld))
       = Some b
       /\ id b = generateId env1 /\ createdAt b = now env1
       /\ companyName b = "Acme".
Proof.
  assert (Hsheet : pickSheet "Business Data" "Company" sampleWorkbook
     = Some (SheetRows
         [ {[ "Company Name" := CText "Acme"; "revenue" := CNumber (Num 1000) ]} ]))
    by (by vm_compute).
  split; [exact Hsheet|].
  destruct (importFromExcel_profile (H := isoDates) env1 sampleWorkbook acmeWorld
              _ _ Hsheet) as (b & Hb & Hid & Hcreated & _ & Hname & _).
  exists b. split_and!; [exact Hb|exact Hid|exact Hcreated|].
  apply Hname; [by vm_compute|done].
Defined.

Lemma fullWorld_ok : RecordsOk (H := isoDates) (financialRecords fullWorld).
Proof. evaluate. Qed.

Lemma fullWorld_records : Forall sheetSafeRecord (financialRecords fullWorld).
Proof.
  assert (financialRecords fullWorld
          = [ {| date := "2024-01-01"; r_revenue := Num 125000;
                 expenses := Num 100000; profit := Num 25000;
                 r_cashFlow := Num 15000 |};
              {| date := "2024-02-01"; r_revenue := Num 130000;
                 expenses := Num 102000; profit := Num 28000;
                 r_cashFlow := Num 18000 |} ]) as -> by (by vm_compute).
  repeat constructor; done.
Qed.

Lemma fullWorld_indicators : Forall sheetSafeKPI (kpiData fullWorld).
Proof.
  assert (kpiData fullWorld = [marketShare]) as -> by (by vm_compute).
  repeat constructor; done.
Qed.

Lemma excel_round_trip_witness :
  RecordsOk (H := isoDates) (financialRecords fullWorld)
  /\ Forall sheetSafeRecord (financialRecords fullWorld)
  /\ Forall sheetSafeKPI (kpiData fullWorld)
  /\ financialRecords emptyWorld = []
  /\ exists wb,
       exportToExcel env0 fullWorld = Saved wb
       /\ workbookName wb = "Acme_Data_2023-11-14.xlsx"
       /\ getFinancialRecords
            (fst (importFromExcel (H := isoDates) env1
                    (Workbook (readWorkbook (fun _ d => CNumber (Num d)) wb))
                    emptyWorld))
          = financialRecords fullWorld
       /\ getKPIData
            (fst (importFromExcel (H := isoDates) env1
                    (Workbook (readWorkbook (fun _ d => CNumber (Num d)) wb))
                    emptyWorld))
          = [marketShare].
Proof.
  split_and!; [exact fullWorld_ok|exact fullWorld_records|exact fullWorld_indicators
              |reflexivity|].
  destruct (excel_round_trip (H := isoDates) (fun _ d => CNumber (Num d)) env0 env1
              fullWorld emptyWorld) as (_ & _ & Himport).
  eexists. split; [reflexivity|]. split; [by vm_compute|].
  destruct (Himport _ eq_refl fullWorld_ok fullWorld_records fullWorld_indicators
              eq_refl) as (_ & Hrecords & Hkpis & _).
  split; [exact Hrecords|]. rewrite Hkpis. by vm_compute.
Defined.

Lemma handleBusinessDataSave_unedited_witness :
  exists b,
    getBusinessData acmeWorld = Some b
    /\ companyName b <> "" /\ id b <> "" /\ sheetSafeProfile b
    /\ getBusinessData
         (fst (handleBusinessDataSave env1 (profileForm acmeWorld) acmeWorld))
       = Some {| id := id b; companyName := "Acme"; industry := industry b;
                 employees := employees b; revenue := Num 1000; costs := Num 600;
                 assets := Num 5000; liabilities := Num 2000;
                 cashFlow := cashFlow b; createdAt := now env0;
                 updatedAt := now env1 |}.
Proof.
  destruct (getBusinessData acmeWorld) as [b|] eqn:Hb; [|by vm_compute in Hb].
  exists b.
  assert (Hname : companyName b <> "").
  { vm_compute in Hb. injection Hb as <-. done. }
  assert (Hid : id b <> "").
  { vm_compute in Hb. injection Hb as <-. done. }
  assert (Hsafe : sheetSafeProfile b).
  { vm_compute in Hb. injection Hb as <-. by repeat split. }
  split_and!; [reflexivity|exact Hname|exact Hid|exact Hsafe|].
  destruct (handleBusinessDataSave_unedited env1 acmeWorld b
              Hb Hname Hid Hsafe) as (Hsaved & _).
  rewrite Hsaved. vm_compute in Hb. injection Hb as <-. reflexivity.
Defined.

Lemma extractJsonFromResponse_recovers_witness :
  occurs openBrace chatBefore = false
  /\ occurs closeBrace chatAfter = false
  /\ extractJsonFromResponse
       (chatBefore +:+ String openBrace (chatInner +:+ String closeBrace chatAfter))
     = String openBrace (chatInner +:+ String closeBrace "").
Proof.
  split; [reflexivity|]. split; [reflexivity|].
  apply extractJsonFromResponse_recovers; reflexivity.
Defined.
